(** * react-audit-tracker: storage adapters and their query engine

    A shallow embedding of [LocalStorageAdapter], [ApiAdapter],
    [FirebaseAdapter] and of the [AuditProvider] coordinator, together with
    the properties of the storage contract.

    Conventions.
    - A JavaScript number that the code uses as a count, an index or a
      millisecond timestamp is a [Z].
    - An optional property ([id?: string]) is an [option]; [None] stands for
      [undefined] (and for [null]).
    - A promise that rejects is a [Throw]; one that resolves is an [Ok].
    - Strings are [string]s of bytes.  [toLowerCase] and [<] act on ASCII
      letters and on byte order. *)

From Stdlib Require Import ZArith List String Ascii Bool Lia.
From Stdlib Require Import Permutation Sorted DecimalString.
From Stdlib Require DecimalPos DecimalZ.
Import ListNotations.

Local Open Scope Z_scope.
Local Open Scope string_scope.

(* ================================================================== *)
(** * Part I.  The program                                             *)
(* ================================================================== *)

(** ** JavaScript built-ins used by the adapters *)

Module JS.

(** [new Error(message)]. *)
Record Error := mkError { message : string }.

(** The outcome of an [async] function. *)
Inductive Result (A : Type) :=
| Ok (a : A)
| Throw (e : Error).
Arguments Ok {A} a.
Arguments Throw {A} e.

Definition bind {A B} (r : Result A) (k : A -> Result B) : Result B :=
  match r with
  | Ok a => k a
  | Throw e => Throw e
  end.

(** [try { body } catch (error) { handler }]. *)
Definition try_catch {A} (body : Result A) (handler : Error -> Result A)
  : Result A :=
  match body with
  | Ok a => Ok a
  | Throw e => handler e
  end.

(** Truthiness of an optional string: [undefined] and [''] are falsy. *)
Definition truthy_string (s : option string) : bool :=
  match s with
  | Some s' => negb (s' =? "")
  | None => false
  end.

(** Truthiness of an optional number: [undefined] and [0] are falsy. *)
Definition truthy_number (n : option Z) : bool :=
  match n with
  | Some n' => negb (n' =? 0)%Z
  | None => false
  end.

(** [a || b] on optional strings and optional numbers. *)
Definition or_string (a : option string) (b : string) : string :=
  match a with
  | Some s => if s =? "" then b else s
  | None => b
  end.

Definition or_number (a : option Z) (b : Z) : Z :=
  match a with
  | Some n => if (n =? 0)%Z then b else n
  | None => b
  end.

(** [a !== b] where [a] may be [undefined] and [b] is a string. *)
Definition strict_neq (a : option string) (b : string) : bool :=
  match a with
  | Some s => negb (s =? b)
  | None => true
  end.

(** [String.prototype.toLowerCase]. *)
Definition lower_char (c : ascii) : ascii :=
  let n := nat_of_ascii c in
  if ((65 <=? n)%nat && (n <=? 90)%nat)%bool then ascii_of_nat (n + 32) else c.

Fixpoint toLowerCase (s : string) : string :=
  match s with
  | EmptyString => EmptyString
  | String c s' => String (lower_char c) (toLowerCase s')
  end.

(** [String.prototype.includes]. *)
Fixpoint includes (s sub : string) : bool :=
  if String.prefix sub s then true
  else match s with
       | EmptyString => false
       | String _ s' => includes s' sub
       end.

(** Template-literal rendering of an integer. *)
Definition number_to_string (n : Z) : string :=
  NilZero.string_of_int (Z.to_int n).

(** [String.prototype.substr(start, length)]. *)
Definition substr (s : string) (start len : nat) : string :=
  String.substring start len s.

(** Relative index of [Array.prototype.slice] and [splice]: a negative
    index counts from the end, and the result is clamped to the array. *)
Definition relative_index (len i : Z) : Z :=
  if (i <? 0)%Z then Z.max (len + i) 0 else Z.min i len.

(** [Array.prototype.slice(start, end)]. *)
Definition slice {A} (l : list A) (start end_ : Z) : list A :=
  let len := Z.of_nat (List.length l) in
  let k := relative_index len start in
  let final := relative_index len end_ in
  firstn (Z.to_nat (Z.max (final - k) 0)) (skipn (Z.to_nat k) l).

(** [Array.prototype.splice(start)]: every element from [start] on is
    removed; what the array holds afterwards is returned. *)
Definition splice {A} (l : list A) (start : Z) : list A :=
  let len := Z.of_nat (List.length l) in
  firstn (Z.to_nat (relative_index len start)) l.

(** [Math.ceil(a / b)] for integers [a], [b] with [b <> 0]. *)
Definition ceil_div (a b : Z) : Z := - ((- a) / b).

(** [Array.prototype.sort(compareFn)].

    ECMAScript requires the sort to be stable and leaves the sequence of
    comparator calls to the engine.  The reference taken here is
    left-to-right insertion: each element in turn is the pivot, compared
    as [compareFn(pivot, y)] against the already sorted prefix, and placed
    in front of the first [y] for which the comparator is negative. *)
Fixpoint insert {A} (compareFn : A -> A -> Z) (pivot : A) (sorted : list A)
  : list A :=
  match sorted with
  | [] => [pivot]
  | y :: rest =>
      if (compareFn pivot y <? 0)%Z then pivot :: y :: rest
      else y :: insert compareFn pivot rest
  end.

Definition sort {A} (compareFn : A -> A -> Z) (l : list A) : list A :=
  fold_left (fun sorted pivot => insert compareFn pivot sorted) l [].

End JS.

Import JS.

(** ** types.ts *)

(** A value of the open-ended [metadata] mapping, as [JSON.parse] builds
    it. *)
#[local] Set Warnings "-register-all".
Inductive Json :=
| JNull
| JBool (b : bool)
| JNumber (n : Z)
| JString (s : string)
| JArray (items : list Json)
| JObject (members : list (string * Json)).
#[local] Set Warnings "register-all".

Definition Metadata := list (string * Json).

Module AuditEvent.

Record t := mk {
  id : option string;
  action : string;
  entity : string;
  entityId : option string;
  userId : option string;
  userName : option string;
  description : option string;
  metadata : option Metadata;
  timestamp : option Z;
  ipAddress : option string;
  userAgent : option string
}.

(** [{ ...event, id: i, timestamp: ts }]. *)
Definition with_id_timestamp (event : t) (i : string) (ts : Z) : t :=
  {| id := Some i;
     action := action event;
     entity := entity event;
     entityId := entityId event;
     userId := userId event;
     userName := userName event;
     description := description event;
     metadata := metadata event;
     timestamp := Some ts;
     ipAddress := ipAddress event;
     userAgent := userAgent event |}.

(** [{ ...event, timestamp: ts }]. *)
Definition with_timestamp (event : t) (ts : Z) : t :=
  {| id := id event;
     action := action event;
     entity := entity event;
     entityId := entityId event;
     userId := userId event;
     userName := userName event;
     description := description event;
     metadata := metadata event;
     timestamp := Some ts;
     ipAddress := ipAddress event;
     userAgent := userAgent event |}.

(** [keyof AuditEvent]. *)
Inductive key :=
| k_id
| k_action
| k_entity
| k_entityId
| k_userId
| k_userName
| k_description
| k_metadata
| k_timestamp
| k_ipAddress
| k_userAgent.

(** The value read by [event[field]] when it is not [undefined]. *)
Inductive value :=
| VString (s : string)
| VNumber (n : Z)
| VObject (m : Metadata).

(** [event[field]]. *)
Definition get (field : key) (event : t) : option value :=
  match field with
  | k_id => option_map VString (id event)
  | k_action => Some (VString (action event))
  | k_entity => Some (VString (entity event))
  | k_entityId => option_map VString (entityId event)
  | k_userId => option_map VString (userId event)
  | k_userName => option_map VString (userName event)
  | k_description => option_map VString (description event)
  | k_metadata => option_map VObject (metadata event)
  | k_timestamp => option_map VNumber (timestamp event)
  | k_ipAddress => option_map VString (ipAddress event)
  | k_userAgent => option_map VString (userAgent event)
  end.

(** [a < b] on two values read from the same field.  Two strings compare
    by code unit, two numbers numerically; two plain objects both convert
    to the same primitive, so neither is below the other.  Values of two
    different kinds never meet, a field having one type. *)
Definition lt (a b : value) : bool :=
  match a, b with
  | VString x, VString y => String.ltb x y
  | VNumber x, VNumber y => (x <? y)%Z
  | _, _ => false
  end.

End AuditEvent.

Module AuditFilter.

Record t := mk {
  action : option string;
  entity : option string;
  entityId : option string;
  userId : option string;
  startDate : option Z;
  endDate : option Z;
  search : option string
}.

(** The filter object [{}]. *)
Definition empty : t := mk None None None None None None None.

End AuditFilter.

Module PaginationOptions.

Record t := mk {
  page : Z;
  pageSize : Z
}.

End PaginationOptions.

Inductive Direction := asc | desc.

Module SortOptions.

Record t := mk {
  field : AuditEvent.key;
  direction : Direction
}.

End SortOptions.

Module QueryOptions.

Record t := mk {
  filter : option AuditFilter.t;
  pagination : option PaginationOptions.t;
  sort : option SortOptions.t
}.

(** [options?.filter], [options?.pagination], [options?.sort]. *)
Definition filter_of (options : option t) : option AuditFilter.t :=
  match options with
  | Some o => filter o
  | None => None
  end.

Definition pagination_of (options : option t) : option PaginationOptions.t :=
  match options with
  | Some o => pagination o
  | None => None
  end.

Definition sort_of (options : option t) : option SortOptions.t :=
  match options with
  | Some o => sort o
  | None => None
  end.

End QueryOptions.

Module PaginatedResult.

Record t := mk {
  data : list AuditEvent.t;
  total : Z;
  page : Z;
  pageSize : Z;
  totalPages : Z
}.

End PaginatedResult.

(** ** window.localStorage *)

Module LocalStorage.

(** A JSON value that is neither an array nor a string: [null], a
    boolean, a number or an object.  None of them has a method
    [unshift], [filter] or [slice], and none can be spread. *)
Inductive plain :=
| Null
| Boolean (b : bool)
| Number (n : Z)
| Object (members : Metadata).

(** The text held under a key, by what [JSON.parse] makes of it: the
    empty string, a text on which [JSON.parse] throws, the text that
    [JSON.stringify] writes for an array of events (the one kind of text
    the adapter writes itself), or the text of a plain value.  The text
    of a JSON string, and of an array with a member that is no event, are
    not among them. *)
Inductive text :=
| Blank
| Garbage
| Serialized (events : list AuditEvent.t)
| Stringified (v : plain).

(** What [JSON.parse] returns for a text that parses. *)
Inductive parsed :=
| Array (events : list AuditEvent.t)
| NotArray (v : plain).

Definition t := string -> option text.

Definition empty : t := fun _ => None.

Definition getItem (key : string) (storage : t) : option text := storage key.

(** [setItem] throws when the quota is exceeded; [accepted] tells whether
    this write fits. *)
Definition setItem (accepted : bool) (key : string) (value : text)
  (storage : t) : Result t :=
  if accepted
  then Ok (fun k => if k =? key then Some value else storage k)
  else Throw (mkError "QuotaExceededError").

Definition removeItem (key : string) (storage : t) : t :=
  fun k => if k =? key then None else storage k.

(** [JSON.parse(data)].  The adapter types what comes back as
    [AuditEvent[]] and does not look at it. *)
Definition JSON_parse (data : text) : Result parsed :=
  match data with
  | Serialized events => Ok (Array events)
  | Stringified v => Ok (NotArray v)
  | Blank | Garbage => Throw (mkError "SyntaxError")
  end.

(** The receiver of [events.unshift(...)], [events.filter(...)],
    [[...events]] and [events.slice(...)]: on a value that is no array
    each of them throws a [TypeError]. *)
Definition array_receiver (events : parsed) : Result (list AuditEvent.t) :=
  match events with
  | Array events => Ok events
  | NotArray _ => Throw (mkError "TypeError")
  end.

(** [JSON.stringify(events)]. *)
Definition JSON_stringify (events : list AuditEvent.t) : text :=
  Serialized events.

End LocalStorage.

(** ** adapters/LocalStorageAdapter.ts *)

Module LocalStorageAdapter.

Record t := mk {
  storageKey : string;
  maxEvents : Z
}.

(** [constructor(storageKey = 'audit_events', maxEvents = 1000)]. *)
Definition new (key : option string) (max : option Z) : t :=
  {| storageKey := match key with Some k => k | None => "audit_events" end;
     maxEvents := match max with Some m => m | None => 1000 end |}.

(** What one call of [save] reads from its surroundings: the clock at the
    two [Date.now()] calls, [Math.random().toString(36)], and whether
    [localStorage] takes the write. *)
Record Env := mkEnv {
  id_now : Z;
  random36 : string;
  timestamp_now : Z;
  write_accepted : bool
}.

Definition getAllEvents (self : t) (storage : LocalStorage.t)
  : LocalStorage.parsed :=
  match
    try_catch
      (match LocalStorage.getItem (storageKey self) storage with
       | None | Some LocalStorage.Blank => Ok (LocalStorage.Array [])
       | Some data => LocalStorage.JSON_parse data
       end)
      (fun _ => Ok (LocalStorage.Array []))
  with
  | Ok events => events
  | Throw _ => LocalStorage.Array []
  end.

Definition generateId (env : Env) : string :=
  number_to_string (id_now env) ++ "-" ++ substr (random36 env) 2 9.

(** The event [save] stores for [event]. *)
Definition newEvent (env : Env) (event : AuditEvent.t) : AuditEvent.t :=
  AuditEvent.with_id_timestamp event
    (or_string (AuditEvent.id event) (generateId env))
    (or_number (AuditEvent.timestamp event) (timestamp_now env)).

(** [save]: the first thing done with what [getAllEvents] returned is
    [events.unshift(newEvent)]; a throw there, like a throw of [setItem],
    is caught and leaves [localStorage] as it was. *)
Definition save (self : t) (env : Env) (storage : LocalStorage.t)
  (event : AuditEvent.t) : Result unit * LocalStorage.t :=
  match
    bind (LocalStorage.array_receiver (getAllEvents self storage))
      (fun events =>
         let events := newEvent env event :: events in
         let events :=
           if (Z.of_nat (List.length events) >? maxEvents self)%Z
           then splice events (maxEvents self)
           else events in
         LocalStorage.setItem (write_accepted env) (storageKey self)
           (LocalStorage.JSON_stringify events) storage)
  with
  | Ok storage' => (Ok tt, storage')
  | Throw _ =>
      (Throw (mkError "Failed to save audit event to localStorage"), storage)
  end.

(** [wanted && actual !== wanted]. *)
Definition set_and_differs (wanted actual : option string) : bool :=
  match wanted with
  | Some w => negb (w =? "") && strict_neq actual w
  | None => false
  end.

(** [bound && stamp && stamp < bound]. *)
Definition set_and_below (bound stamp : option Z) : bool :=
  match bound, stamp with
  | Some b, Some ts => negb (b =? 0)%Z && negb (ts =? 0)%Z && (ts <? b)%Z
  | _, _ => false
  end.

(** [bound && stamp && stamp > bound]. *)
Definition set_and_above (bound stamp : option Z) : bool :=
  match bound, stamp with
  | Some b, Some ts => negb (b =? 0)%Z && negb (ts =? 0)%Z && (ts >? b)%Z
  | _, _ => false
  end.

(** [field?.toLowerCase().includes(searchLower)]. *)
Definition field_includes (searchLower : string) (field : option string)
  : bool :=
  match field with
  | Some f => includes (toLowerCase f) searchLower
  | None => false
  end.

(** The callback of [events.filter] in [applyFilters]. *)
Definition keeps (filter : AuditFilter.t) (event : AuditEvent.t) : bool :=
  if set_and_differs (AuditFilter.action filter)
       (Some (AuditEvent.action event)) then false
  else if set_and_differs (AuditFilter.entity filter)
       (Some (AuditEvent.entity event)) then false
  else if set_and_differs (AuditFilter.entityId filter)
       (AuditEvent.entityId event) then false
  else if set_and_differs (AuditFilter.userId filter)
       (AuditEvent.userId event) then false
  else if set_and_below (AuditFilter.startDate filter)
       (AuditEvent.timestamp event) then false
  else if set_and_above (AuditFilter.endDate filter)
       (AuditEvent.timestamp event) then false
  else
    match AuditFilter.search filter with
    | Some search =>
        if search =? "" then true
        else
          let searchLower := toLowerCase search in
          let searchableFields :=
            [ Some (AuditEvent.action event);
              Some (AuditEvent.entity event);
              AuditEvent.entityId event;
              AuditEvent.userName event;
              AuditEvent.description event ] in
          let matches :=
            existsb (field_includes searchLower) searchableFields in
          if negb matches then false else true
    | None => true
    end.

Definition applyFilters (events : list AuditEvent.t) (filter : AuditFilter.t)
  : list AuditEvent.t :=
  List.filter (keeps filter) events.

(** The comparator handed to [sort] in [applySort]. *)
Definition compareFn (sort : SortOptions.t) (a b : AuditEvent.t) : Z :=
  match AuditEvent.get (SortOptions.field sort) a with
  | None => 1
  | Some aValue =>
      match AuditEvent.get (SortOptions.field sort) b with
      | None => -1
      | Some bValue =>
          let comparison := 0 in
          let comparison :=
            if AuditEvent.lt aValue bValue then -1 else comparison in
          let comparison :=
            if AuditEvent.lt bValue aValue then 1 else comparison in
          match SortOptions.direction sort with
          | asc => comparison
          | desc => - comparison
          end
      end
  end.

Definition applySort (events : list AuditEvent.t) (sort : SortOptions.t)
  : list AuditEvent.t :=
  JS.sort (compareFn sort) events.

(** [query]: whatever the options, what [getAllEvents] returned is the
    receiver of [events.filter], is spread by [[...events]], or, with
    neither a filter nor a sort, is the receiver of [events.slice]; the
    first of these that is reached throws on a value that is no array,
    and nothing that can be observed is done before it. *)
Definition query (self : t) (storage : LocalStorage.t)
  (options : option QueryOptions.t) : Result PaginatedResult.t :=
  try_catch
    (bind (LocalStorage.array_receiver (getAllEvents self storage))
     (fun events =>
     let events :=
       match QueryOptions.filter_of options with
       | Some filter => applyFilters events filter
       | None => events
       end in
     let events :=
       match QueryOptions.sort_of options with
       | Some sort => applySort events sort
       | None => events
       end in
     let page :=
       or_number
         (option_map PaginationOptions.page
            (QueryOptions.pagination_of options)) 1 in
     let pageSize :=
       or_number
         (option_map PaginationOptions.pageSize
            (QueryOptions.pagination_of options)) 10 in
     let total := Z.of_nat (List.length events) in
     let totalPages := ceil_div total pageSize in
     let startIndex := (page - 1) * pageSize in
     let endIndex := startIndex + pageSize in
     let paginatedData := slice events startIndex endIndex in
     Ok {| PaginatedResult.data := paginatedData;
           PaginatedResult.total := total;
           PaginatedResult.page := page;
           PaginatedResult.pageSize := pageSize;
           PaginatedResult.totalPages := totalPages |}))
    (fun _ => Throw (mkError "Failed to query audit events from localStorage")).

Definition clear (self : t) (storage : LocalStorage.t)
  : Result unit * LocalStorage.t :=
  (Ok tt, LocalStorage.removeItem (storageKey self) storage).

(** A run of [save] calls, each awaited before the next; the run stops at
    the first call that throws. *)
Fixpoint save_all (self : t) (storage : LocalStorage.t)
  (calls : list (Env * AuditEvent.t)) : Result unit * LocalStorage.t :=
  match calls with
  | [] => (Ok tt, storage)
  | (env, event) :: rest =>
      match save self env storage event with
      | (Ok _, storage') => save_all self storage' rest
      | (Throw e, storage') => (Throw e, storage')
      end
  end.

End LocalStorageAdapter.

(** ** adapters/ApiAdapter.ts *)

Module ApiAdapter.

(** [ApiConfig]. *)
Record t := mk {
  baseUrl : string;
  endpoints_create : string;
  endpoints_list : string;
  headers : option (list (string * string));
  timeout : option Z
}.

(** The arguments of one [fetch] call. *)
Record Request := mkRequest {
  url : string;
  method : string;
  request_headers : list (string * string);
  body : option AuditEvent.t;
  signal : option Z
}.

(** The parsed body of a list response; every member may be missing. *)
Record Body := mkBody {
  body_data : option (list AuditEvent.t);
  body_total : option Z;
  body_page : option Z;
  body_pageSize : option Z;
  body_totalPages : option Z
}.

Record Response := mkResponse {
  status : Z;
  statusText : string;
  json : Result Body
}.

(** [response.ok]: the status is in the range 200-299. *)
Definition ok (response : Response) : bool :=
  ((200 <=? status response)%Z && (status response <=? 299)%Z)%bool.

(** The far end: [fetch] resolves with a response, or rejects (network
    failure, expired timeout). *)
Definition Fetch := Request -> Result Response.

Definition all_headers (self : t) : list (string * string) :=
  ("Content-Type", "application/json")
    :: match headers self with Some h => h | None => [] end.

Definition abort_signal (self : t) : option Z :=
  if truthy_number (timeout self) then timeout self else None.

(** The request [save] sends; [now] is the reading of [Date.now()]. *)
Definition create_request (self : t) (now : Z) (event : AuditEvent.t)
  : Request :=
  let url := baseUrl self ++ endpoints_create self in
  let eventData :=
    AuditEvent.with_timestamp event
      (or_number (AuditEvent.timestamp event) now) in
  {| url := url;
     method := "POST";
     request_headers := all_headers self;
     body := Some eventData;
     signal := abort_signal self |}.

Definition save (self : t) (now : Z) (fetch : Fetch) (event : AuditEvent.t)
  : Result unit :=
  try_catch
    (bind (fetch (create_request self now event))
       (fun response =>
          if negb (ok response)
          then Throw (mkError ("API request failed: " ++ statusText response))
          else Ok tt))
    (fun _ => Throw (mkError "Failed to save audit event via API")).

(** [String(value)] of each filter member that is neither [undefined] nor
    [null], in the order of [AuditFilter]. *)
Definition filter_params (filter : AuditFilter.t) : list (string * string) :=
  let text key (v : option string) :=
    match v with Some s => [(key, s)] | None => [] end in
  let number key (v : option Z) :=
    match v with Some n => [(key, number_to_string n)] | None => [] end in
  text "action" (AuditFilter.action filter)
  ++ text "entity" (AuditFilter.entity filter)
  ++ text "entityId" (AuditFilter.entityId filter)
  ++ text "userId" (AuditFilter.userId filter)
  ++ number "startDate" (AuditFilter.startDate filter)
  ++ number "endDate" (AuditFilter.endDate filter)
  ++ text "search" (AuditFilter.search filter).

Definition key_name (field : AuditEvent.key) : string :=
  match field with
  | AuditEvent.k_id => "id"
  | AuditEvent.k_action => "action"
  | AuditEvent.k_entity => "entity"
  | AuditEvent.k_entityId => "entityId"
  | AuditEvent.k_userId => "userId"
  | AuditEvent.k_userName => "userName"
  | AuditEvent.k_description => "description"
  | AuditEvent.k_metadata => "metadata"
  | AuditEvent.k_timestamp => "timestamp"
  | AuditEvent.k_ipAddress => "ipAddress"
  | AuditEvent.k_userAgent => "userAgent"
  end.

Definition direction_name (d : Direction) : string :=
  match d with asc => "asc" | desc => "desc" end.

(** The [URLSearchParams] of [buildQueryUrl], as the list of its pairs. *)
Definition query_params (options : option QueryOptions.t)
  : list (string * string) :=
  match QueryOptions.filter_of options with
  | Some filter => filter_params filter
  | None => []
  end
  ++ match QueryOptions.pagination_of options with
     | Some p =>
         [ ("page", number_to_string (PaginationOptions.page p));
           ("pageSize", number_to_string (PaginationOptions.pageSize p)) ]
     | None => []
     end
  ++ match QueryOptions.sort_of options with
     | Some s =>
         [ ("sortField", key_name (SortOptions.field s));
           ("sortDirection", direction_name (SortOptions.direction s)) ]
     | None => []
     end.

Definition buildQueryUrl (self : t) (options : option QueryOptions.t)
  : string :=
  let baseUrl := baseUrl self ++ endpoints_list self in
  let queryString :=
    String.concat "&"
      (map (fun kv => fst kv ++ "=" ++ snd kv) (query_params options)) in
  if queryString =? "" then baseUrl else baseUrl ++ "?" ++ queryString.

Definition query (self : t) (fetch : Fetch) (options : option QueryOptions.t)
  : Result PaginatedResult.t :=
  try_catch
    (let url := buildQueryUrl self options in
     bind
       (fetch {| url := url;
                 method := "GET";
                 request_headers := all_headers self;
                 body := None;
                 signal := abort_signal self |})
       (fun response =>
          if negb (ok response)
          then Throw (mkError ("API request failed: " ++ statusText response))
          else
            bind (json response)
              (fun result =>
                 Ok {| PaginatedResult.data :=
                         match body_data result with
                         | Some d => d
                         | None => []
                         end;
                       PaginatedResult.total :=
                         or_number (body_total result) 0;
                       PaginatedResult.page :=
                         or_number (body_page result) 1;
                       PaginatedResult.pageSize :=
                         or_number (body_pageSize result) 10;
                       PaginatedResult.totalPages :=
                         or_number (body_totalPages result) 0 |})))
    (fun _ => Throw (mkError "Failed to query audit events via API")).

End ApiAdapter.

(** ** Cloud Firestore, as far as [FirebaseAdapter] uses it *)

Module Firestore.

Inductive op := op_eq | op_ge | op_le.

(** [where(field, op, value)], [orderBy(field, direction)], [limit(n)]. *)
Inductive constraint :=
| where_ (field : AuditEvent.key) (o : op) (v : AuditEvent.value)
| orderBy (field : AuditEvent.key) (d : Direction)
| limit (n : Z).

Record document := mkDocument {
  doc_id : string;
  doc_data : AuditEvent.t
}.

(** [getDocs(q)] for the query [q] built from a list of constraints. *)
Definition GetDocs := list constraint -> Result (list document).

Definition value_eqb (a b : AuditEvent.value) : bool :=
  match a, b with
  | AuditEvent.VString x, AuditEvent.VString y => x =? y
  | AuditEvent.VNumber x, AuditEvent.VNumber y => (x =? y)%Z
  | _, _ => false
  end.

Definition holds (o : op) (x v : AuditEvent.value) : bool :=
  match o with
  | op_eq => value_eqb x v
  | op_ge => value_eqb x v || AuditEvent.lt v x
  | op_le => value_eqb x v || AuditEvent.lt x v
  end.

Definition has_field (field : AuditEvent.key) (d : document) : bool :=
  match AuditEvent.get field (doc_data d) with
  | Some _ => true
  | None => false
  end.

Definition order (field : AuditEvent.key) (dir : Direction)
  (a b : document) : Z :=
  match AuditEvent.get field (doc_data a), AuditEvent.get field (doc_data b)
  with
  | Some x, Some y =>
      let below :=
        match dir with
        | asc => AuditEvent.lt x y
        | desc => AuditEvent.lt y x
        end in
      if below then -1 else 0
  | _, _ => 0
  end.

(** One constraint applied to the documents selected so far.  A document
    without the field takes part in neither a filter nor an ordering on
    it; [limit] wants a positive number. *)
Definition apply (docs : list document) (c : constraint)
  : Result (list document) :=
  match c with
  | where_ field o v =>
      Ok (List.filter
            (fun d =>
               match AuditEvent.get field (doc_data d) with
               | Some x => holds o x v
               | None => false
               end)
            docs)
  | orderBy field dir =>
      Ok (JS.sort (order field dir) (List.filter (has_field field) docs))
  | limit n =>
      if (n <=? 0)%Z then Throw (mkError "invalid-argument")
      else Ok (firstn (Z.to_nat n) docs)
  end.

(** A collection answering queries. *)
Definition getDocs (collection : list document) : GetDocs :=
  fun q => fold_left (fun acc c => bind acc (fun docs => apply docs c)) q
             (Ok collection).

(** [addDoc(collection, data)].  [outcome] is the answer of the far
    end: the id it gave the new document, or its error.  Of the data
    written, a document keeps the attributes of the event; the
    [createdAt] member that the adapter writes beside them is read by
    nothing. *)
Definition addDoc (outcome : Result string) (data : AuditEvent.t)
  (collection : list document) : Result (list document) :=
  match outcome with
  | Ok id => Ok (collection ++ [mkDocument id data])%list
  | Throw e => Throw e
  end.

(** [deleteDoc(doc(db, name, id))], when the far end carries it out. *)
Definition deleteDoc (id : string) (collection : list document)
  : list document :=
  List.filter (fun d => negb (doc_id d =? id)) collection.

End Firestore.

(** ** adapters/FirebaseAdapter.ts *)

Module FirebaseAdapter.

(** What a call reads from its surroundings: whether the lazy
    [initialize] succeeds, and the collection behind [getDocs]. *)
Record Env := mkEnv {
  initialize : Result unit;
  getDocs : Firestore.GetDocs
}.

Definition where_string (field : AuditEvent.key) (v : option string)
  : list Firestore.constraint :=
  match v with
  | Some s =>
      if s =? "" then []
      else [Firestore.where_ field Firestore.op_eq (AuditEvent.VString s)]
  | None => []
  end.

Definition where_number (o : Firestore.op) (v : option Z)
  : list Firestore.constraint :=
  match v with
  | Some n =>
      if (n =? 0)%Z then []
      else [Firestore.where_ AuditEvent.k_timestamp o (AuditEvent.VNumber n)]
  | None => []
  end.

(** The constraints [query] composes, in the order it adds them. *)
Definition constraints (options : option QueryOptions.t)
  : list Firestore.constraint :=
  let filters :=
    match QueryOptions.filter_of options with
    | Some filter =>
        (where_string AuditEvent.k_action (AuditFilter.action filter)
         ++ where_string AuditEvent.k_entity (AuditFilter.entity filter)
         ++ where_string AuditEvent.k_entityId (AuditFilter.entityId filter)
         ++ where_string AuditEvent.k_userId (AuditFilter.userId filter)
         ++ where_number Firestore.op_ge (AuditFilter.startDate filter)
         ++ where_number Firestore.op_le (AuditFilter.endDate filter))%list
    | None => []
    end in
  let sortField :=
    match QueryOptions.sort_of options with
    | Some s => SortOptions.field s
    | None => AuditEvent.k_timestamp
    end in
  let sortDirection :=
    match QueryOptions.sort_of options with
    | Some s => SortOptions.direction s
    | None => desc
    end in
  let pageSize :=
    or_number
      (option_map PaginationOptions.pageSize
         (QueryOptions.pagination_of options)) 10 in
  (filters
   ++ [Firestore.orderBy sortField sortDirection]
   ++ [Firestore.limit pageSize])%list.

(** The event pushed for one document of the snapshot. *)
Definition event_of (doc : Firestore.document) : AuditEvent.t :=
  let data := Firestore.doc_data doc in
  {| AuditEvent.id := Some (Firestore.doc_id doc);
     AuditEvent.action := AuditEvent.action data;
     AuditEvent.entity := AuditEvent.entity data;
     AuditEvent.entityId := AuditEvent.entityId data;
     AuditEvent.userId := AuditEvent.userId data;
     AuditEvent.userName := AuditEvent.userName data;
     AuditEvent.description := AuditEvent.description data;
     AuditEvent.metadata := AuditEvent.metadata data;
     AuditEvent.timestamp := AuditEvent.timestamp data;
     AuditEvent.ipAddress := AuditEvent.ipAddress data;
     AuditEvent.userAgent := AuditEvent.userAgent data |}.

Definition query (env : Env) (options : option QueryOptions.t)
  : Result PaginatedResult.t :=
  try_catch
    (bind (initialize env)
       (fun _ =>
          let q := constraints options in
          let page :=
            or_number
              (option_map PaginationOptions.page
                 (QueryOptions.pagination_of options)) 1 in
          let pageSize :=
            or_number
              (option_map PaginationOptions.pageSize
                 (QueryOptions.pagination_of options)) 10 in
          bind (getDocs env q)
            (fun querySnapshot =>
               let events := map event_of querySnapshot in
               let total := Z.of_nat (List.length events) in
               let totalPages := ceil_div total pageSize in
               Ok {| PaginatedResult.data := events;
                     PaginatedResult.total := total;
                     PaginatedResult.page := page;
                     PaginatedResult.pageSize := pageSize;
                     PaginatedResult.totalPages := totalPages |})))
    (fun _ => Throw (mkError "Failed to query audit events from Firebase")).

(** What one call of [save] reads from its surroundings besides [Env]:
    the clock at the two [Date.now()] calls,
    [Math.random().toString(36)], [new Date().toISOString()], and the
    answer of [addDoc]. *)
Record WriteEnv := mkWriteEnv {
  id_now : Z;
  random36 : string;
  timestamp_now : Z;
  createdAt : string;
  added : Result string
}.

Definition generateId (w : WriteEnv) : string :=
  number_to_string (id_now w) ++ "-" ++ substr (random36 w) 2 9.

(** The event [save] writes for [event]. *)
Definition eventData (w : WriteEnv) (event : AuditEvent.t) : AuditEvent.t :=
  AuditEvent.with_id_timestamp event
    (or_string (AuditEvent.id event) (generateId w))
    (or_number (AuditEvent.timestamp event) (timestamp_now w)).

Definition save (env : Env) (w : WriteEnv)
  (collection : list Firestore.document) (event : AuditEvent.t)
  : Result unit * list Firestore.document :=
  match
    try_catch
      (bind (initialize env)
         (fun _ => Firestore.addDoc (added w) (eventData w event) collection))
      (fun error =>
         Throw (mkError ("Failed to save audit event to Firebase: "
                         ++ message error)))
  with
  | Ok collection' => (Ok tt, collection')
  | Throw e => (Throw e, collection)
  end.

(** [clear]: every document of the snapshot gets its [deleteDoc], all
    started before any is awaited; [refused] tells which of them the far
    end rejects.  The documents it carries out are gone whether or not
    [Promise.all] rejects. *)
Definition clear (env : Env) (refused : string -> bool)
  (collection : list Firestore.document)
  : Result unit * list Firestore.document :=
  match bind (initialize env) (fun _ => getDocs env []) with
  | Ok querySnapshot =>
      let ids := map Firestore.doc_id querySnapshot in
      let collection' :=
        fold_left
          (fun c id => if refused id then c else Firestore.deleteDoc id c)
          ids collection in
      if existsb refused ids
      then (Throw (mkError "Failed to clear audit events from Firebase"),
            collection')
      else (Ok tt, collection')
  | Throw _ =>
      (Throw (mkError "Failed to clear audit events from Firebase"),
       collection)
  end.

End FirebaseAdapter.

(** ** The coordinator: [AuditProvider] *)

Module AuditProvider.

(** The two [useState] cells. *)
Record State := mkState {
  loading : bool;
  error : option Error
}.

Definition setLoading (b : bool) (st : State) : State :=
  {| loading := b; error := error st |}.

Definition setError (e : option Error) (st : State) : State :=
  {| loading := loading st; error := e |}.

Definition clearError (st : State) : State := setError None st.

(** [track], given what [await adapter.save(event)] comes to. *)
Definition track (saved : Result unit) (st : State) : Result unit * State :=
  let st := setLoading true st in
  let st := setError None st in
  match saved with
  | Ok _ => (Ok tt, setLoading false st)
  | Throw err =>
      let error := err in
      let st := setError (Some error) st in
      (Throw error, setLoading false st)
  end.

(** [query], given what [await adapter.query(options)] comes to. *)
Definition query (queried : Result PaginatedResult.t) (st : State)
  : Result PaginatedResult.t * State :=
  let st := setLoading true st in
  let st := setError None st in
  match queried with
  | Ok result => (Ok result, setLoading false st)
  | Throw err =>
      let error := err in
      let st := setError (Some error) st in
      (Throw error, setLoading false st)
  end.

End AuditProvider.


(** ** components/AuditTable.tsx *)

Module AuditTable.

(** The [useState] cells of the component. *)
Record State := mkState {
  events : list AuditEvent.t;
  currentPage : Z;
  totalPages : Z;
  total : Z;
  filter : AuditFilter.t;
  sort : SortOptions.t;
  searchTerm : string
}.

(** The cells as the first render finds them. *)
Definition initial : State :=
  {| events := [];
     currentPage := 1;
     totalPages := 0;
     total := 0;
     filter := AuditFilter.empty;
     sort := {| SortOptions.field := AuditEvent.k_timestamp;
                SortOptions.direction := desc |};
     searchTerm := "" |}.

(** The options [fetchEvents] hands to [query]; [pageSize] is the prop. *)
Definition options (pageSize : Z) (st : State) : QueryOptions.t :=
  {| QueryOptions.filter :=
       Some {| AuditFilter.action := AuditFilter.action (filter st);
               AuditFilter.entity := AuditFilter.entity (filter st);
               AuditFilter.entityId := AuditFilter.entityId (filter st);
               AuditFilter.userId := AuditFilter.userId (filter st);
               AuditFilter.startDate := AuditFilter.startDate (filter st);
               AuditFilter.endDate := AuditFilter.endDate (filter st);
               AuditFilter.search :=
                 if searchTerm st =? "" then None
                 else Some (searchTerm st) |};
     QueryOptions.pagination :=
       Some {| PaginationOptions.page := currentPage st;
               PaginationOptions.pageSize := pageSize |};
     QueryOptions.sort := Some (sort st) |}.

(** [fetchEvents], given what [await query(options)] comes to: a result
    is taken over, a failure is logged and leaves the cells alone. *)
Definition fetchEvents (queried : Result PaginatedResult.t) (st : State)
  : State :=
  match queried with
  | Ok result =>
      {| events := PaginatedResult.data result;
         currentPage := currentPage st;
         totalPages := PaginatedResult.totalPages result;
         total := PaginatedResult.total result;
         filter := filter st;
         sort := sort st;
         searchTerm := searchTerm st |}
  | Throw _ => st
  end.

Definition setCurrentPage (page : Z) (st : State) : State :=
  {| events := events st;
     currentPage := page;
     totalPages := totalPages st;
     total := total st;
     filter := filter st;
     sort := sort st;
     searchTerm := searchTerm st |}.

Definition setSort (s : SortOptions.t) (st : State) : State :=
  {| events := events st;
     currentPage := currentPage st;
     totalPages := totalPages st;
     total := total st;
     filter := filter st;
     sort := s;
     searchTerm := searchTerm st |}.

Definition setSearchTerm (term : string) (st : State) : State :=
  {| events := events st;
     currentPage := currentPage st;
     totalPages := totalPages st;
     total := total st;
     filter := filter st;
     sort := sort st;
     searchTerm := term |}.

Definition setFilter (f : AuditFilter.t) (st : State) : State :=
  {| events := events st;
     currentPage := currentPage st;
     totalPages := totalPages st;
     total := total st;
     filter := f;
     sort := sort st;
     searchTerm := searchTerm st |}.

Definition handlePageChange (page : Z) (st : State) : State :=
  if ((page >=? 1)%Z && (page <=? totalPages st)%Z)%bool
  then setCurrentPage page st
  else st.

(** [prev.field === field]: two keys are the same name. *)
Definition same_field (a b : AuditEvent.key) : bool :=
  ApiAdapter.key_name a =? ApiAdapter.key_name b.

Definition handleSort (field : AuditEvent.key) (st : State) : State :=
  let prev := sort st in
  setCurrentPage 1
    (setSort
       {| SortOptions.field := field;
          SortOptions.direction :=
            if (same_field (SortOptions.field prev) field
                && match SortOptions.direction prev with
                   | asc => true
                   | desc => false
                   end)%bool
            then desc else asc |}
       st).

Definition handleSearch (value : string) (st : State) : State :=
  setCurrentPage 1 (setSearchTerm value st).

(** One member of the filter with the value to give it. *)
Inductive change :=
| action_is (value : string)
| entity_is (value : string)
| entityId_is (value : string)
| userId_is (value : string)
| startDate_is (value : Z)
| endDate_is (value : Z)
| search_is (value : string).

(** [value || undefined]. *)
Definition or_undefined_string (value : string) : option string :=
  if value =? "" then None else Some value.

Definition or_undefined_number (value : Z) : option Z :=
  if (value =? 0)%Z then None else Some value.

(** [{ ...prev, [key]: value || undefined }]. *)
Definition with_change (prev : AuditFilter.t) (c : change) : AuditFilter.t :=
  let f := prev in
  match c with
  | action_is v =>
      AuditFilter.mk (or_undefined_string v) (AuditFilter.entity f)
        (AuditFilter.entityId f) (AuditFilter.userId f)
        (AuditFilter.startDate f) (AuditFilter.endDate f)
        (AuditFilter.search f)
  | entity_is v =>
      AuditFilter.mk (AuditFilter.action f) (or_undefined_string v)
        (AuditFilter.entityId f) (AuditFilter.userId f)
        (AuditFilter.startDate f) (AuditFilter.endDate f)
        (AuditFilter.search f)
  | entityId_is v =>
      AuditFilter.mk (AuditFilter.action f) (AuditFilter.entity f)
        (or_undefined_string v) (AuditFilter.userId f)
        (AuditFilter.startDate f) (AuditFilter.endDate f)
        (AuditFilter.search f)
  | userId_is v =>
      AuditFilter.mk (AuditFilter.action f) (AuditFilter.entity f)
        (AuditFilter.entityId f) (or_undefined_string v)
        (AuditFilter.startDate f) (AuditFilter.endDate f)
        (AuditFilter.search f)
  | startDate_is v =>
      AuditFilter.mk (AuditFilter.action f) (AuditFilter.entity f)
        (AuditFilter.entityId f) (AuditFilter.userId f)
        (or_undefined_number v) (AuditFilter.endDate f)
        (AuditFilter.search f)
  | endDate_is v =>
      AuditFilter.mk (AuditFilter.action f) (AuditFilter.entity f)
        (AuditFilter.entityId f) (AuditFilter.userId f)
        (AuditFilter.startDate f) (or_undefined_number v)
        (AuditFilter.search f)
  | search_is v =>
      AuditFilter.mk (AuditFilter.action f) (AuditFilter.entity f)
        (AuditFilter.entityId f) (AuditFilter.userId f)
        (AuditFilter.startDate f) (AuditFilter.endDate f)
        (or_undefined_string v)
  end.

Definition handleFilterChange (c : change) (st : State) : State :=
  setCurrentPage 1 (setFilter (with_change (filter st) c) st).

Definition clearFilters (st : State) : State :=
  setCurrentPage 1 (setSearchTerm "" (setFilter AuditFilter.empty st)).

(** The two numbers of "Showing ... to ... of ... entries". *)
Definition showing_from (pageSize : Z) (st : State) : Z :=
  if (Z.of_nat (List.length (events st)) >? 0)%Z
  then (currentPage st - 1) * pageSize + 1
  else 0.

Definition showing_to (pageSize : Z) (st : State) : Z :=
  Z.min (currentPage st * pageSize) (total st).

(** The four buttons, with their [disabled] and their [onClick]. *)
Inductive button := First | Previous | Next | Last.

Definition disabled (b : button) (st : State) : bool :=
  match b with
  | First | Previous => (currentPage st =? 1)%Z
  | Next | Last => (currentPage st >=? totalPages st)%Z
  end.

Definition onClick (b : button) (st : State) : State :=
  match b with
  | First => handlePageChange 1 st
  | Previous => handlePageChange (currentPage st - 1) st
  | Next => handlePageChange (currentPage st + 1) st
  | Last => handlePageChange (totalPages st) st
  end.

End AuditTable.

(* ================================================================== *)
(** * Part I, continued.  Vocabulary of the properties                 *)
(* ================================================================== *)

(** ** Order induced by a comparator *)

Section Comparator.

Context {A : Type}.
Variable compareFn : A -> A -> Z.

(** [a] goes below [b]: the comparator answers a negative number. *)
Definition below (a b : A) : bool := (compareFn a b <? 0)%Z.

(** [a] and [b] are on one level: neither goes below the other. *)
Definition level (a b : A) : bool := negb (below a b) && negb (below b a).

(** No element goes below one that comes before it. *)
Definition ordered (l : list A) : Prop :=
  StronglySorted (fun a b => below b a = false) l.

End Comparator.

(** ** Field values *)

(** Two values are of one kind when both are strings, both numbers or
    both objects. *)
Definition same_kind (a b : AuditEvent.value) : bool :=
  match a, b with
  | AuditEvent.VString _, AuditEvent.VString _
  | AuditEvent.VNumber _, AuditEvent.VNumber _
  | AuditEvent.VObject _, AuditEvent.VObject _ => true
  | _, _ => false
  end.

(** The event has a value under the field. *)
Definition has_value (field : AuditEvent.key) (event : AuditEvent.t) : bool :=
  match AuditEvent.get field event with
  | Some _ => true
  | None => false
  end.

Definition lacks_value (field : AuditEvent.key) (event : AuditEvent.t)
  : bool :=
  negb (has_value field event).

(** The two events' values under the field compare equal: both are
    missing, or both are there and neither is less than the other. *)
Definition same_value (field : AuditEvent.key) (a b : AuditEvent.t) : bool :=
  match AuditEvent.get field a, AuditEvent.get field b with
  | Some x, Some y => negb (AuditEvent.lt x y) && negb (AuditEvent.lt y x)
  | None, None => true
  | _, _ => false
  end.

(** The order the direction asks for, on two values. *)
Definition directed_lt (d : Direction) (x y : AuditEvent.value) : bool :=
  match d with
  | asc => AuditEvent.lt x y
  | desc => AuditEvent.lt y x
  end.

(** ** Filters *)

(** [sub] occurs somewhere in [s]. *)
Definition Occurs (sub s : string) : Prop :=
  exists pre post, s = pre ++ sub ++ post.

(** The five fields [search] is tested against. *)
Definition searchable (event : AuditEvent.t) : list (option string) :=
  [ Some (AuditEvent.action event);
    Some (AuditEvent.entity event);
    AuditEvent.entityId event;
    AuditEvent.userName event;
    AuditEvent.description event ].

(** Case-insensitive substring match against any searchable field. *)
Definition SearchMatches (search : string) (event : AuditEvent.t) : Prop :=
  exists f, In (Some f) (searchable event)
            /\ Occurs (toLowerCase search) (toLowerCase f).

(** [search] is not given, or some searchable field contains it. *)
Definition search_ok (filter : AuditFilter.t) (event : AuditEvent.t) : bool :=
  match AuditFilter.search filter with
  | Some search =>
      (search =? "")
      || existsb (LocalStorageAdapter.field_includes (toLowerCase search))
           (searchable event)
  | None => true
  end.

(** The filter semantics in the words of the contract: every member of
    the filter that is given is a predicate, and all of them hold. *)
Definition ContractMatch (filter : AuditFilter.t) (event : AuditEvent.t)
  : Prop :=
  (forall a, AuditFilter.action filter = Some a ->
             AuditEvent.action event = a)
  /\ (forall a, AuditFilter.entity filter = Some a ->
                AuditEvent.entity event = a)
  /\ (forall a, AuditFilter.entityId filter = Some a ->
                AuditEvent.entityId event = Some a)
  /\ (forall a, AuditFilter.userId filter = Some a ->
                AuditEvent.userId event = Some a)
  /\ (forall d, AuditFilter.startDate filter = Some d ->
                exists ts, AuditEvent.timestamp event = Some ts /\ (d <= ts)%Z)
  /\ (forall d, AuditFilter.endDate filter = Some d ->
                exists ts, AuditEvent.timestamp event = Some ts /\ (ts <= d)%Z)
  /\ (forall s, AuditFilter.search filter = Some s -> SearchMatches s event).

(** The same with the two provisos of the local adapter: a member of the
    filter counts as given when it is neither empty nor zero, and a date
    bound constrains the events that carry a non-zero timestamp. *)
Definition Matches (filter : AuditFilter.t) (event : AuditEvent.t) : Prop :=
  (forall a, AuditFilter.action filter = Some a -> a <> "" ->
             AuditEvent.action event = a)
  /\ (forall a, AuditFilter.entity filter = Some a -> a <> "" ->
                AuditEvent.entity event = a)
  /\ (forall a, AuditFilter.entityId filter = Some a -> a <> "" ->
                AuditEvent.entityId event = Some a)
  /\ (forall a, AuditFilter.userId filter = Some a -> a <> "" ->
                AuditEvent.userId event = Some a)
  /\ (forall d ts, AuditFilter.startDate filter = Some d -> d <> 0%Z ->
                   AuditEvent.timestamp event = Some ts -> ts <> 0%Z ->
                   (d <= ts)%Z)
  /\ (forall d ts, AuditFilter.endDate filter = Some d -> d <> 0%Z ->
                   AuditEvent.timestamp event = Some ts -> ts <> 0%Z ->
                   (ts <= d)%Z)
  /\ (forall s, AuditFilter.search filter = Some s -> s <> "" ->
                SearchMatches s event).

(** Every member of the filter that is given is neither empty nor
    zero. *)
Definition plain_filter (filter : AuditFilter.t) : Prop :=
  AuditFilter.action filter <> Some ""
  /\ AuditFilter.entity filter <> Some ""
  /\ AuditFilter.entityId filter <> Some ""
  /\ AuditFilter.userId filter <> Some ""
  /\ AuditFilter.startDate filter <> Some 0%Z
  /\ AuditFilter.endDate filter <> Some 0%Z
  /\ AuditFilter.search filter <> Some "".

(** The event carries a timestamp other than zero. *)
Definition stamped (event : AuditEvent.t) : Prop :=
  exists ts, AuditEvent.timestamp event = Some ts /\ ts <> 0%Z.

(** A filter made of date bounds only. *)
Definition date_range (startDate endDate : option Z) : AuditFilter.t :=
  {| AuditFilter.action := None;
     AuditFilter.entity := None;
     AuditFilter.entityId := None;
     AuditFilter.userId := None;
     AuditFilter.startDate := startDate;
     AuditFilter.endDate := endDate;
     AuditFilter.search := None |}.

(** The filter with its date bounds taken away. *)
Definition without_dates (filter : AuditFilter.t) : AuditFilter.t :=
  {| AuditFilter.action := AuditFilter.action filter;
     AuditFilter.entity := AuditFilter.entity filter;
     AuditFilter.entityId := AuditFilter.entityId filter;
     AuditFilter.userId := AuditFilter.userId filter;
     AuditFilter.startDate := None;
     AuditFilter.endDate := None;
     AuditFilter.search := AuditFilter.search filter |}.

(** ** Pages *)

(** The page window of the contract: from index [(page-1)*pageSize] up to
    [page*pageSize], exclusive. *)
Definition page_window {A} (l : list A) (page pageSize : Z) : list A :=
  slice l ((page - 1) * pageSize) (page * pageSize).

(** The same window on a list, for a page and a size that are at least
    one: skip the earlier pages, take one page. *)
Definition nth_page {A} (l : list A) (page pageSize : Z) : list A :=
  firstn (Z.to_nat pageSize) (skipn (Z.to_nat ((page - 1) * pageSize)) l).

(** What [query] filters and sorts before it cuts the page. *)
Definition filtered (events : list AuditEvent.t)
  (filter : option AuditFilter.t) : list AuditEvent.t :=
  match filter with
  | Some f => LocalStorageAdapter.applyFilters events f
  | None => events
  end.

Definition sorted (events : list AuditEvent.t) (sort : option SortOptions.t)
  : list AuditEvent.t :=
  match sort with
  | Some s => LocalStorageAdapter.applySort events s
  | None => events
  end.

(** [options?.pagination?.page || 1] and [options?.pagination?.pageSize
    || 10]. *)
Definition page_of (options : option QueryOptions.t) : Z :=
  or_number
    (option_map PaginationOptions.page (QueryOptions.pagination_of options)) 1.

Definition pageSize_of (options : option QueryOptions.t) : Z :=
  or_number
    (option_map PaginationOptions.pageSize
       (QueryOptions.pagination_of options)) 10.

(** ** Sample data *)

Definition sample (action : string) (description : option string)
  (timestamp : option Z) : AuditEvent.t :=
  {| AuditEvent.id := None;
     AuditEvent.action := action;
     AuditEvent.entity := "User";
     AuditEvent.entityId := None;
     AuditEvent.userId := None;
     AuditEvent.userName := None;
     AuditEvent.description := description;
     AuditEvent.metadata := None;
     AuditEvent.timestamp := timestamp;
     AuditEvent.ipAddress := None;
     AuditEvent.userAgent := None |}.

(** The same event as [save] stores it. *)
Definition stored (id : string) (action : string)
  (description : option string) (timestamp : Z) : AuditEvent.t :=
  AuditEvent.with_id_timestamp (sample action description None) id timestamp.

(** A clock reading [now], a random suffix, a write that goes through. *)
Definition at_time (now : Z) : LocalStorageAdapter.Env :=
  {| LocalStorageAdapter.id_now := now;
     LocalStorageAdapter.random36 := "0.4fzyo82mvyr";
     LocalStorageAdapter.timestamp_now := now;
     LocalStorageAdapter.write_accepted := true |}.

(** The adapter as [AuditProvider] builds it by default. *)
Definition default_adapter : LocalStorageAdapter.t :=
  LocalStorageAdapter.new None None.

(** A [localStorage] holding the given events under the default key. *)
Definition holding (events : list AuditEvent.t) : LocalStorage.t :=
  fun k =>
    if k =? "audit_events" then Some (LocalStorage.Serialized events)
    else None.

(** A [localStorage] holding text that does not parse. *)
Definition corrupt : LocalStorage.t :=
  fun k => if k =? "audit_events" then Some LocalStorage.Garbage else None.

(** A [localStorage] holding the text of a value that is no array. *)
Definition holding_plain (v : LocalStorage.plain) : LocalStorage.t :=
  fun k =>
    if k =? "audit_events" then Some (LocalStorage.Stringified v) else None.

(** What [LocalStorageAdapter.query] and [LocalStorageAdapter.save] throw,
    whatever went wrong. *)
Definition local_query_error : Error :=
  mkError "Failed to query audit events from localStorage".

Definition local_save_error : Error :=
  mkError "Failed to save audit event to localStorage".

Definition only_page (page pageSize : Z) : option QueryOptions.t :=
  Some {| QueryOptions.filter := None;
          QueryOptions.pagination :=
            Some {| PaginationOptions.page := page;
                    PaginationOptions.pageSize := pageSize |};
          QueryOptions.sort := None |}.

Definition only_filter (filter : AuditFilter.t) : option QueryOptions.t :=
  Some {| QueryOptions.filter := Some filter;
          QueryOptions.pagination := None;
          QueryOptions.sort := None |}.

(** The two events of the search scenario, as stored. *)
Definition created_event : AuditEvent.t :=
  stored "1-x" "DOCUMENT_CREATED" (Some "Document created") 1.

Definition login_event : AuditEvent.t :=
  stored "2-y" "LOGIN" (Some "User login") 2.

(** The same two events as documents of a Firestore collection. *)
Definition doc_created : Firestore.document :=
  {| Firestore.doc_id := "a1"; Firestore.doc_data := created_event |}.

Definition doc_login : Firestore.document :=
  {| Firestore.doc_id := "b2"; Firestore.doc_data := login_event |}.

Definition firestore_of (collection : list Firestore.document)
  : FirebaseAdapter.Env :=
  {| FirebaseAdapter.initialize := Ok tt;
     FirebaseAdapter.getDocs := Firestore.getDocs collection |}.

(** Two stored events, the more recent first. *)
Definition two_events : list AuditEvent.t :=
  [ stored "2-b" "E2" None 2; stored "1-a" "E1" None 1 ].

(** [{ field: 'timestamp', direction: 'desc' }]. *)
Definition by_timestamp_desc : SortOptions.t :=
  {| SortOptions.field := AuditEvent.k_timestamp;
     SortOptions.direction := desc |}.

(** [{ field: 'timestamp', direction: 'asc' }]. *)
Definition by_timestamp_asc : SortOptions.t :=
  {| SortOptions.field := AuditEvent.k_timestamp;
     SortOptions.direction := asc |}.

(** Two saves whose drafts bring their own timestamps, the later draft
    carrying the earlier timestamp. *)
Definition backdated_saves : list (LocalStorageAdapter.Env * AuditEvent.t) :=
  [ (at_time 100, sample "A" None (Some 10));
    (at_time 101, sample "B" None (Some 5)) ].

(** ** Retention *)

(** What [save] keeps of the events once the new one is in front. *)
Definition retained (self : LocalStorageAdapter.t)
  (events : list AuditEvent.t) : list AuditEvent.t :=
  if (Z.of_nat (List.length events) >? LocalStorageAdapter.maxEvents self)%Z
  then splice events (LocalStorageAdapter.maxEvents self)
  else events.

(** The events a run of [save] calls stores, in the order of the calls. *)
Definition saved_events (calls : list (LocalStorageAdapter.Env * AuditEvent.t))
  : list AuditEvent.t :=
  map (fun c => LocalStorageAdapter.newEvent (fst c) (snd c)) calls.

(** Every write of the run is taken by [localStorage]. *)
Definition all_accepted (calls : list (LocalStorageAdapter.Env * AuditEvent.t))
  : Prop :=
  Forall (fun c => LocalStorageAdapter.write_accepted (fst c) = true) calls.

(** An adapter that retains three events, and four saves E1 to E4. *)
Definition adapter_of_three : LocalStorageAdapter.t :=
  LocalStorageAdapter.new None (Some 3%Z).

Definition four_saves : list (LocalStorageAdapter.Env * AuditEvent.t) :=
  [ (at_time 1, sample "E1" None None);
    (at_time 2, sample "E2" None None);
    (at_time 3, sample "E3" None None);
    (at_time 4, sample "E4" None None) ].

(** A draft that brings an empty id and the timestamp 0. *)
Definition falsy_draft : AuditEvent.t :=
  {| AuditEvent.id := Some "";
     AuditEvent.action := "LOGIN";
     AuditEvent.entity := "User";
     AuditEvent.entityId := None;
     AuditEvent.userId := None;
     AuditEvent.userName := None;
     AuditEvent.description := None;
     AuditEvent.metadata := None;
     AuditEvent.timestamp := Some 0%Z;
     AuditEvent.ipAddress := None;
     AuditEvent.userAgent := None |}.

(** A draft that brings an id and a timestamp of its own. *)
Definition own_draft : AuditEvent.t :=
  {| AuditEvent.id := Some "evt-7";
     AuditEvent.action := "LOGIN";
     AuditEvent.entity := "User";
     AuditEvent.entityId := None;
     AuditEvent.userId := None;
     AuditEvent.userName := None;
     AuditEvent.description := None;
     AuditEvent.metadata := None;
     AuditEvent.timestamp := Some 42%Z;
     AuditEvent.ipAddress := None;
     AuditEvent.userAgent := None |}.

(** ** More sample data *)

(** An event without a timestamp. *)
Definition unstamped : AuditEvent.t := sample "LOGIN" None None.

(** [{ search: 'doc' }]. *)
Definition search_doc : AuditFilter.t :=
  {| AuditFilter.action := None;
     AuditFilter.entity := None;
     AuditFilter.entityId := None;
     AuditFilter.userId := None;
     AuditFilter.startDate := None;
     AuditFilter.endDate := None;
     AuditFilter.search := Some "doc" |}.

(** A remote end that answers every request with HTTP 500. *)
Definition always_500 : ApiAdapter.Fetch :=
  fun _ =>
    Ok {| ApiAdapter.status := 500;
          ApiAdapter.statusText := "Internal Server Error";
          ApiAdapter.json := Throw (mkError "SyntaxError") |}.

Definition sample_api : ApiAdapter.t :=
  {| ApiAdapter.baseUrl := "https://example.test";
     ApiAdapter.endpoints_create := "/audit";
     ApiAdapter.endpoints_list := "/audit";
     ApiAdapter.headers := None;
     ApiAdapter.timeout := None |}.

(** The coordinator at rest. *)
Definition idle : AuditProvider.State :=
  {| AuditProvider.loading := false; AuditProvider.error := None |}.

(** What [ApiAdapter.save] throws, whatever went wrong. *)
Definition api_save_error : Error :=
  mkError "Failed to save audit event via API".

(** A page that holds a whole list. *)
Definition whole_page (events : list AuditEvent.t) : PaginationOptions.t :=
  {| PaginationOptions.page := 1;
     PaginationOptions.pageSize := Z.max 1 (Z.of_nat (List.length events)) |}.

(** ** Order of the store *)

(** No stored event has a later timestamp than one in front of it, and
    none that has a timestamp is behind one that has none. *)
Definition newest_first (events : list AuditEvent.t) : Prop :=
  ordered (LocalStorageAdapter.compareFn by_timestamp_desc) events.

(** The drafts of the run bring no timestamp, as [track] types them. *)
Definition stamped_by_clock
  (calls : list (LocalStorageAdapter.Env * AuditEvent.t)) : Prop :=
  Forall (fun c => AuditEvent.timestamp (snd c) = None) calls.

(** The clock does not go back from one save of the run to the next. *)
Definition clock_nondecreasing
  (calls : list (LocalStorageAdapter.Env * AuditEvent.t)) : Prop :=
  StronglySorted
    (fun c1 c2 =>
       (LocalStorageAdapter.timestamp_now (fst c1)
        <= LocalStorageAdapter.timestamp_now (fst c2))%Z)
    calls.

(* ================================================================== *)
(** * Part I, continued.  Vocabulary of the further properties         *)
(* ================================================================== *)

(** ** Pages of a query *)

(** The events a call resolved with; none when it threw. *)
Definition data_of (r : Result PaginatedResult.t) : list AuditEvent.t :=
  match r with
  | Ok result => PaginatedResult.data result
  | Throw _ => []
  end.

(** The options of one page of a listing. *)
Definition page_options (filter : option AuditFilter.t)
  (sort : option SortOptions.t) (page pageSize : Z) : option QueryOptions.t :=
  Some {| QueryOptions.filter := filter;
          QueryOptions.pagination :=
            Some {| PaginationOptions.page := page;
                    PaginationOptions.pageSize := pageSize |};
          QueryOptions.sort := sort |}.

(** Pages 1 to [n] of a listing, one after the other. *)
Definition pages_upto (self : LocalStorageAdapter.t) (storage : LocalStorage.t)
  (filter : option AuditFilter.t) (sort : option SortOptions.t)
  (pageSize : Z) (n : nat) : list AuditEvent.t :=
  flat_map
    (fun p =>
       data_of (LocalStorageAdapter.query self storage
                  (page_options filter sort (Z.of_nat p) pageSize)))
    (seq 1 n).

(** ** Filters *)

(** No member of the filter is given, or each is empty or zero. *)
Definition blank_filter (filter : AuditFilter.t) : Prop :=
  truthy_string (AuditFilter.action filter) = false
  /\ truthy_string (AuditFilter.entity filter) = false
  /\ truthy_string (AuditFilter.entityId filter) = false
  /\ truthy_string (AuditFilter.userId filter) = false
  /\ truthy_number (AuditFilter.startDate filter) = false
  /\ truthy_number (AuditFilter.endDate filter) = false
  /\ truthy_string (AuditFilter.search filter) = false.

(** The filter with another search term. *)
Definition searching (filter : AuditFilter.t) (term : string) : AuditFilter.t :=
  {| AuditFilter.action := AuditFilter.action filter;
     AuditFilter.entity := AuditFilter.entity filter;
     AuditFilter.entityId := AuditFilter.entityId filter;
     AuditFilter.userId := AuditFilter.userId filter;
     AuditFilter.startDate := AuditFilter.startDate filter;
     AuditFilter.endDate := AuditFilter.endDate filter;
     AuditFilter.search := Some term |}.

(** ** Stores *)

(** An adapter that retains nothing. *)
Definition adapter_of_none : LocalStorageAdapter.t :=
  LocalStorageAdapter.new None (Some 0%Z).

(** An adapter on a key of its own. *)
Definition other_adapter : LocalStorageAdapter.t :=
  LocalStorageAdapter.new (Some "other_events") None.

(** A clock reading [now], a random suffix, a write that is refused. *)
Definition refused_at (now : Z) : LocalStorageAdapter.Env :=
  {| LocalStorageAdapter.id_now := now;
     LocalStorageAdapter.random36 := "0.4fzyo82mvyr";
     LocalStorageAdapter.timestamp_now := now;
     LocalStorageAdapter.write_accepted := false |}.

(** ** Generated ids *)

(** The string has no ["-"] in it. *)
Fixpoint dashless (s : string) : bool :=
  match s with
  | EmptyString => true
  | String c s' => negb (Ascii.eqb c "-") && dashless s'
  end.

(** ** The remote adapter *)

(** The request [query] sends. *)
Definition list_request (self : ApiAdapter.t)
  (options : option QueryOptions.t) : ApiAdapter.Request :=
  {| ApiAdapter.url := ApiAdapter.buildQueryUrl self options;
     ApiAdapter.method := "GET";
     ApiAdapter.request_headers := ApiAdapter.all_headers self;
     ApiAdapter.body := None;
     ApiAdapter.signal := ApiAdapter.abort_signal self |}.

(** The result [query] makes of the body of a response. *)
Definition result_of_body (result : ApiAdapter.Body) : PaginatedResult.t :=
  {| PaginatedResult.data :=
       match ApiAdapter.body_data result with
       | Some d => d
       | None => []
       end;
     PaginatedResult.total := or_number (ApiAdapter.body_total result) 0;
     PaginatedResult.page := or_number (ApiAdapter.body_page result) 1;
     PaginatedResult.pageSize := or_number (ApiAdapter.body_pageSize result) 10;
     PaginatedResult.totalPages :=
       or_number (ApiAdapter.body_totalPages result) 0 |}.

(** What [ApiAdapter.query] throws, whatever went wrong. *)
Definition api_query_error : Error :=
  mkError "Failed to query audit events via API".

(** A remote end that answers every request with 200 and an empty JSON
    object. *)
Definition always_empty_object : ApiAdapter.Fetch :=
  fun _ =>
    Ok {| ApiAdapter.status := 200;
          ApiAdapter.statusText := "OK";
          ApiAdapter.json :=
            Ok {| ApiAdapter.body_data := None;
                  ApiAdapter.body_total := None;
                  ApiAdapter.body_page := None;
                  ApiAdapter.body_pageSize := None;
                  ApiAdapter.body_totalPages := None |} |}.

(** The names of the parameters of a request. *)
Definition param_names (options : option QueryOptions.t) : list string :=
  map fst (ApiAdapter.query_params options).

(** ** The Firestore adapter *)

(** What [FirebaseAdapter.query] throws, whatever went wrong. *)
Definition firebase_query_error : Error :=
  mkError "Failed to query audit events from Firebase".

(** What [FirebaseAdapter.clear] throws, whatever went wrong. *)
Definition firebase_clear_error : Error :=
  mkError "Failed to clear audit events from Firebase".

(** A save on a far end that gives the new document the id [doc]. *)
Definition writing_at (now : Z) (doc : string) : FirebaseAdapter.WriteEnv :=
  {| FirebaseAdapter.id_now := now;
     FirebaseAdapter.random36 := "0.4fzyo82mvyr";
     FirebaseAdapter.timestamp_now := now;
     FirebaseAdapter.createdAt := "2026-01-01T00:00:00.000Z";
     FirebaseAdapter.added := Ok doc |}.

(** A save on a far end that refuses the write. *)
Definition writing_refused (now : Z) : FirebaseAdapter.WriteEnv :=
  {| FirebaseAdapter.id_now := now;
     FirebaseAdapter.random36 := "0.4fzyo82mvyr";
     FirebaseAdapter.timestamp_now := now;
     FirebaseAdapter.createdAt := "2026-01-01T00:00:00.000Z";
     FirebaseAdapter.added := Throw (mkError "permission-denied") |}.

(** The options of a listing with a filter. *)
Definition filter_options (filter : AuditFilter.t)
  (pagination : option PaginationOptions.t) (sort : option SortOptions.t)
  : option QueryOptions.t :=
  Some {| QueryOptions.filter := Some filter;
          QueryOptions.pagination := pagination;
          QueryOptions.sort := sort |}.

(** ** The coordinator over several calls *)

(** One awaited call of the coordinator, with what the adapter made of
    it. *)
Inductive provider_call :=
| tracked (outcome : Result unit)
| queried (outcome : Result PaginatedResult.t).

Definition after_call (st : AuditProvider.State) (c : provider_call)
  : AuditProvider.State :=
  match c with
  | tracked outcome => snd (AuditProvider.track outcome st)
  | queried outcome => snd (AuditProvider.query outcome st)
  end.

(** The error the call ended in, if it did. *)
Definition failure_of (c : provider_call) : option Error :=
  match c with
  | tracked (Throw e) | queried (Throw e) => Some e
  | tracked (Ok _) | queried (Ok _) => None
  end.

(** The cells after the calls, each awaited before the next. *)
Definition after_calls (calls : list provider_call) (st : AuditProvider.State)
  : AuditProvider.State :=
  fold_left after_call calls st.

(** ** The table over several events *)

(** What can happen to the table: a fetch comes back, a button of the
    pager is clicked, a column head is clicked, the search box or a
    filter is changed, the filters are cleared. *)
Inductive table_event :=
| fetched (outcome : Result PaginatedResult.t)
| clicked (b : AuditTable.button)
| sorted_by (field : AuditEvent.key)
| searched (value : string)
| filter_changed (c : AuditTable.change)
| filters_cleared.

Definition table_step (st : AuditTable.State) (e : table_event)
  : AuditTable.State :=
  match e with
  | fetched outcome => AuditTable.fetchEvents outcome st
  | clicked b => AuditTable.onClick b st
  | sorted_by field => AuditTable.handleSort field st
  | searched value => AuditTable.handleSearch value st
  | filter_changed c => AuditTable.handleFilterChange c st
  | filters_cleared => AuditTable.clearFilters st
  end.

Definition table_run (events : list table_event) : AuditTable.State :=
  fold_left table_step events AuditTable.initial.

(** The fetch came back from the Firestore adapter, or failed. *)
Definition from_firestore (e : table_event) : Prop :=
  match e with
  | fetched outcome =>
      exists collection options,
        outcome = FirebaseAdapter.query (firestore_of collection) options
  | _ => True
  end.

(** The other direction. *)
Definition opposite (d : Direction) : Direction :=
  match d with asc => desc | desc => asc end.

(** A member of a filter that is missing, or given and truthy. *)
Definition missing_or_truthy_string (s : option string) : Prop :=
  s = None \/ truthy_string s = true.

Definition missing_or_truthy_number (n : option Z) : Prop :=
  n = None \/ truthy_number n = true.

(** A filter that holds no empty string and no zero. *)
Definition no_falsy_member (filter : AuditFilter.t) : Prop :=
  missing_or_truthy_string (AuditFilter.action filter)
  /\ missing_or_truthy_string (AuditFilter.entity filter)
  /\ missing_or_truthy_string (AuditFilter.entityId filter)
  /\ missing_or_truthy_string (AuditFilter.userId filter)
  /\ missing_or_truthy_number (AuditFilter.startDate filter)
  /\ missing_or_truthy_number (AuditFilter.endDate filter)
  /\ missing_or_truthy_string (AuditFilter.search filter).

(* ================================================================== *)
(** * Part II.  Properties                                             *)
(* ================================================================== *)

(** ** Arrays: [slice], [splice] *)

Lemma firstn_min_length {A} (n : nat) (l : list A) :
  firstn (Nat.min n (List.length l)) l = firstn n l.
Proof.
  destruct (Nat.le_ge_cases n (List.length l)) as [Hle | Hge].
  - now rewrite Nat.min_l.
  - rewrite Nat.min_r by exact Hge.
    now rewrite firstn_all, firstn_all2.
Qed.

(** From a non-negative [start], [slice] is the plain window of [len]
    elements that begins after the first [start] ones. *)
Lemma slice_window {A} (l : list A) (start len : Z) :
  (0 <= start)%Z -> (0 <= len)%Z ->
  slice l start (start + len)
  = firstn (Z.to_nat len) (skipn (Z.to_nat start) l).
Proof.
  intros Hs Hl. unfold slice, relative_index.
  set (L := Z.of_nat (List.length l)).
  assert (HL : (0 <= L)%Z) by (subst L; lia).
  destruct (start <? 0)%Z eqn:E1; [apply Z.ltb_lt in E1; lia |].
  destruct (start + len <? 0)%Z eqn:E2; [apply Z.ltb_lt in E2; lia |].
  destruct (Z.le_gt_cases L start) as [Hge | Hlt].
  - rewrite (skipn_all2 l (n := Z.to_nat start)) by (subst L; lia).
    rewrite (skipn_all2 l (n := Z.to_nat (Z.min start L))) by (subst L; lia).
    now rewrite !firstn_nil.
  - replace (Z.min start L) with start by lia.
    rewrite <- (firstn_min_length (Z.to_nat len)).
    f_equal. rewrite length_skipn. subst L. lia.
Qed.

(** [splice(start)] with a start inside the array keeps the first [start]
    elements. *)
Lemma splice_firstn {A} (l : list A) (start : Z) :
  (0 <= start)%Z -> splice l start = firstn (Z.to_nat start) l.
Proof.
  intros Hs. unfold splice, relative_index.
  destruct (start <? 0)%Z eqn:E; [apply Z.ltb_lt in E; lia |].
  destruct (Z.le_gt_cases start (Z.of_nat (List.length l))) as [Hle | Hgt].
  - now rewrite Z.min_l.
  - rewrite Z.min_r by lia. rewrite Nat2Z.id.
    now rewrite firstn_all, firstn_all2 by lia.
Qed.

Lemma slice_length_le {A} (l : list A) (start len : Z) :
  (0 <= len)%Z ->
  (Z.of_nat (List.length (slice l start (start + len))) <= len)%Z.
Proof.
  intros Hl. unfold slice.
  rewrite length_firstn.
  set (L := Z.of_nat (List.length l)).
  assert (Hd : (relative_index L (start + len) - relative_index L start
                <= len)%Z).
  { unfold relative_index.
    destruct (start + len <? 0)%Z eqn:E1; destruct (start <? 0)%Z eqn:E2;
      try apply Z.ltb_lt in E1; try apply Z.ltb_lt in E2;
      try apply Z.ltb_ge in E1; try apply Z.ltb_ge in E2; subst L; lia. }
  lia.
Qed.

(** ** Strings: [includes] *)

Lemma prefix_iff (sub s : string) :
  String.prefix sub s = true <-> exists post, s = sub ++ post.
Proof.
  revert s. induction sub as [| c sub IH]; intros s.
  - split; [intros _; now exists s | intros _; now destruct s].
  - destruct s as [| d s]; simpl.
    + split; [discriminate | intros [post H]; discriminate].
    + destruct (ascii_dec c d) as [-> | Hcd].
      * rewrite IH. split; intros [post H]; exists post.
        -- now rewrite H.
        -- now inversion H.
      * split; [discriminate | intros [post H]; inversion H; congruence].
Qed.

Lemma includes_empty (sub : string) :
  includes "" sub = String.prefix sub "".
Proof. cbn [includes]. now destruct (String.prefix sub ""). Qed.

Lemma includes_String (c : ascii) (s sub : string) :
  includes (String c s) sub
  = (String.prefix sub (String c s) || includes s sub)%bool.
Proof. cbn [includes]. now destruct (String.prefix sub (String c s)). Qed.

(** [s.includes(sub)] holds exactly when [sub] occurs somewhere in [s]. *)
Lemma includes_iff (s sub : string) :
  includes s sub = true <-> exists pre post, s = pre ++ sub ++ post.
Proof.
  induction s as [| c s IH].
  - rewrite includes_empty, prefix_iff. split.
    + intros [post H]. now exists "", post.
    + intros (pre & post & H). destruct pre; [now exists post | discriminate].
  - rewrite includes_String, orb_true_iff, prefix_iff, IH. split.
    + intros [[post H] | (pre & post & H)].
      * now exists "", post.
      * exists (String c pre), post. simpl. now rewrite H.
    + intros (pre & post & H). destruct pre as [| d pre].
      * left. now exists post.
      * right. exists pre, post. now inversion H.
Qed.

(** ** Arrays: [sort] *)

Local Open Scope list_scope.

Section SortAnyComparator.

Context {A : Type}.
Variable compareFn : A -> A -> Z.

Lemma insert_permutation (x : A) (l : list A) :
  Permutation (x :: l) (insert compareFn x l).
Proof.
  induction l as [| y l IH]; simpl.
  - apply Permutation_refl.
  - destruct (compareFn x y <? 0)%Z.
    + apply Permutation_refl.
    + eapply perm_trans; [apply perm_swap | now apply perm_skip].
Qed.

Lemma fold_insert_permutation (l acc : list A) :
  Permutation (acc ++ l)
    (fold_left (fun sorted pivot => insert compareFn pivot sorted) l acc).
Proof.
  revert acc. induction l as [| x l IH]; intros acc; simpl.
  - now rewrite app_nil_r.
  - eapply perm_trans; [| apply IH].
    change (acc ++ x :: l) with (acc ++ [x] ++ l). rewrite app_assoc.
    apply Permutation_app_tail.
    eapply perm_trans; [| apply insert_permutation].
    apply Permutation_sym, Permutation_cons_append.
Qed.

(** Whatever the comparator, [sort] rearranges and neither drops nor
    duplicates. *)
Lemma sort_permutation (l : list A) : Permutation l (JS.sort compareFn l).
Proof. exact (fold_insert_permutation l []). Qed.

Lemma sort_length (l : list A) :
  List.length (JS.sort compareFn l) = List.length l.
Proof. symmetry. apply Permutation_length, sort_permutation. Qed.

Lemma sort_In (x : A) (l : list A) : In x (JS.sort compareFn l) <-> In x l.
Proof.
  split; apply Permutation_in;
    [apply Permutation_sym |]; apply sort_permutation.
Qed.

End SortAnyComparator.

(** ** Sorted lists *)

Section StronglySortedFacts.

Context {A : Type}.
Variable R : A -> A -> Prop.

Lemma StronglySorted_app_inv (l1 l2 : list A) :
  StronglySorted R (l1 ++ l2) ->
  StronglySorted R l1 /\ StronglySorted R l2
  /\ (forall a b, In a l1 -> In b l2 -> R a b).
Proof.
  induction l1 as [| x l1 IH]; simpl; intros H.
  - repeat split; [constructor | exact H | intros a b []].
  - inversion H as [| ? ? Hs Hx]; subst.
    destruct (IH Hs) as (H1 & H2 & H12).
    rewrite Forall_forall in Hx. repeat split.
    + constructor; [exact H1 |]. apply Forall_forall. intros b Hb.
      apply Hx, in_or_app. now left.
    + exact H2.
    + intros a b [<- | Ha] Hb; [| now apply H12].
      apply Hx, in_or_app. now right.
Qed.

Lemma StronglySorted_app (l1 l2 : list A) :
  StronglySorted R l1 -> StronglySorted R l2 ->
  (forall a b, In a l1 -> In b l2 -> R a b) ->
  StronglySorted R (l1 ++ l2).
Proof.
  induction l1 as [| x l1 IH]; simpl; intros H1 H2 H12; [exact H2 |].
  inversion H1 as [| ? ? Hs Hx]; subst. constructor.
  - apply IH; [exact Hs | exact H2 |]. intros a b Ha Hb. apply H12; auto.
  - apply Forall_app. split; [exact Hx |].
    apply Forall_forall. intros b Hb. apply H12; auto.
Qed.

Lemma StronglySorted_firstn (n : nat) (l : list A) :
  StronglySorted R l -> StronglySorted R (firstn n l).
Proof.
  intros H. rewrite <- (firstn_skipn n l) in H.
  now apply StronglySorted_app_inv in H.
Qed.

End StronglySortedFacts.

Lemma StronglySorted_rev {A} (R : A -> A -> Prop) (l : list A) :
  StronglySorted (fun a b => R b a) l -> StronglySorted R (rev l).
Proof.
  induction 1 as [| x l Hs IH Hx]; simpl; [constructor |].
  apply StronglySorted_app; [exact IH | repeat constructor |].
  intros a b Ha [<- | []]. rewrite Forall_forall in Hx.
  apply Hx. now apply in_rev.
Qed.

(** A list that is in order already comes out of [sort] as it went in. *)
Section SortOrdered.

Context {A : Type}.
Variable compareFn : A -> A -> Z.

Lemma insert_last (x : A) (l : list A) :
  (forall y, In y l -> below compareFn x y = false) ->
  insert compareFn x l = l ++ [x].
Proof.
  induction l as [| y l IH]; intros H; [reflexivity |].
  cbn [insert]. fold (below compareFn x y).
  rewrite (H y (or_introl eq_refl)). cbn [app]. f_equal.
  apply IH. intros z Hz. apply H. now right.
Qed.

Lemma fold_insert_ordered_id (l acc : list A) :
  ordered compareFn (acc ++ l) ->
  fold_left (fun sorted pivot => insert compareFn pivot sorted) l acc
  = acc ++ l.
Proof.
  revert acc. induction l as [| x l IH]; intros acc H; simpl.
  - now rewrite app_nil_r.
  - rewrite insert_last.
    + rewrite IH; rewrite <- app_assoc; [reflexivity | exact H].
    + apply StronglySorted_app_inv in H. destruct H as (_ & _ & H).
      intros y Hy. apply (H y x Hy). now left.
Qed.

Lemma sort_ordered_id (l : list A) :
  ordered compareFn l -> JS.sort compareFn l = l.
Proof. intros H. exact (fold_insert_ordered_id l [] H). Qed.

End SortOrdered.

(** A comparator whose negative answers form a strict weak order: nothing
    is below itself, and whatever is below [c] is below [b] unless [b] is
    itself below [c]. *)
Section SortStrictWeakOrder.

Context {A : Type}.
Variable compareFn : A -> A -> Z.

Abbreviation below := (below compareFn).
Abbreviation level := (level compareFn).
Abbreviation ordered := (ordered compareFn).

Hypothesis below_irrefl : forall a, below a a = false.
Hypothesis below_trans :
  forall a b c, below a b = true -> below b c = true -> below a c = true.
Hypothesis below_cotrans :
  forall a b c, below a c = true -> below a b = true \/ below b c = true.

Lemma below_asym (a b : A) : below a b = true -> below b a = false.
Proof.
  intros Hab. destruct (below b a) eqn:Hba; [| reflexivity].
  rewrite <- (below_irrefl a). symmetry. now apply below_trans with b.
Qed.

Lemma insert_ordered (x : A) (l : list A) :
  ordered l -> ordered (insert compareFn x l).
Proof.
  unfold ordered. induction l as [| y l IH]; intros Hl; simpl.
  - constructor; constructor.
  - inversion Hl as [| ? ? Hl' Hy]; subst.
    fold (below x y). destruct (below x y) eqn:Hxy.
    + constructor; [exact Hl |].
      constructor; [now apply below_asym |].
      rewrite Forall_forall in Hy |- *. intros b Hb.
      destruct (below b x) eqn:Hbx; [| reflexivity].
      rewrite <- (Hy b Hb). symmetry. now apply below_trans with x.
    + constructor; [now apply IH |].
      rewrite Forall_forall in Hy |- *. intros b Hb.
      apply (Permutation_in _ (Permutation_sym (insert_permutation _ x l)))
        in Hb.
      destruct Hb as [<- | Hb]; [exact Hxy | now apply Hy].
Qed.

Lemma fold_insert_ordered (l acc : list A) :
  ordered acc ->
  ordered (fold_left (fun sorted pivot => insert compareFn pivot sorted) l acc).
Proof.
  revert acc. induction l as [| x l IH]; intros acc Hacc; simpl.
  - exact Hacc.
  - now apply IH, insert_ordered.
Qed.

Lemma sort_ordered (l : list A) : ordered (JS.sort compareFn l).
Proof. apply fold_insert_ordered. constructor. Qed.

(** Inserting the pivot does not move it past an element of its own
    level: level by level, the pivot is appended. *)
Lemma insert_level (k x : A) (l : list A) :
  ordered l ->
  List.filter (level k) (insert compareFn x l)
  = List.filter (level k) (l ++ [x]).
Proof.
  unfold ordered. induction l as [| y l IH]; intros Hl.
  - reflexivity.
  - inversion Hl as [| ? ? Hl' Hy]; subst.
    cbn [insert]. fold (below x y). destruct (below x y) eqn:Hxy.
    + rewrite filter_app. set (t := y :: l) in *.
      cbn [List.filter]. destruct (level k x) eqn:Hkx.
      * assert (Hnone : forall b, In b t -> level k b = false).
        { intros b Hb.
          assert (Hxb : below x b = true).
          { destruct Hb as [<- | Hb]; [exact Hxy |].
            rewrite Forall_forall in Hy.
            destruct (below_cotrans x b y Hxy) as [H | H]; [exact H |].
            rewrite (Hy b Hb) in H. discriminate. }
          unfold level in Hkx |- *.
          apply andb_true_iff in Hkx. destruct Hkx as [_ Hxk].
          apply negb_true_iff in Hxk.
          destruct (below_cotrans x k b Hxb) as [H | H].
          - rewrite Hxk in H. discriminate.
          - now rewrite H. }
        assert (Hnil : List.filter (level k) t = []).
        { clear -Hnone. induction t as [| b t IHt]; [reflexivity |].
          cbn [List.filter]. rewrite (Hnone b (or_introl eq_refl)).
          apply IHt. intros c Hc. apply Hnone. now right. }
        now rewrite Hnil.
      * now rewrite app_nil_r.
    + cbn [List.filter app]. rewrite (IH Hl'). reflexivity.
Qed.

Lemma fold_insert_level (k : A) (l acc : list A) :
  ordered acc ->
  List.filter (level k)
    (fold_left (fun sorted pivot => insert compareFn pivot sorted) l acc)
  = List.filter (level k) (acc ++ l).
Proof.
  revert acc. induction l as [| x l IH]; intros acc Hacc; simpl.
  - now rewrite app_nil_r.
  - rewrite IH by now apply insert_ordered.
    rewrite filter_app, insert_level by exact Hacc.
    rewrite <- filter_app, <- app_assoc. reflexivity.
Qed.

(** Stability: the elements of any one level leave [sort] in the order
    in which they entered. *)
Lemma sort_stable (k : A) (l : list A) :
  List.filter (level k) (JS.sort compareFn l) = List.filter (level k) l.
Proof. apply (fold_insert_level k l []). constructor. Qed.

End SortStrictWeakOrder.

(** ** The order of field values *)

Lemma ascii_compare_refl (c : ascii) : Ascii.compare c c = Eq.
Proof. unfold Ascii.compare. apply N.compare_refl. Qed.

Lemma ascii_compare_lt_trans (a b c : ascii) :
  Ascii.compare a b = Lt -> Ascii.compare b c = Lt -> Ascii.compare a c = Lt.
Proof.
  unfold Ascii.compare. rewrite !N.compare_lt_iff. apply N.lt_trans.
Qed.

Lemma string_compare_refl (s : string) : String.compare s s = Eq.
Proof.
  induction s as [| c s IH]; simpl; [reflexivity |].
  now rewrite ascii_compare_refl.
Qed.

Lemma string_compare_lt_trans (a b c : string) :
  String.compare a b = Lt -> String.compare b c = Lt ->
  String.compare a c = Lt.
Proof.
  revert b c. induction a as [| x a IH]; intros [| y b] [| z c]; simpl;
    try discriminate; try reflexivity.
  destruct (Ascii.compare x y) eqn:Exy; try discriminate;
    destruct (Ascii.compare y z) eqn:Eyz; try discriminate; intros H1 H2.
  - apply Ascii.compare_eq_iff in Exy, Eyz. subst.
    rewrite ascii_compare_refl. now apply IH with b.
  - apply Ascii.compare_eq_iff in Exy. subst. now rewrite Eyz.
  - apply Ascii.compare_eq_iff in Eyz. subst. now rewrite Exy.
  - now rewrite (ascii_compare_lt_trans x y z).
Qed.

Lemma string_ltb_irrefl (s : string) : String.ltb s s = false.
Proof. unfold String.ltb. now rewrite string_compare_refl. Qed.

Lemma string_ltb_lt (a b : string) :
  String.ltb a b = true <-> String.compare a b = Lt.
Proof.
  unfold String.ltb. destruct (String.compare a b); split; congruence.
Qed.

Lemma string_ltb_trans (a b c : string) :
  String.ltb a b = true -> String.ltb b c = true -> String.ltb a c = true.
Proof. rewrite !string_ltb_lt. apply string_compare_lt_trans. Qed.

Lemma string_ltb_cotrans (a b c : string) :
  String.ltb a c = true -> String.ltb a b = true \/ String.ltb b c = true.
Proof.
  rewrite !string_ltb_lt. intros Hac.
  destruct (String.compare a b) eqn:Eab.
  - apply String.compare_eq_iff in Eab. subst. now right.
  - now left.
  - right. apply string_compare_lt_trans with a; [| exact Hac].
    rewrite String.compare_antisym, Eab. reflexivity.
Qed.

(** One field yields one kind of value, whatever the event. *)
Lemma get_same_kind (field : AuditEvent.key) (a b : AuditEvent.t) x y :
  AuditEvent.get field a = Some x -> AuditEvent.get field b = Some y ->
  same_kind x y = true.
Proof.
  destruct field; simpl;
    repeat match goal with
      | |- context [option_map _ ?o] => destruct o; simpl
      end;
    intros Ha Hb; inversion Ha; inversion Hb; reflexivity.
Qed.

Lemma value_lt_irrefl (v : AuditEvent.value) : AuditEvent.lt v v = false.
Proof.
  destruct v; simpl; [apply string_ltb_irrefl | apply Z.ltb_irrefl | easy].
Qed.

Lemma value_lt_trans (a b c : AuditEvent.value) :
  AuditEvent.lt a b = true -> AuditEvent.lt b c = true ->
  AuditEvent.lt a c = true.
Proof.
  destruct a, b, c; simpl; try discriminate.
  - apply string_ltb_trans.
  - rewrite !Z.ltb_lt. lia.
Qed.

Lemma value_lt_asym (a b : AuditEvent.value) :
  AuditEvent.lt a b = true -> AuditEvent.lt b a = false.
Proof.
  intros Hab. destruct (AuditEvent.lt b a) eqn:Hba; [| reflexivity].
  rewrite <- (value_lt_irrefl a). symmetry. now apply value_lt_trans with b.
Qed.

Lemma value_lt_cotrans (a b c : AuditEvent.value) :
  same_kind a b = true ->
  AuditEvent.lt a c = true ->
  AuditEvent.lt a b = true \/ AuditEvent.lt b c = true.
Proof.
  destruct a, b, c; simpl; try discriminate; intros _.
  - apply string_ltb_cotrans.
  - rewrite !Z.ltb_lt. lia.
Qed.

(** ** [applySort] *)

Section ApplySort.

Variable sort : SortOptions.t.

Abbreviation field := (SortOptions.field sort).
Abbreviation cmp := (LocalStorageAdapter.compareFn sort).

(** When the comparator is negative: [a] has a value and [b] has none, or
    both have one and [a]'s comes first in the direction asked. *)
Lemma compareFn_below (a b : AuditEvent.t) :
  below cmp a b
  = match AuditEvent.get field a, AuditEvent.get field b with
    | Some x, Some y => directed_lt (SortOptions.direction sort) x y
    | Some _, None => true
    | None, _ => false
    end.
Proof.
  unfold below, LocalStorageAdapter.compareFn, directed_lt.
  destruct (AuditEvent.get field a) as [x |]; [| reflexivity].
  destruct (AuditEvent.get field b) as [y |]; [| reflexivity].
  destruct (AuditEvent.lt x y) eqn:Hxy.
  - rewrite (value_lt_asym _ _ Hxy). now destruct (SortOptions.direction sort).
  - destruct (AuditEvent.lt y x); now destruct (SortOptions.direction sort).
Qed.

Lemma compareFn_irrefl (a : AuditEvent.t) : below cmp a a = false.
Proof.
  rewrite compareFn_below. destruct (AuditEvent.get field a); [| reflexivity].
  destruct (SortOptions.direction sort); apply value_lt_irrefl.
Qed.

Lemma compareFn_trans (a b c : AuditEvent.t) :
  below cmp a b = true -> below cmp b c = true -> below cmp a c = true.
Proof.
  rewrite !compareFn_below. unfold directed_lt.
  destruct (AuditEvent.get field a) as [x |]; [| discriminate].
  destruct (AuditEvent.get field b) as [y |]; [| discriminate].
  destruct (AuditEvent.get field c) as [z |]; [| reflexivity].
  destruct (SortOptions.direction sort); intros H1 H2;
    eauto using value_lt_trans.
Qed.

Lemma compareFn_cotrans (a b c : AuditEvent.t) :
  below cmp a c = true -> below cmp a b = true \/ below cmp b c = true.
Proof.
  rewrite !compareFn_below. unfold directed_lt.
  destruct (AuditEvent.get field a) as [x |] eqn:Ha; [| discriminate].
  destruct (AuditEvent.get field b) as [y |] eqn:Hb; [| now left].
  destruct (AuditEvent.get field c) as [z |] eqn:Hc; [| now right].
  pose proof (get_same_kind _ _ _ _ _ Ha Hb) as Kxy.
  pose proof (get_same_kind _ _ _ _ _ Hc Hb) as Kzy.
  destruct (SortOptions.direction sort); intros H.
  - now apply value_lt_cotrans.
  - destruct (value_lt_cotrans z y x Kzy H) as [H' | H']; auto.
Qed.

(** Being on one level for the comparator is having values that compare
    equal, in either direction. *)
Lemma compareFn_level (a b : AuditEvent.t) :
  level cmp a b = same_value field a b.
Proof.
  unfold level, same_value. rewrite !compareFn_below. unfold directed_lt.
  destruct (AuditEvent.get field a) as [x |];
    destruct (AuditEvent.get field b) as [y |]; try reflexivity.
  destruct (SortOptions.direction sort); [reflexivity | apply andb_comm].
Qed.

(** An event without a value is put at the end of the sorted prefix. *)
Lemma insert_lacking (x : AuditEvent.t) (l : list AuditEvent.t) :
  lacks_value field x = true -> insert cmp x l = l ++ [x].
Proof.
  unfold lacks_value, has_value. intros Hx.
  induction l as [| y l IH]; simpl; [reflexivity |].
  unfold LocalStorageAdapter.compareFn at 1.
  destruct (AuditEvent.get field x); [discriminate |].
  simpl. now rewrite IH.
Qed.

(** An event with a value is put in front of those without. *)
Lemma insert_having (x : AuditEvent.t) (valued missing : list AuditEvent.t) :
  has_value field x = true ->
  Forall (fun e => lacks_value field e = true) missing ->
  insert cmp x (valued ++ missing) = insert cmp x valued ++ missing.
Proof.
  unfold lacks_value, has_value. intros Hx Hm.
  induction valued as [| y l IH]; simpl.
  - destruct missing as [| m missing]; [reflexivity |].
    inversion Hm as [| ? ? Hm0 _]; subst. simpl.
    unfold LocalStorageAdapter.compareFn.
    destruct (AuditEvent.get field x); [| discriminate].
    destruct (AuditEvent.get field m); [discriminate | reflexivity].
  - destruct (cmp x y <? 0)%Z; [reflexivity |]. now rewrite IH.
Qed.

Lemma fold_insert_split (l valued missing : list AuditEvent.t) :
  Forall (fun e => lacks_value field e = true) missing ->
  fold_left (fun sorted pivot => insert cmp pivot sorted) l
    (valued ++ missing)
  = fold_left (fun sorted pivot => insert cmp pivot sorted)
      (List.filter (has_value field) l) valued
    ++ missing ++ List.filter (lacks_value field) l.
Proof.
  revert valued missing. induction l as [| x l IH]; intros valued missing Hm.
  - simpl. now rewrite app_nil_r.
  - cbn [fold_left List.filter].
    replace (lacks_value field x) with (negb (has_value field x))
      by reflexivity.
    destruct (has_value field x) eqn:Hx; cbn [negb fold_left].
    + rewrite insert_having by assumption. now apply IH.
    + rewrite insert_lacking by (unfold lacks_value; now rewrite Hx).
      rewrite <- app_assoc. rewrite IH.
      * now rewrite <- app_assoc.
      * apply Forall_app. split; [exact Hm |].
        constructor; [| constructor]. unfold lacks_value. now rewrite Hx.
Qed.

(** The output of [applySort]: the events that have a value, sorted,
    and then the events that have none, in the order they came in. *)
Lemma applySort_split (events : list AuditEvent.t) :
  LocalStorageAdapter.applySort events sort
  = LocalStorageAdapter.applySort (List.filter (has_value field) events) sort
    ++ List.filter (lacks_value field) events.
Proof.
  unfold LocalStorageAdapter.applySort, JS.sort.
  exact (fold_insert_split events [] [] (Forall_nil _)).
Qed.

Lemma applySort_permutation (events : list AuditEvent.t) :
  Permutation events (LocalStorageAdapter.applySort events sort).
Proof. apply sort_permutation. Qed.

Lemma applySort_ordered (events : list AuditEvent.t) :
  ordered cmp (LocalStorageAdapter.applySort events sort).
Proof.
  apply sort_ordered; [apply compareFn_irrefl | apply compareFn_trans].
Qed.

(** In any list that is in order for the comparator, whatever put it in
    order, no event with a value comes after an event without. *)
Lemma ordered_missing_last (pre post : list AuditEvent.t)
  (a : AuditEvent.t) :
  ordered cmp (pre ++ a :: post) ->
  lacks_value field a = true ->
  Forall (fun b => lacks_value field b = true) post.
Proof.
  intros Ho Ha. apply StronglySorted_app_inv in Ho.
  destruct Ho as (_ & Ho & _). inversion Ho as [| ? ? _ Hpost]; subst.
  apply Forall_forall. intros b Hb. rewrite Forall_forall in Hpost.
  specialize (Hpost b Hb). rewrite compareFn_below in Hpost.
  unfold lacks_value, has_value in *.
  destruct (AuditEvent.get field b); [| reflexivity].
  destruct (AuditEvent.get field a); discriminate.
Qed.

Lemma applySort_stable (k : AuditEvent.t) (events : list AuditEvent.t) :
  List.filter (same_value field k) (LocalStorageAdapter.applySort events sort)
  = List.filter (same_value field k) events.
Proof.
  rewrite !(filter_ext _ _ (fun e => eq_sym (compareFn_level k e))).
  apply sort_stable;
    [apply compareFn_irrefl | apply compareFn_trans | apply compareFn_cotrans].
Qed.

End ApplySort.

(** ** [applyFilters] *)

Lemma set_and_differs_false (wanted actual : option string) :
  LocalStorageAdapter.set_and_differs wanted actual = false
  <-> (forall a, wanted = Some a -> a <> "" -> actual = Some a).
Proof.
  unfold LocalStorageAdapter.set_and_differs, strict_neq.
  destruct wanted as [w |].
  - destruct (String.eqb_spec w "") as [-> | Hw]; simpl.
    + split; [intros _ a [= <-] Ha; now elim Ha | reflexivity].
    + destruct actual as [x |].
      * destruct (String.eqb_spec x w) as [-> | Hx]; simpl.
        -- split; [intros _ a [= <-] _; reflexivity | reflexivity].
        -- split; [discriminate |].
           intros H. specialize (H w eq_refl Hw). congruence.
      * split; [discriminate |].
        intros H. specialize (H w eq_refl Hw). discriminate.
  - split; [intros _ a; discriminate | reflexivity].
Qed.

Lemma set_and_below_false (bound stamp : option Z) :
  LocalStorageAdapter.set_and_below bound stamp = false
  <-> (forall d ts, bound = Some d -> d <> 0%Z ->
                    stamp = Some ts -> ts <> 0%Z -> (d <= ts)%Z).
Proof.
  unfold LocalStorageAdapter.set_and_below.
  destruct bound as [b |]; [| split; [intros _ d ts; discriminate | easy]].
  destruct stamp as [t |]; [| split; [intros _ d ts _ _; discriminate | easy]].
  destruct (Z.eqb_spec b 0) as [-> | Hb]; simpl.
  - split; [intros _ d ts [= <-] Hd; now elim Hd | reflexivity].
  - destruct (Z.eqb_spec t 0) as [-> | Ht]; simpl.
    + split; [intros _ d ts _ _ [= <-] Hts; now elim Hts | reflexivity].
    + rewrite Z.ltb_ge. split.
      * intros H d ts [= <-] _ [= <-] _. exact H.
      * intros H. now apply H.
Qed.

Lemma set_and_above_false (bound stamp : option Z) :
  LocalStorageAdapter.set_and_above bound stamp = false
  <-> (forall d ts, bound = Some d -> d <> 0%Z ->
                    stamp = Some ts -> ts <> 0%Z -> (ts <= d)%Z).
Proof.
  unfold LocalStorageAdapter.set_and_above.
  destruct bound as [b |]; [| split; [intros _ d ts; discriminate | easy]].
  destruct stamp as [t |]; [| split; [intros _ d ts _ _; discriminate | easy]].
  destruct (Z.eqb_spec b 0) as [-> | Hb]; simpl.
  - split; [intros _ d ts [= <-] Hd; now elim Hd | reflexivity].
  - destruct (Z.eqb_spec t 0) as [-> | Ht]; simpl.
    + split; [intros _ d ts _ _ [= <-] Hts; now elim Hts | reflexivity].
    + rewrite Z.gtb_ltb, Z.ltb_ge. split.
      * intros H d ts [= <-] _ [= <-] _. exact H.
      * intros H. now apply H.
Qed.

Lemma search_matches_iff (search : string) (event : AuditEvent.t) :
  existsb (LocalStorageAdapter.field_includes (toLowerCase search))
    (searchable event) = true
  <-> SearchMatches search event.
Proof.
  rewrite existsb_exists. unfold SearchMatches, Occurs. split.
  - intros ([f |] & Hin & Hf); simpl in Hf; [| discriminate].
    exists f. split; [exact Hin |]. now apply includes_iff.
  - intros (f & Hin & Hf). exists (Some f). split; [exact Hin |].
    simpl. now apply includes_iff.
Qed.

Lemma set_and_differs_false_string (wanted : option string) (actual : string) :
  LocalStorageAdapter.set_and_differs wanted (Some actual) = false
  <-> (forall a, wanted = Some a -> a <> "" -> actual = a).
Proof.
  rewrite set_and_differs_false. split; intros H a E Ha.
  - specialize (H a E Ha). now inversion H.
  - now rewrite (H a E Ha).
Qed.

Lemma search_ok_iff (filter : AuditFilter.t) (event : AuditEvent.t) :
  search_ok filter event = true
  <-> (forall s, AuditFilter.search filter = Some s -> s <> "" ->
                 SearchMatches s event).
Proof.
  unfold search_ok. destruct (AuditFilter.search filter) as [s |].
  - rewrite orb_true_iff, search_matches_iff.
    destruct (String.eqb_spec s "") as [-> | Hs].
    + split; [intros _ s' [= <-] H; now elim H | now left].
    + split.
      * intros [H | H] s' [= <-] _; [discriminate | exact H].
      * intros H. right. now apply H.
  - split; [intros _ s; discriminate | reflexivity].
Qed.

(** The chain of early returns, as one conjunction. *)
Lemma keeps_unfold (filter : AuditFilter.t) (event : AuditEvent.t) :
  LocalStorageAdapter.keeps filter event
  = negb (LocalStorageAdapter.set_and_differs (AuditFilter.action filter)
            (Some (AuditEvent.action event)))
    && negb (LocalStorageAdapter.set_and_differs (AuditFilter.entity filter)
               (Some (AuditEvent.entity event)))
    && negb (LocalStorageAdapter.set_and_differs (AuditFilter.entityId filter)
               (AuditEvent.entityId event))
    && negb (LocalStorageAdapter.set_and_differs (AuditFilter.userId filter)
               (AuditEvent.userId event))
    && negb (LocalStorageAdapter.set_and_below (AuditFilter.startDate filter)
               (AuditEvent.timestamp event))
    && negb (LocalStorageAdapter.set_and_above (AuditFilter.endDate filter)
               (AuditEvent.timestamp event))
    && search_ok filter event.
Proof.
  unfold LocalStorageAdapter.keeps, search_ok. fold (searchable event).
  repeat match goal with
    | |- context [if ?c then false else _] =>
        destruct c; [reflexivity |]
    end.
  cbn [andb negb]. destruct (AuditFilter.search filter) as [s |];
    [| reflexivity].
  destruct (s =? ""); [reflexivity |]. cbn [orb].
  match goal with
  | |- context [existsb ?f ?l] => now destruct (existsb f l)
  end.
Qed.

(** The callback of [applyFilters] keeps exactly the events that match, a
    member of the filter counting when it is neither empty nor zero. *)
Lemma keeps_iff (filter : AuditFilter.t) (event : AuditEvent.t) :
  LocalStorageAdapter.keeps filter event = true <-> Matches filter event.
Proof.
  rewrite keeps_unfold. unfold Matches.
  rewrite !andb_true_iff, !negb_true_iff.
  rewrite !set_and_differs_false_string, !set_and_differs_false,
    set_and_below_false, set_and_above_false, search_ok_iff.
  tauto.
Qed.

Lemma applyFilters_In (events : list AuditEvent.t) (filter : AuditFilter.t)
  (e : AuditEvent.t) :
  In e (LocalStorageAdapter.applyFilters events filter)
  <-> In e events /\ Matches filter e.
Proof.
  unfold LocalStorageAdapter.applyFilters.
  now rewrite filter_In, keeps_iff.
Qed.

(** For a plain filter and an event that carries a timestamp, matching is
    matching in the words of the contract. *)
Lemma Matches_ContractMatch (filter : AuditFilter.t) (event : AuditEvent.t) :
  plain_filter filter -> stamped event ->
  (Matches filter event <-> ContractMatch filter event).
Proof.
  intros (Ha & He & Hi & Hu & Hs & Hn & Hq) (ts & Hts & Hts0).
  unfold Matches, ContractMatch. split.
  - intros (M1 & M2 & M3 & M4 & M5 & M6 & M7). repeat split.
    + intros a E. apply M1; congruence.
    + intros a E. apply M2; congruence.
    + intros a E. apply M3; congruence.
    + intros a E. apply M4; congruence.
    + intros d E. exists ts. split; [exact Hts |].
      apply (M5 d ts); congruence.
    + intros d E. exists ts. split; [exact Hts |].
      apply (M6 d ts); congruence.
    + intros s E. apply M7; congruence.
  - intros (M1 & M2 & M3 & M4 & M5 & M6 & M7). repeat split.
    + intros a E _. now apply M1.
    + intros a E _. now apply M2.
    + intros a E _. now apply M3.
    + intros a E _. now apply M4.
    + intros d t E _ Et _. destruct (M5 d E) as (t' & Et' & H). congruence.
    + intros d t E _ Et _. destruct (M6 d E) as (t' & Et' & H). congruence.
    + intros s E _. now apply M7.
Qed.

(** ** [LocalStorageAdapter.query] *)

(** On an array [query] never reaches its [catch]: it resolves with the
    page cut from the stored events, filtered and then sorted. *)
Lemma query_unfold (self : LocalStorageAdapter.t) (storage : LocalStorage.t)
  (events : list AuditEvent.t) (options : option QueryOptions.t) :
  LocalStorageAdapter.getAllEvents self storage = LocalStorage.Array events ->
  let set := sorted (filtered events (QueryOptions.filter_of options))
               (QueryOptions.sort_of options) in
  let page := page_of options in
  let pageSize := pageSize_of options in
  LocalStorageAdapter.query self storage options
  = Ok {| PaginatedResult.data :=
            slice set ((page - 1) * pageSize) ((page - 1) * pageSize + pageSize);
          PaginatedResult.total := Z.of_nat (List.length set);
          PaginatedResult.page := page;
          PaginatedResult.pageSize := pageSize;
          PaginatedResult.totalPages :=
            ceil_div (Z.of_nat (List.length set)) pageSize |}.
Proof.
  intros Harray.
  unfold LocalStorageAdapter.query, sorted, filtered, page_of, pageSize_of.
  rewrite Harray.
  destruct options as [[f p s] |]; simpl;
    try destruct f; try destruct s; reflexivity.
Qed.

(** On a value that is no array [query] throws its one error, whatever
    the options. *)
Lemma query_not_array (self : LocalStorageAdapter.t)
  (storage : LocalStorage.t) (v : LocalStorage.plain)
  (options : option QueryOptions.t) :
  LocalStorageAdapter.getAllEvents self storage = LocalStorage.NotArray v ->
  LocalStorageAdapter.query self storage options = Throw local_query_error.
Proof.
  intros Hv. unfold LocalStorageAdapter.query. now rewrite Hv.
Qed.

(** What [getAllEvents] returns, by the text under the key. *)
Lemma getAllEvents_cases (self : LocalStorageAdapter.t)
  (storage : LocalStorage.t) :
  match LocalStorage.getItem (LocalStorageAdapter.storageKey self) storage with
  | Some (LocalStorage.Serialized events) =>
      LocalStorageAdapter.getAllEvents self storage = LocalStorage.Array events
  | Some (LocalStorage.Stringified v) =>
      LocalStorageAdapter.getAllEvents self storage = LocalStorage.NotArray v
  | None | Some LocalStorage.Blank | Some LocalStorage.Garbage =>
      LocalStorageAdapter.getAllEvents self storage = LocalStorage.Array []
  end.
Proof.
  unfold LocalStorageAdapter.getAllEvents.
  destruct (LocalStorage.getItem _ storage) as [[| | events | v] |];
    reflexivity.
Qed.

Lemma or_number_nonzero (n : option Z) (d : Z) :
  d <> 0%Z -> or_number n d <> 0%Z.
Proof.
  intros Hd. unfold or_number. destruct n as [n |]; [| exact Hd].
  destruct (Z.eqb_spec n 0); assumption.
Qed.

Lemma page_window_nth_page {A} (l : list A) (page pageSize : Z) :
  (1 <= page)%Z -> (1 <= pageSize)%Z ->
  page_window l page pageSize = nth_page l page pageSize.
Proof.
  intros Hp Hs. unfold page_window, nth_page.
  replace (page * pageSize)%Z with ((page - 1) * pageSize + pageSize)%Z
    by ring.
  apply slice_window; nia.
Qed.

Lemma filtered_incl (events : list AuditEvent.t)
  (filter : option AuditFilter.t) (e : AuditEvent.t) :
  In e (filtered events filter) -> In e events.
Proof.
  destruct filter as [f |]; simpl; [| easy].
  unfold LocalStorageAdapter.applyFilters. rewrite filter_In. tauto.
Qed.

Lemma sorted_permutation (events : list AuditEvent.t)
  (sort : option SortOptions.t) :
  Permutation events (sorted events sort).
Proof.
  destruct sort as [s |]; simpl;
    [apply applySort_permutation | apply Permutation_refl].
Qed.

Lemma sorted_In (events : list AuditEvent.t) (sort : option SortOptions.t)
  (e : AuditEvent.t) :
  In e (sorted events sort) <-> In e events.
Proof.
  split; apply Permutation_in;
    [apply Permutation_sym |]; apply sorted_permutation.
Qed.

Lemma in_firstn {A} (n : nat) (l : list A) (x : A) :
  In x (firstn n l) -> In x l.
Proof.
  intros H. rewrite <- (firstn_skipn n l). apply in_or_app. now left.
Qed.

Lemma in_skipn {A} (n : nat) (l : list A) (x : A) :
  In x (skipn n l) -> In x l.
Proof.
  intros H. rewrite <- (firstn_skipn n l). apply in_or_app. now right.
Qed.

Lemma slice_incl {A} (l : list A) (start end_ : Z) (x : A) :
  In x (slice l start end_) -> In x l.
Proof.
  unfold slice. intros H.
  apply in_firstn in H. now apply in_skipn in H.
Qed.

(** Every element of a list is on one of its pages. *)
Lemma nth_page_covers {A} (l : list A) (pageSize : Z) (x : A) :
  (1 <= pageSize)%Z -> In x l ->
  exists page, (1 <= page)%Z /\ In x (nth_page l page pageSize).
Proof.
  intros Hs Hx. apply In_nth_error in Hx. destruct Hx as [i Hi].
  set (q := (Z.of_nat i / pageSize)%Z).
  assert (Hq : (0 <= q)%Z) by (apply Z.div_pos; lia).
  assert (Hm : (q * pageSize <= Z.of_nat i < q * pageSize + pageSize)%Z).
  { pose proof (Z.div_mod (Z.of_nat i) pageSize ltac:(lia)) as Hd.
    pose proof (Z.mod_pos_bound (Z.of_nat i) pageSize ltac:(lia)) as Hb.
    fold q in Hd. lia. }
  exists (q + 1)%Z. split; [lia |].
  unfold nth_page. replace (q + 1 - 1)%Z with q by lia.
  set (k := Z.to_nat (q * pageSize)).
  assert (Hk : (k <= i)%nat) by (subst k; lia).
  apply nth_error_In with (n := (i - k)%nat).
  rewrite nth_error_firstn.
  destruct (Nat.ltb_spec (i - k) (Z.to_nat pageSize)) as [_ | Hge];
    [| subst k; lia].
  rewrite nth_error_skipn. now replace (k + (i - k))%nat with i by lia.
Qed.

(* ------------------------------------------------------------------ *)
(** ** C1: filter, then sort, then paginate                            *)
(* ------------------------------------------------------------------ *)



(** On the Firestore adapter the page number is not part of the query
    that is sent: two calls that differ in the page only get the same
    documents. *)
Lemma firebase_query_ignores_page (env : FirebaseAdapter.Env)
  (filter : option AuditFilter.t) (sort : option SortOptions.t)
  (page page' pageSize : Z) :
  let options p :=
    Some {| QueryOptions.filter := filter;
            QueryOptions.pagination :=
              Some {| PaginationOptions.page := p;
                      PaginationOptions.pageSize := pageSize |};
            QueryOptions.sort := sort |} in
  FirebaseAdapter.constraints (options page)
  = FirebaseAdapter.constraints (options page')
  /\ forall r r',
      FirebaseAdapter.query env (options page) = Ok r ->
      FirebaseAdapter.query env (options page') = Ok r' ->
      PaginatedResult.data r = PaginatedResult.data r'.
Proof.
  intros options. split; [reflexivity |].
  unfold FirebaseAdapter.query, try_catch, bind.
  change (FirebaseAdapter.constraints (options page'))
    with (FirebaseAdapter.constraints (options page)).
  destruct (FirebaseAdapter.initialize env); [| discriminate].
  destruct (FirebaseAdapter.getDocs env _); [| discriminate].
  intros r r' [= <-] [= <-]. reflexivity.
Qed.

(** C1 holds on the local adapter and fails on the Firestore adapter,
    whose [query] reads the page number, hands it back, and leaves it out
    of the query it sends.  On a collection of two documents, listed by
    descending timestamp as [b2] then [a1], every page of size 1 is
    [b2]: page 2 comes back as page 1 does, under the page number 2,
    where the window from index 1 to 2 of the listing is [a1].  The local
    adapter, holding the same two events and asked for the same page,
    resolves with that window. *)
Theorem firebase_query_repeats_first_page :
  let collection := firestore_of [doc_created; doc_login] in
  let listing :=
    [FirebaseAdapter.event_of doc_login; FirebaseAdapter.event_of doc_created]
  in
  FirebaseAdapter.query collection (only_page 1 10)
  = Ok {| PaginatedResult.data := listing;
          PaginatedResult.total := 2;
          PaginatedResult.page := 1;
          PaginatedResult.pageSize := 10;
          PaginatedResult.totalPages := 1 |}
  /\ (forall page,
         page <> 0%Z ->
         FirebaseAdapter.query collection (only_page page 1)
         = Ok {| PaginatedResult.data := [FirebaseAdapter.event_of doc_login];
                 PaginatedResult.total := 1;
                 PaginatedResult.page := page;
                 PaginatedResult.pageSize := 1;
                 PaginatedResult.totalPages := 1 |})
  /\ page_window listing 2 1 = [FirebaseAdapter.event_of doc_created]
  /\ [FirebaseAdapter.event_of doc_login] <> page_window listing 2 1
  /\ LocalStorageAdapter.query default_adapter (holding listing)
       (Some {| QueryOptions.filter := None;
                QueryOptions.pagination :=
                  Some {| PaginationOptions.page := 2;
                          PaginationOptions.pageSize := 1 |};
                QueryOptions.sort := Some by_timestamp_desc |})
     = Ok {| PaginatedResult.data := page_window listing 2 1;
             PaginatedResult.total := 2;
             PaginatedResult.page := 2;
             PaginatedResult.pageSize := 1;
             PaginatedResult.totalPages := 2 |}.
Proof.
  intros collection listing.
  split; [reflexivity |]. split; [| split; [reflexivity | split]].
  - intros page Hp.
    unfold FirebaseAdapter.query, try_catch, bind, only_page.
    cbn [collection firestore_of FirebaseAdapter.initialize
         FirebaseAdapter.getDocs QueryOptions.pagination_of
         QueryOptions.pagination option_map PaginationOptions.page
         PaginationOptions.pageSize or_number].
    destruct (Z.eqb_spec page 0); [contradiction |]. reflexivity.
  - discriminate.
  - reflexivity.
Qed.

(* ------------------------------------------------------------------ *)
(** ** C3: queries that the contract calls invalid                      *)
(* ------------------------------------------------------------------ *)



(* ------------------------------------------------------------------ *)
(** ** C4: defaults                                                     *)
(* ------------------------------------------------------------------ *)

Lemma keeps_empty (event : AuditEvent.t) :
  LocalStorageAdapter.keeps AuditFilter.empty event = true.
Proof. reflexivity. Qed.

Lemma applyFilters_empty (events : list AuditEvent.t) :
  LocalStorageAdapter.applyFilters events AuditFilter.empty = events.
Proof.
  unfold LocalStorageAdapter.applyFilters.
  induction events as [| e l IH]; [reflexivity |].
  cbn [List.filter]. rewrite keeps_empty. now rewrite IH.
Qed.

(** C4, as stated, fails on its last part: after two saves whose drafts
    bring their own timestamps, 10 and then 5, a [query] without options
    lists the events as they are stored, timestamp 5 before timestamp 10,
    which is not the order by descending timestamp. *)
Lemma query_default_sort_counterexample :
  fst (LocalStorageAdapter.save_all default_adapter LocalStorage.empty
         backdated_saves) = Ok tt
  /\ exists r,
      LocalStorageAdapter.query default_adapter
        (snd (LocalStorageAdapter.save_all default_adapter LocalStorage.empty
                backdated_saves)) None = Ok r
      /\ PaginatedResult.data r
         = [stored "101-4fzyo82mv" "B" None 5;
            stored "100-4fzyo82mv" "A" None 10]
      /\ LocalStorageAdapter.applySort (PaginatedResult.data r)
           by_timestamp_desc
         = [stored "100-4fzyo82mv" "A" None 10;
            stored "101-4fzyo82mv" "B" None 5]
      /\ PaginatedResult.data r
         <> LocalStorageAdapter.applySort (PaginatedResult.data r)
              by_timestamp_desc.
Proof.
  split; [reflexivity |].
  eexists. split; [reflexivity |]. repeat split. discriminate.
Qed.

(** C4 (amended): on the local adapter, reading an array of events, a
    filter that is left out keeps every stored event, a pagination that
    is left out is page 1 of size 10, and a sort that is left out leaves
    the events in the order of the store, the most recently saved first;
    [query()] is the first ten stored events. *)
Theorem local_query_defaults
  (self : LocalStorageAdapter.t) (storage : LocalStorage.t)
  (events : list AuditEvent.t) :
  LocalStorageAdapter.getAllEvents self storage = LocalStorage.Array events ->
  (forall pagination sort,
      LocalStorageAdapter.query self storage
        (Some {| QueryOptions.filter := None;
                 QueryOptions.pagination := pagination;
                 QueryOptions.sort := sort |})
      = LocalStorageAdapter.query self storage
          (Some {| QueryOptions.filter := Some AuditFilter.empty;
                   QueryOptions.pagination := pagination;
                   QueryOptions.sort := sort |}))
  /\ (forall filter sort,
         LocalStorageAdapter.query self storage
           (Some {| QueryOptions.filter := filter;
                    QueryOptions.pagination := None;
                    QueryOptions.sort := sort |})
         = LocalStorageAdapter.query self storage
             (Some {| QueryOptions.filter := filter;
                      QueryOptions.pagination :=
                        Some {| PaginationOptions.page := 1;
                                PaginationOptions.pageSize := 10 |};
                      QueryOptions.sort := sort |}))
  /\ (forall filter pagination,
         exists r,
           LocalStorageAdapter.query self storage
             (Some {| QueryOptions.filter := filter;
                      QueryOptions.pagination := pagination;
                      QueryOptions.sort := None |}) = Ok r
           /\ PaginatedResult.data r
              = slice (filtered events filter)
                  ((PaginatedResult.page r - 1) * PaginatedResult.pageSize r)
                  ((PaginatedResult.page r - 1) * PaginatedResult.pageSize r
                   + PaginatedResult.pageSize r))
  /\ LocalStorageAdapter.query self storage None
     = Ok {| PaginatedResult.data := firstn 10 events;
             PaginatedResult.total := Z.of_nat (List.length events);
             PaginatedResult.page := 1;
             PaginatedResult.pageSize := 10;
             PaginatedResult.totalPages :=
               ceil_div (Z.of_nat (List.length events)) 10 |}
  /\ LocalStorageAdapter.query self storage
       (Some {| QueryOptions.filter := None;
                QueryOptions.pagination := None;
                QueryOptions.sort := None |})
     = LocalStorageAdapter.query self storage None
  /\ (newest_first events ->
      LocalStorageAdapter.query self storage None
      = LocalStorageAdapter.query self storage
          (Some {| QueryOptions.filter := None;
                   QueryOptions.pagination := None;
                   QueryOptions.sort := Some by_timestamp_desc |})).
Proof.
  intros Harray. split; [| split; [| split; [| split; [| split]]]].
  - intros pagination sort. rewrite !(query_unfold _ _ _ _ Harray).
    cbn [QueryOptions.filter_of QueryOptions.filter filtered].
    now rewrite applyFilters_empty.
  - intros filter sort. reflexivity.
  - intros filter pagination. eexists.
    split; [apply (query_unfold _ _ _ _ Harray) |].
    reflexivity.
  - rewrite (query_unfold _ _ _ _ Harray).
    cbn [QueryOptions.filter_of QueryOptions.sort_of
      filtered sorted]. unfold page_of, pageSize_of. simpl or_number.
    f_equal. f_equal.
    change ((1 - 1) * 10)%Z with 0%Z.
    rewrite (slice_window events 0 10) by lia. reflexivity.
  - reflexivity.
  - intros Hn. rewrite !(query_unfold _ _ _ _ Harray).
    cbn [QueryOptions.filter_of QueryOptions.sort_of QueryOptions.filter
         QueryOptions.sort filtered sorted].
    unfold LocalStorageAdapter.applySort.
    now rewrite (sort_ordered_id _ events Hn).
Qed.

(** The store of the sample is in descending order of timestamp, so its
    default listing is its listing by descending timestamp. *)
Lemma local_query_defaults_witness :
  LocalStorageAdapter.query default_adapter (holding two_events) None
  = LocalStorageAdapter.query default_adapter (holding two_events)
      (Some {| QueryOptions.filter := None;
               QueryOptions.pagination := None;
               QueryOptions.sort := Some by_timestamp_desc |}).
Proof.
  exact (proj2 (proj2 (proj2 (proj2 (proj2
           (local_query_defaults default_adapter (holding two_events)
              two_events eq_refl)))))
           ltac:(repeat constructor)).
Defined.

(* ------------------------------------------------------------------ *)
(** ** C5: missing values last, ties in insertion order                 *)
(* ------------------------------------------------------------------ *)



(** ** [LocalStorageAdapter.save] *)

Lemma getAllEvents_setItem (self : LocalStorageAdapter.t)
  (storage storage' : LocalStorage.t) (events : list AuditEvent.t) :
  LocalStorage.setItem true (LocalStorageAdapter.storageKey self)
    (LocalStorage.JSON_stringify events) storage = Ok storage' ->
  LocalStorageAdapter.getAllEvents self storage' = LocalStorage.Array events.
Proof.
  unfold LocalStorage.setItem. intros [= <-].
  unfold LocalStorageAdapter.getAllEvents, LocalStorage.getItem.
  now rewrite String.eqb_refl.
Qed.

(** On an array, a save that [localStorage] takes resolves, and leaves
    under the key what is retained of the new event followed by the
    events found. *)
Lemma save_accepted (self : LocalStorageAdapter.t)
  (env : LocalStorageAdapter.Env) (storage : LocalStorage.t)
  (events : list AuditEvent.t) (event : AuditEvent.t) :
  LocalStorageAdapter.getAllEvents self storage = LocalStorage.Array events ->
  LocalStorageAdapter.write_accepted env = true ->
  exists storage',
    LocalStorageAdapter.save self env storage event = (Ok tt, storage')
    /\ LocalStorageAdapter.getAllEvents self storage'
       = LocalStorage.Array
           (retained self (LocalStorageAdapter.newEvent env event :: events)).
Proof.
  intros Harray Hw. unfold LocalStorageAdapter.save. rewrite Harray, Hw.
  eexists. split; [reflexivity |].
  apply getAllEvents_setItem with (storage := storage). reflexivity.
Qed.

(** A save that [localStorage] refuses throws and changes nothing. *)
Lemma save_refused (self : LocalStorageAdapter.t)
  (env : LocalStorageAdapter.Env) (storage : LocalStorage.t)
  (event : AuditEvent.t) :
  LocalStorageAdapter.write_accepted env = false ->
  LocalStorageAdapter.save self env storage event
  = (Throw local_save_error, storage).
Proof.
  intros Hw. unfold LocalStorageAdapter.save. rewrite Hw.
  now destruct (LocalStorageAdapter.getAllEvents self storage).
Qed.

(** On a value that is no array a save throws and changes nothing,
    whether [localStorage] would take the write or not. *)
Lemma save_not_array (self : LocalStorageAdapter.t)
  (env : LocalStorageAdapter.Env) (storage : LocalStorage.t)
  (v : LocalStorage.plain) (event : AuditEvent.t) :
  LocalStorageAdapter.getAllEvents self storage = LocalStorage.NotArray v ->
  LocalStorageAdapter.save self env storage event
  = (Throw local_save_error, storage).
Proof.
  intros Hv. unfold LocalStorageAdapter.save. now rewrite Hv.
Qed.

Lemma retained_firstn (self : LocalStorageAdapter.t)
  (events : list AuditEvent.t) :
  (0 <= LocalStorageAdapter.maxEvents self)%Z ->
  retained self events
  = firstn (Z.to_nat (LocalStorageAdapter.maxEvents self)) events.
Proof.
  intros Hm. unfold retained.
  destruct (Z.gtb_spec (Z.of_nat (List.length events))
              (LocalStorageAdapter.maxEvents self)) as [Hgt | Hle].
  - now apply splice_firstn.
  - symmetry. apply firstn_all2. lia.
Qed.

Lemma firstn_app_firstn {A} (n : nat) (l r : list A) :
  firstn n (l ++ firstn n r) = firstn n (l ++ r).
Proof.
  rewrite !firstn_app, firstn_firstn. do 2 f_equal. lia.
Qed.

(** A run of accepted saves on an array leaves the events saved, the
    latest first, in front of the events found, cut at [maxEvents]. *)
Lemma save_all_accepted (self : LocalStorageAdapter.t)
  (calls : list (LocalStorageAdapter.Env * AuditEvent.t))
  (storage : LocalStorage.t) (events : list AuditEvent.t) :
  LocalStorageAdapter.getAllEvents self storage = LocalStorage.Array events ->
  (0 <= LocalStorageAdapter.maxEvents self)%Z ->
  all_accepted calls ->
  calls <> [] ->
  exists storage',
    LocalStorageAdapter.save_all self storage calls = (Ok tt, storage')
    /\ LocalStorageAdapter.getAllEvents self storage'
       = LocalStorage.Array
           (firstn (Z.to_nat (LocalStorageAdapter.maxEvents self))
              (rev (saved_events calls) ++ events)).
Proof.
  intros Harray Hm. revert storage events Harray.
  induction calls as [| [env event] rest IH];
    intros storage events Harray Hacc Hne; [congruence |].
  inversion Hacc as [| ? ? Hw Hrest]; subst. cbn [fst] in Hw.
  destruct (save_accepted self env storage events event Harray Hw)
    as (st1 & Hs & Hev).
  cbn [LocalStorageAdapter.save_all]. rewrite Hs.
  rewrite retained_firstn in Hev by exact Hm.
  destruct rest as [| c rest'].
  - exists st1. split; [reflexivity |]. now rewrite Hev.
  - destruct (IH st1 _ Hev Hrest ltac:(discriminate)) as (st2 & Hs2 & Hev2).
    exists st2. split; [exact Hs2 |].
    rewrite Hev2, firstn_app_firstn.
    change (saved_events ((env, event) :: c :: rest'))
      with (LocalStorageAdapter.newEvent env event
              :: saved_events (c :: rest')).
    cbn [rev]. now rewrite <- !app_assoc.
Qed.

Lemma newEvent_timestamp_clock (env : LocalStorageAdapter.Env)
  (event : AuditEvent.t) :
  AuditEvent.timestamp event = None ->
  AuditEvent.timestamp (LocalStorageAdapter.newEvent env event)
  = Some (LocalStorageAdapter.timestamp_now env).
Proof. intros H. simpl. now rewrite H. Qed.

Lemma below_by_timestamp (a b : AuditEvent.t) (ta tb : Z) :
  AuditEvent.timestamp a = Some ta -> AuditEvent.timestamp b = Some tb ->
  below (LocalStorageAdapter.compareFn by_timestamp_desc) a b = (tb <? ta)%Z.
Proof.
  intros Ha Hb. rewrite compareFn_below. simpl. now rewrite Ha, Hb.
Qed.

(** Events stamped by a clock that does not go back are saved in
    ascending order of timestamp. *)
Lemma saved_events_ascending
  (calls : list (LocalStorageAdapter.Env * AuditEvent.t)) :
  stamped_by_clock calls -> clock_nondecreasing calls ->
  StronglySorted
    (fun a b =>
       below (LocalStorageAdapter.compareFn by_timestamp_desc) a b = false)
    (saved_events calls).
Proof.
  unfold stamped_by_clock, clock_nondecreasing.
  induction calls as [| [env event] rest IH]; intros Hs Hc; simpl;
    [constructor |].
  inversion Hs as [| ? ? Hts Hs']; subst.
  inversion Hc as [| ? ? Hc' Hle]; subst. cbn [fst snd] in *.
  constructor; [now apply IH |].
  apply Forall_forall. intros b Hb. apply in_map_iff in Hb.
  destruct Hb as ([env' event'] & <- & Hin). cbn [fst snd].
  rewrite Forall_forall in Hle, Hs'.
  rewrite (below_by_timestamp _ _
             (LocalStorageAdapter.timestamp_now env)
             (LocalStorageAdapter.timestamp_now env')).
  - apply Z.ltb_ge. exact (Hle _ Hin).
  - now apply newEvent_timestamp_clock.
  - apply newEvent_timestamp_clock. exact (Hs' _ Hin).
Qed.

(** From an empty store, saves that bring no timestamp of their own,
    under a clock that does not go back, leave the store in descending
    order of timestamp. *)
Lemma store_newest_first (self : LocalStorageAdapter.t)
  (calls : list (LocalStorageAdapter.Env * AuditEvent.t))
  (storage' : LocalStorage.t) :
  (0 <= LocalStorageAdapter.maxEvents self)%Z ->
  all_accepted calls -> stamped_by_clock calls -> clock_nondecreasing calls ->
  LocalStorageAdapter.save_all self LocalStorage.empty calls
  = (Ok tt, storage') ->
  exists events,
    LocalStorageAdapter.getAllEvents self storage' = LocalStorage.Array events
    /\ newest_first events.
Proof.
  intros Hm Hacc Hs Hc Hrun. unfold newest_first, ordered.
  destruct calls as [| c rest].
  - injection Hrun as <-. exists []. split; [reflexivity | constructor].
  - destruct (save_all_accepted self (c :: rest) LocalStorage.empty []
                eq_refl Hm Hacc ltac:(discriminate)) as (st & Hst & Hev).
    rewrite Hst in Hrun. injection Hrun as <-.
    eexists. split; [exact Hev |].
    apply StronglySorted_firstn. rewrite app_nil_r.
    apply StronglySorted_rev. now apply saved_events_ascending.
Qed.

Lemma generateId_not_empty (env : LocalStorageAdapter.Env) :
  LocalStorageAdapter.generateId env <> ""%string.
Proof.
  unfold LocalStorageAdapter.generateId.
  destruct (number_to_string (LocalStorageAdapter.id_now env)); discriminate.
Qed.

(* ------------------------------------------------------------------ *)
(** ** C6: identity and timestamp of a saved event                     *)
(* ------------------------------------------------------------------ *)

(** C6, as stated, fails for a draft that carries the empty id and the
    timestamp 0: both are replaced by generated values. *)
Lemma save_falsy_identity_counterexample :
  fst (LocalStorageAdapter.save default_adapter (at_time 100)
         LocalStorage.empty falsy_draft) = Ok tt
  /\ exists kept,
      LocalStorageAdapter.getAllEvents default_adapter
        (snd (LocalStorageAdapter.save default_adapter (at_time 100)
                LocalStorage.empty falsy_draft)) = LocalStorage.Array [kept]
      /\ AuditEvent.id kept = Some "100-4fzyo82mv"%string
      /\ AuditEvent.timestamp kept = Some 100%Z
      /\ AuditEvent.id kept <> AuditEvent.id falsy_draft
      /\ AuditEvent.timestamp kept <> AuditEvent.timestamp falsy_draft.
Proof.
  split; [reflexivity |].
  eexists. split; [reflexivity |]. repeat split; discriminate.
Qed.

(** C6 (amended): when the adapter reads an array of events and retains
    at least one event, and the write is taken, [save] resolves and the
    event it leaves in front of
    the store is the draft with its own id when that is not empty and its
    own timestamp when that is not 0; a draft without an id, or with the
    empty one, gets a generated id, which is not empty, and a draft
    without a timestamp, or with the timestamp 0, gets the reading of the
    clock; every other attribute is the draft's. *)
Theorem local_save_identity
  (self : LocalStorageAdapter.t) (env : LocalStorageAdapter.Env)
  (storage : LocalStorage.t) (events : list AuditEvent.t)
  (event : AuditEvent.t) :
  LocalStorageAdapter.getAllEvents self storage = LocalStorage.Array events ->
  (1 <= LocalStorageAdapter.maxEvents self)%Z ->
  LocalStorageAdapter.write_accepted env = true ->
  exists storage' kept rest,
    LocalStorageAdapter.save self env storage event = (Ok tt, storage')
    /\ LocalStorageAdapter.getAllEvents self storage'
       = LocalStorage.Array (kept :: rest)
    /\ (forall i, AuditEvent.id event = Some i -> i <> ""%string ->
                  AuditEvent.id kept = Some i)
    /\ (forall ts, AuditEvent.timestamp event = Some ts -> ts <> 0%Z ->
                   AuditEvent.timestamp kept = Some ts)
    /\ (truthy_string (AuditEvent.id event) = false ->
        AuditEvent.id kept = Some (LocalStorageAdapter.generateId env)
        /\ LocalStorageAdapter.generateId env <> ""%string)
    /\ (truthy_number (AuditEvent.timestamp event) = false ->
        AuditEvent.timestamp kept
        = Some (LocalStorageAdapter.timestamp_now env))
    /\ AuditEvent.action kept = AuditEvent.action event
    /\ AuditEvent.entity kept = AuditEvent.entity event
    /\ AuditEvent.entityId kept = AuditEvent.entityId event
    /\ AuditEvent.userId kept = AuditEvent.userId event
    /\ AuditEvent.userName kept = AuditEvent.userName event
    /\ AuditEvent.description kept = AuditEvent.description event
    /\ AuditEvent.metadata kept = AuditEvent.metadata event
    /\ AuditEvent.ipAddress kept = AuditEvent.ipAddress event
    /\ AuditEvent.userAgent kept = AuditEvent.userAgent event.
Proof.
  intros Harray Hm Hw.
  destruct (save_accepted self env storage events event Harray Hw)
    as (st & Hs & Hev).
  rewrite retained_firstn in Hev by lia.
  destruct (Z.to_nat (LocalStorageAdapter.maxEvents self)) as [| m] eqn:Em;
    [lia |].
  rewrite firstn_cons in Hev.
  exists st, (LocalStorageAdapter.newEvent env event), (firstn m events).
  split; [exact Hs |]. split; [exact Hev |].
  unfold LocalStorageAdapter.newEvent, AuditEvent.with_id_timestamp.
  cbn [AuditEvent.id AuditEvent.timestamp AuditEvent.action AuditEvent.entity
       AuditEvent.entityId AuditEvent.userId AuditEvent.userName
       AuditEvent.description AuditEvent.metadata AuditEvent.ipAddress
       AuditEvent.userAgent].
  split; [| split; [| split; [| split]]].
  - intros i -> Hi. simpl. now destruct (String.eqb_spec i "").
  - intros ts -> Hts. simpl. now destruct (Z.eqb_spec ts 0).
  - intros Hf. split; [| apply generateId_not_empty].
    destruct (AuditEvent.id event) as [i |]; [| reflexivity].
    simpl in *. now destruct (i =? "")%string.
  - intros Hf. destruct (AuditEvent.timestamp event) as [ts |];
      [| reflexivity].
    simpl in *. now destruct (ts =? 0)%Z.
  - repeat split.
Qed.

(** A draft with the id "evt-7" and the timestamp 42 is stored with
    both. *)
Lemma local_save_identity_witness :
  exists storage' kept rest,
    LocalStorageAdapter.save default_adapter (at_time 100)
      (holding two_events) own_draft = (Ok tt, storage')
    /\ LocalStorageAdapter.getAllEvents default_adapter storage'
       = LocalStorage.Array (kept :: rest)
    /\ AuditEvent.id kept = Some "evt-7"%string
    /\ AuditEvent.timestamp kept = Some 42%Z.
Proof.
  destruct (local_save_identity default_adapter (at_time 100)
              (holding two_events) two_events own_draft
              eq_refl ltac:(simpl; lia) eq_refl)
    as (st & kept & rest & Hs & Hev & Hid & Hts & _).
  exists st, kept, rest. repeat split; try assumption.
  - apply Hid; [reflexivity | discriminate].
  - apply Hts; [reflexivity | discriminate].
Defined.

(* ------------------------------------------------------------------ *)
(** ** C7: retention                                                    *)
(* ------------------------------------------------------------------ *)

(** C7: for a maximum count [maxEvents] and [k >= 1], after [maxEvents +
    k] saves that [localStorage] takes, on a store that held an array of
    events before, none of the saves throws and the store holds exactly
    [maxEvents] events: the last [maxEvents] that were saved, the most
    recent first. *)
Theorem local_save_retention
  (self : LocalStorageAdapter.t) (storage : LocalStorage.t)
  (before : list AuditEvent.t)
  (calls : list (LocalStorageAdapter.Env * AuditEvent.t)) (k : Z) :
  LocalStorageAdapter.getAllEvents self storage = LocalStorage.Array before ->
  (0 <= LocalStorageAdapter.maxEvents self)%Z ->
  (1 <= k)%Z ->
  Z.of_nat (List.length calls) = (LocalStorageAdapter.maxEvents self + k)%Z ->
  all_accepted calls ->
  exists storage' kept,
    LocalStorageAdapter.save_all self storage calls = (Ok tt, storage')
    /\ LocalStorageAdapter.getAllEvents self storage'
       = LocalStorage.Array kept
    /\ kept = rev (skipn (Z.to_nat k) (saved_events calls))
    /\ Z.of_nat (List.length kept) = LocalStorageAdapter.maxEvents self.
Proof.
  intros Harray Hm Hk Hlen Hacc.
  assert (Hne : calls <> []) by (intros ->; simpl in Hlen; lia).
  destruct (save_all_accepted self calls storage before Harray Hm Hacc Hne)
    as (st & Hs & Hev).
  assert (Hsl : List.length (saved_events calls) = List.length calls)
    by apply length_map.
  assert (Hkept : firstn (Z.to_nat (LocalStorageAdapter.maxEvents self))
                    (rev (saved_events calls) ++ before)
                  = rev (skipn (Z.to_nat k) (saved_events calls))).
  { rewrite firstn_app, length_rev, Hsl.
    replace (Z.to_nat (LocalStorageAdapter.maxEvents self)
             - List.length calls)%nat with 0%nat by lia.
    rewrite firstn_0, app_nil_r, firstn_rev, Hsl.
    do 2 f_equal. lia. }
  rewrite Hkept in Hev.
  exists st, (rev (skipn (Z.to_nat k) (saved_events calls))).
  split; [exact Hs |]. split; [exact Hev |]. split; [reflexivity |].
  rewrite length_rev, length_skipn, Hsl. lia.
Qed.

(** With room for three events, saving E1 to E4 leaves E4, E3, E2. *)
Lemma local_save_retention_witness :
  exists storage',
    LocalStorageAdapter.save_all adapter_of_three LocalStorage.empty four_saves
    = (Ok tt, storage')
    /\ LocalStorageAdapter.getAllEvents adapter_of_three storage'
       = LocalStorage.Array
           [ stored "4-4fzyo82mv" "E4" None 4;
             stored "3-4fzyo82mv" "E3" None 3;
             stored "2-4fzyo82mv" "E2" None 2 ].
Proof.
  destruct (local_save_retention adapter_of_three LocalStorage.empty []
              four_saves 1 eq_refl
              ltac:(simpl; lia) ltac:(lia) eq_refl
              ltac:(repeat constructor))
    as (st & kept & Hs & Hev & Hkept & _).
  exists st. split; [exact Hs |]. now rewrite Hev, Hkept.
Defined.

(* ------------------------------------------------------------------ *)
(** ** C8: a blob that is not what the adapter wrote                    *)
(* ------------------------------------------------------------------ *)

(** An adapter that reads the empty array answers every [query] with the
    empty page. *)
Lemma query_empty_array (self : LocalStorageAdapter.t)
  (storage : LocalStorage.t) (options : option QueryOptions.t) :
  LocalStorageAdapter.getAllEvents self storage = LocalStorage.Array [] ->
  LocalStorageAdapter.query self storage options
  = Ok {| PaginatedResult.data := [];
          PaginatedResult.total := 0;
          PaginatedResult.page := page_of options;
          PaginatedResult.pageSize := pageSize_of options;
          PaginatedResult.totalPages := 0 |}.
Proof.
  intros Hst. rewrite (query_unfold _ _ _ _ Hst).
  assert (Hset : sorted (filtered [] (QueryOptions.filter_of options))
                   (QueryOptions.sort_of options) = []).
  { destruct (QueryOptions.filter_of options),
      (QueryOptions.sort_of options); reflexivity. }
  rewrite Hset. unfold slice. rewrite skipn_nil, firstn_nil.
  reflexivity.
Qed.

(** C8, as stated, fails for a blob that is corrupt and yet parses.  With
    the text [null] under the key, or the text of an object, [query] and
    [save] both throw, where on the empty store [query] resolves with
    the empty page and [save] resolves; the blob stays as it is. *)
Lemma local_parsed_blob_counterexample :
  LocalStorageAdapter.query default_adapter
    (holding_plain LocalStorage.Null) None
  = Throw local_query_error
  /\ LocalStorageAdapter.save default_adapter (at_time 100)
       (holding_plain LocalStorage.Null) own_draft
     = (Throw local_save_error, holding_plain LocalStorage.Null)
  /\ LocalStorageAdapter.query default_adapter
       (holding_plain (LocalStorage.Object [])) None
     = Throw local_query_error
  /\ LocalStorageAdapter.save default_adapter (at_time 100)
       (holding_plain (LocalStorage.Object [])) own_draft
     = (Throw local_save_error, holding_plain (LocalStorage.Object []))
  /\ LocalStorageAdapter.query default_adapter LocalStorage.empty None
     = Ok {| PaginatedResult.data := [];
             PaginatedResult.total := 0;
             PaginatedResult.page := 1;
             PaginatedResult.pageSize := 10;
             PaginatedResult.totalPages := 0 |}
  /\ fst (LocalStorageAdapter.save default_adapter (at_time 100)
            LocalStorage.empty own_draft)
     = Ok tt.
Proof. repeat split. Qed.

(** C8 (amended): when the text under the key does not parse, the
    adapter sees an empty store: [query] resolves with no data and a
    total of 0, and a [save] that [localStorage] takes resolves and
    leaves what it would leave on an empty store; the parse failure
    reaches no caller.  When the text parses to a value that is no array,
    the store is not taken for empty: [query] and [save] throw their
    errors, whatever the options and the draft, and the text stays. *)
Theorem local_unparseable_blob_is_empty
  (self : LocalStorageAdapter.t) (storage : LocalStorage.t)
  (options : option QueryOptions.t)
  (env : LocalStorageAdapter.Env) (event : AuditEvent.t) :
  LocalStorageAdapter.write_accepted env = true ->
  (LocalStorage.getItem (LocalStorageAdapter.storageKey self) storage
   = Some LocalStorage.Garbage ->
   LocalStorageAdapter.getAllEvents self storage = LocalStorage.Array []
   /\ LocalStorageAdapter.query self storage options
      = Ok {| PaginatedResult.data := [];
              PaginatedResult.total := 0;
              PaginatedResult.page := page_of options;
              PaginatedResult.pageSize := pageSize_of options;
              PaginatedResult.totalPages := 0 |}
   /\ LocalStorageAdapter.query self storage options
      = LocalStorageAdapter.query self LocalStorage.empty options
   /\ exists storage',
       LocalStorageAdapter.save self env storage event = (Ok tt, storage')
       /\ LocalStorageAdapter.getAllEvents self storage'
          = LocalStorage.Array
              (retained self [LocalStorageAdapter.newEvent env event])
       /\ LocalStorageAdapter.getAllEvents self storage'
          = LocalStorageAdapter.getAllEvents self
              (snd (LocalStorageAdapter.save self env LocalStorage.empty
                      event)))
  /\ (forall v,
         LocalStorage.getItem (LocalStorageAdapter.storageKey self) storage
         = Some (LocalStorage.Stringified v) ->
         LocalStorageAdapter.query self storage options
         = Throw local_query_error
         /\ LocalStorageAdapter.save self env storage event
            = (Throw local_save_error, storage)).
Proof.
  intros Hw. split.
  - intros Hg.
    assert (Hall : LocalStorageAdapter.getAllEvents self storage
                   = LocalStorage.Array []).
    { unfold LocalStorageAdapter.getAllEvents. now rewrite Hg. }
    split; [exact Hall |]. split; [now apply query_empty_array |].
    split; [now rewrite !query_empty_array |].
    destruct (save_accepted self env storage [] event Hall Hw)
      as (st & Hs & Hev).
    destruct (save_accepted self env LocalStorage.empty [] event eq_refl Hw)
      as (st0 & Hs0 & Hev0).
    exists st. split; [exact Hs |].
    split; [exact Hev |]. rewrite Hs0. cbn [snd]. now rewrite Hev, Hev0.
  - intros v Hg.
    assert (Hv : LocalStorageAdapter.getAllEvents self storage
                 = LocalStorage.NotArray v).
    { unfold LocalStorageAdapter.getAllEvents. now rewrite Hg. }
    split; [now apply query_not_array with (v := v) |].
    now apply save_not_array with (v := v).
Qed.

(** On a store whose text does not parse, [query()] is the empty first
    page. *)
Lemma local_unparseable_blob_is_empty_witness :
  LocalStorageAdapter.query default_adapter corrupt None
  = Ok {| PaginatedResult.data := [];
          PaginatedResult.total := 0;
          PaginatedResult.page := 1;
          PaginatedResult.pageSize := 10;
          PaginatedResult.totalPages := 0 |}.
Proof.
  exact (proj1 (proj2 (proj1 (local_unparseable_blob_is_empty default_adapter
                                corrupt None (at_time 1)
                                (sample "LOGIN" None None) eq_refl)
                         eq_refl))).
Defined.

(* ------------------------------------------------------------------ *)
(** ** C2: filter semantics                                             *)
(* ------------------------------------------------------------------ *)

Lemma not_SearchMatches (search : string) (event : AuditEvent.t) :
  existsb (LocalStorageAdapter.field_includes (toLowerCase search))
    (searchable event) = false ->
  ~ SearchMatches search event.
Proof.
  intros H M. apply search_matches_iff in M. congruence.
Qed.

(** C2, as stated, fails in two places.  On the local adapter an event
    without a timestamp passes a start date of 100, though no timestamp
    of it is at or after the bound.  On the Firestore adapter [search]
    never reaches the query: a search for "doc" also returns the event
    none of whose fields contains it. *)
Lemma query_filter_counterexample :
  (exists r,
      LocalStorageAdapter.query default_adapter (holding [unstamped])
        (only_filter (date_range (Some 100%Z) None)) = Ok r
      /\ PaginatedResult.data r = [unstamped]
      /\ ~ ContractMatch (date_range (Some 100%Z) None) unstamped)
  /\ (exists r,
         FirebaseAdapter.query (firestore_of [doc_created; doc_login])
           (only_filter search_doc) = Ok r
         /\ PaginatedResult.data r
            = [FirebaseAdapter.event_of doc_login;
               FirebaseAdapter.event_of doc_created]
         /\ ~ ContractMatch search_doc (FirebaseAdapter.event_of doc_login)).
Proof.
  split.
  - eexists. split; [reflexivity |]. split; [reflexivity |].
    intros (_ & _ & _ & _ & H & _).
    destruct (H 100%Z eq_refl) as (ts & Hts & _). discriminate.
  - eexists. split; [reflexivity |]. split; [reflexivity |].
    intros (_ & _ & _ & _ & _ & _ & H).
    now apply (not_SearchMatches "doc" (FirebaseAdapter.event_of doc_login)),
      (H "doc"%string).
Qed.

(** C2 (amended): on the local adapter, reading an array of events, the
    events that [query] returns over its pages are exactly the stored
    events that satisfy every
    predicate of the filter, a member of the filter counting as given when
    it is neither empty nor zero: [action], [entity], [entityId] and
    [userId] by equality, [startDate] and [endDate] as inclusive bounds on
    the timestamp of the events that carry one other than 0, [search] as
    a case-insensitive substring of one of [action], [entity], [entityId],
    [userName], [description]; [total] counts them.  For a filter without
    empty or zero members and events that all carry a timestamp, these
    are the predicates of the contract. *)
Theorem local_query_filter_exact
  (self : LocalStorageAdapter.t) (storage : LocalStorage.t)
  (events : list AuditEvent.t)
  (filter : AuditFilter.t) (sort : option SortOptions.t) (pageSize : Z)
  (e : AuditEvent.t) :
  LocalStorageAdapter.getAllEvents self storage = LocalStorage.Array events ->
  (1 <= pageSize)%Z ->
  let options page :=
    Some {| QueryOptions.filter := Some filter;
            QueryOptions.pagination :=
              Some {| PaginationOptions.page := page;
                      PaginationOptions.pageSize := pageSize |};
            QueryOptions.sort := sort |} in
  ((exists page r,
       (1 <= page)%Z
       /\ LocalStorageAdapter.query self storage (options page) = Ok r
       /\ In e (PaginatedResult.data r))
   <-> In e events /\ Matches filter e)
  /\ (forall page r,
         LocalStorageAdapter.query self storage (options page) = Ok r ->
         PaginatedResult.total r
         = Z.of_nat
             (List.length (LocalStorageAdapter.applyFilters events filter))
         /\ forall x, In x (PaginatedResult.data r) ->
                      In x events /\ Matches filter x)
  /\ (plain_filter filter -> stamped e ->
      (Matches filter e <-> ContractMatch filter e)).
Proof.
  intros Harray Hs options.
  assert (Hq : forall page r,
             LocalStorageAdapter.query self storage (options page) = Ok r ->
             PaginatedResult.total r
             = Z.of_nat
                 (List.length (LocalStorageAdapter.applyFilters events filter))
             /\ forall x, In x (PaginatedResult.data r) ->
                          In x events /\ Matches filter x).
  { intros page r Hr. rewrite (query_unfold _ _ _ _ Harray) in Hr.
    injection Hr as <-.
    cbn [PaginatedResult.total PaginatedResult.data QueryOptions.filter_of
         QueryOptions.sort_of QueryOptions.filter QueryOptions.sort options
         filtered].
    split.
    - f_equal. symmetry. apply Permutation_length, sorted_permutation.
    - intros x Hx. apply slice_incl, sorted_In in Hx.
      now apply applyFilters_In. }
  split; [| split; [exact Hq | apply Matches_ContractMatch]].
  split.
  - intros (page & r & _ & Hr & He). now apply (Hq page r Hr).
  - intros He. apply applyFilters_In in He.
    apply (sorted_In _ sort) in He.
    destruct (nth_page_covers _ pageSize e Hs He) as (page & Hp & Hin).
    exists page. eexists. split; [exact Hp |].
    split; [apply (query_unfold _ _ _ _ Harray) |].
    cbn [PaginatedResult.data QueryOptions.filter_of QueryOptions.sort_of
         QueryOptions.filter QueryOptions.sort options filtered].
    assert (Hpage : page_of (options page) = page).
    { unfold page_of, options. simpl.
      destruct (Z.eqb_spec page 0); [lia | reflexivity]. }
    assert (Hsize : pageSize_of (options page) = pageSize).
    { unfold pageSize_of, options. simpl.
      destruct (Z.eqb_spec pageSize 0); [lia | reflexivity]. }
    rewrite Hpage, Hsize.
    rewrite <- (page_window_nth_page _ page pageSize Hp Hs) in Hin.
    unfold page_window in Hin.
    now replace (page * pageSize)%Z
      with ((page - 1) * pageSize + pageSize)%Z in Hin by ring.
Qed.

(** A search for "doc" among the events described as "Document created"
    and "User login": the first is on some page of the result. *)
Lemma local_query_filter_exact_witness :
  exists page r,
    (1 <= page)%Z
    /\ LocalStorageAdapter.query default_adapter
         (holding [login_event; created_event])
         (Some {| QueryOptions.filter := Some search_doc;
                  QueryOptions.pagination :=
                    Some {| PaginationOptions.page := page;
                            PaginationOptions.pageSize := 10 |};
                  QueryOptions.sort := None |}) = Ok r
    /\ In created_event (PaginatedResult.data r).
Proof.
  apply (proj1 (local_query_filter_exact default_adapter
                  (holding [login_event; created_event])
                  [login_event; created_event]
                  search_doc None 10 created_event eq_refl ltac:(lia))).
  split.
  - right. left. reflexivity.
  - apply keeps_iff. reflexivity.
Defined.

(** The search scenario in full: only the event described as "Document
    created" comes back. *)
Example search_doc_scenario :
  LocalStorageAdapter.query default_adapter
    (holding [login_event; created_event]) (only_filter search_doc)
  = Ok {| PaginatedResult.data := [created_event];
          PaginatedResult.total := 1;
          PaginatedResult.page := 1;
          PaginatedResult.pageSize := 10;
          PaginatedResult.totalPages := 1 |}.
Proof. reflexivity. Qed.

(* ------------------------------------------------------------------ *)
(** ** C9: a remote save that is refused                                *)
(* ------------------------------------------------------------------ *)

(** Whatever goes wrong in [ApiAdapter.save], one error comes out. *)
Lemma api_save_outcomes (self : ApiAdapter.t) (now : Z)
  (fetch : ApiAdapter.Fetch) (event : AuditEvent.t) :
  ApiAdapter.save self now fetch event = Ok tt
  \/ ApiAdapter.save self now fetch event = Throw api_save_error.
Proof.
  unfold ApiAdapter.save, try_catch, bind.
  destruct (fetch _) as [response |]; [| now right].
  destruct (ApiAdapter.ok response); [now left | now right].
Qed.

(** C9: when the remote end answers the create request with a status
    outside 200-299, [ApiAdapter.save] throws its store failure, and
    [track] throws the same error on to its caller, having recorded it;
    the coordinator ends as it ends after a successful [track], not
    loading, but for the recorded error, and a coordinator that was at
    rest differs from before in the error only. *)
Theorem api_save_failure_recorded
  (self : ApiAdapter.t) (now : Z) (fetch : ApiAdapter.Fetch)
  (event : AuditEvent.t) (response : ApiAdapter.Response)
  (st : AuditProvider.State) :
  fetch (ApiAdapter.create_request self now event) = Ok response ->
  ApiAdapter.ok response = false ->
  let saved := ApiAdapter.save self now fetch event in
  saved = Throw api_save_error
  /\ fst (AuditProvider.track saved st) = Throw api_save_error
  /\ snd (AuditProvider.track saved st)
     = {| AuditProvider.loading := false;
          AuditProvider.error := Some api_save_error |}
  /\ snd (AuditProvider.track saved st)
     = AuditProvider.setError (Some api_save_error)
         (snd (AuditProvider.track (Ok tt) st))
  /\ (AuditProvider.loading st = false ->
      snd (AuditProvider.track saved st)
      = AuditProvider.setError (Some api_save_error) st).
Proof.
  intros Hf Hok saved.
  assert (Hs : saved = Throw api_save_error).
  { unfold saved, ApiAdapter.save, try_catch, bind.
    now rewrite Hf, Hok. }
  rewrite Hs. repeat split.
  intros Hl. unfold AuditProvider.track, AuditProvider.setError,
    AuditProvider.setLoading. simpl. now rewrite Hl.
Qed.

(** Against a remote end that answers 500, [save] throws and an idle
    coordinator ends with the error recorded and nothing loading. *)
Lemma api_save_failure_recorded_witness :
  ApiAdapter.save sample_api 1700000000000 always_500
    (sample "LOGIN" None None) = Throw api_save_error
  /\ snd (AuditProvider.track
            (ApiAdapter.save sample_api 1700000000000 always_500
               (sample "LOGIN" None None)) idle)
     = {| AuditProvider.loading := false;
          AuditProvider.error := Some api_save_error |}.
Proof.
  destruct (api_save_failure_recorded sample_api 1700000000000 always_500
              (sample "LOGIN" None None)
              {| ApiAdapter.status := 500;
                 ApiAdapter.statusText := "Internal Server Error";
                 ApiAdapter.json := Throw (mkError "SyntaxError") |}
              idle eq_refl eq_refl) as (H1 & _ & H3 & _).
  split; [exact H1 | exact H3].
Defined.

(** ** [ApiAdapter.query] *)

(** The remote adapter filters, sorts and cuts nothing itself: what it
    resolves with is what the body of the response says, member by
    member, with the defaults for the members that are missing. *)
Lemma api_query_passes_through (self : ApiAdapter.t)
  (fetch : ApiAdapter.Fetch) (options : option QueryOptions.t)
  (response : ApiAdapter.Response) (result : ApiAdapter.Body) :
  fetch {| ApiAdapter.url := ApiAdapter.buildQueryUrl self options;
           ApiAdapter.method := "GET";
           ApiAdapter.request_headers := ApiAdapter.all_headers self;
           ApiAdapter.body := None;
           ApiAdapter.signal := ApiAdapter.abort_signal self |}
  = Ok response ->
  ApiAdapter.ok response = true ->
  ApiAdapter.json response = Ok result ->
  ApiAdapter.query self fetch options
  = Ok {| PaginatedResult.data :=
            match ApiAdapter.body_data result with
            | Some d => d
            | None => []
            end;
          PaginatedResult.total := or_number (ApiAdapter.body_total result) 0;
          PaginatedResult.page := or_number (ApiAdapter.body_page result) 1;
          PaginatedResult.pageSize :=
            or_number (ApiAdapter.body_pageSize result) 10;
          PaginatedResult.totalPages :=
            or_number (ApiAdapter.body_totalPages result) 0 |}.
Proof.
  intros Hf Hok Hj. unfold ApiAdapter.query, try_catch, bind.
  now rewrite Hf, Hok, Hj.
Qed.

(* ------------------------------------------------------------------ *)
(** ** C10: date bounds and events without a timestamp                  *)
(* ------------------------------------------------------------------ *)

Lemma applyFilters_length_le (events : list AuditEvent.t)
  (filter : AuditFilter.t) :
  (List.length (LocalStorageAdapter.applyFilters events filter)
   <= List.length events)%nat.
Proof. apply filter_length_le. Qed.

(** C10: a stored event without a timestamp passes every start date and
    every end date.  The callback of [applyFilters] answers for it as if
    the filter had no date bounds; a filter of date bounds only keeps it,
    and [query] with such a filter returns it. *)
Theorem local_filter_dates_pass_unstamped
  (self : LocalStorageAdapter.t) (storage : LocalStorage.t)
  (events : list AuditEvent.t)
  (startDate endDate : option Z) (e : AuditEvent.t) :
  LocalStorageAdapter.getAllEvents self storage = LocalStorage.Array events ->
  In e events ->
  AuditEvent.timestamp e = None ->
  (forall filter,
      LocalStorageAdapter.keeps filter e
      = LocalStorageAdapter.keeps (without_dates filter) e)
  /\ LocalStorageAdapter.keeps (date_range startDate endDate) e = true
  /\ In e (LocalStorageAdapter.applyFilters events
             (date_range startDate endDate))
  /\ exists r,
      LocalStorageAdapter.query self storage
        (Some {| QueryOptions.filter := Some (date_range startDate endDate);
                 QueryOptions.pagination := Some (whole_page events);
                 QueryOptions.sort := None |}) = Ok r
      /\ In e (PaginatedResult.data r).
Proof.
  intros Harray Hin Hts.
  assert (Hk : forall filter,
             LocalStorageAdapter.keeps filter e
             = LocalStorageAdapter.keeps (without_dates filter) e).
  { intros filter. rewrite !keeps_unfold. unfold search_ok.
    cbn [without_dates AuditFilter.action AuditFilter.entity
         AuditFilter.entityId AuditFilter.userId AuditFilter.startDate
         AuditFilter.endDate AuditFilter.search].
    rewrite Hts. unfold LocalStorageAdapter.set_and_below,
      LocalStorageAdapter.set_and_above.
    destruct (AuditFilter.startDate filter), (AuditFilter.endDate filter);
      reflexivity. }
  assert (Hd : LocalStorageAdapter.keeps (date_range startDate endDate) e
               = true).
  { rewrite Hk. reflexivity. }
  assert (Hf : In e (LocalStorageAdapter.applyFilters events
                       (date_range startDate endDate))).
  { unfold LocalStorageAdapter.applyFilters. apply filter_In. now split. }
  split; [exact Hk |]. split; [exact Hd |]. split; [exact Hf |].
  eexists. split; [apply (query_unfold _ _ _ _ Harray) |].
  cbn [PaginatedResult.data QueryOptions.filter_of QueryOptions.sort_of
       QueryOptions.filter QueryOptions.sort filtered sorted].
  set (kept := LocalStorageAdapter.applyFilters events
                 (date_range startDate endDate)) in *.
  set (size := Z.max 1 (Z.of_nat (List.length events))).
  assert (Hpage : page_of
                    (Some {| QueryOptions.filter :=
                               Some (date_range startDate endDate);
                             QueryOptions.pagination :=
                               Some (whole_page events);
                             QueryOptions.sort := None |}) = 1%Z)
    by reflexivity.
  assert (Hsize : pageSize_of
                    (Some {| QueryOptions.filter :=
                               Some (date_range startDate endDate);
                             QueryOptions.pagination :=
                               Some (whole_page events);
                             QueryOptions.sort := None |}) = size).
  { unfold pageSize_of, whole_page. simpl. fold size.
    destruct (Z.eqb_spec size 0); [subst size; lia | reflexivity]. }
  rewrite Hpage, Hsize. change ((1 - 1) * size)%Z with 0%Z.
  rewrite (slice_window kept 0 size) by (subst size; lia).
  rewrite skipn_0, firstn_all2; [exact Hf |].
  pose proof (applyFilters_length_le events (date_range startDate endDate)).
  fold kept in H. subst size. lia.
Qed.

(** The event without a timestamp passes the range from 100 to 200. *)
Lemma local_filter_dates_pass_unstamped_witness :
  LocalStorageAdapter.keeps (date_range (Some 100%Z) (Some 200%Z)) unstamped
  = true
  /\ In unstamped
       (LocalStorageAdapter.applyFilters [unstamped]
          (date_range (Some 100%Z) (Some 200%Z))).
Proof.
  destruct (local_filter_dates_pass_unstamped default_adapter
              (holding [unstamped]) [unstamped] (Some 100%Z) (Some 200%Z)
              unstamped eq_refl
              ltac:(left; reflexivity) eq_refl) as (_ & H2 & H3 & _).
  split; [exact H2 | exact H3].
Defined.

(* ================================================================== *)
(** * Part III.  Further properties of the code                        *)
(* ================================================================== *)

(** ** Pages *)

Lemma firstn_plus {A} (a b : nat) (l : list A) :
  firstn (a + b) l = firstn a l ++ firstn b (skipn a l).
Proof.
  revert l. induction a as [| a IH]; intros l; [reflexivity |].
  destruct l as [| x l]; simpl.
  - now rewrite firstn_nil.
  - now rewrite IH.
Qed.

Lemma nth_page_S {A} (l : list A) (k : nat) (pageSize : Z) :
  (1 <= pageSize)%Z ->
  nth_page l (Z.of_nat (S k)) pageSize
  = firstn (Z.to_nat pageSize) (skipn (k * Z.to_nat pageSize) l).
Proof.
  intros Hs. unfold nth_page. do 2 f_equal. nia.
Qed.

(** The first [n] pages of a list, one after the other, are its first
    [n * pageSize] elements. *)
Lemma nth_pages_firstn {A} (l : list A) (pageSize : Z) (n : nat) :
  (1 <= pageSize)%Z ->
  flat_map (fun p => nth_page l (Z.of_nat p) pageSize) (seq 1 n)
  = firstn (n * Z.to_nat pageSize) l.
Proof.
  intros Hs. induction n as [| n IH]; [reflexivity |].
  rewrite seq_S, flat_map_app, IH. cbn [flat_map].
  rewrite app_nil_r. change (1 + n)%nat with (S n).
  rewrite nth_page_S by exact Hs.
  replace (S n * Z.to_nat pageSize)%nat
    with (n * Z.to_nat pageSize + Z.to_nat pageSize)%nat by lia.
  now rewrite firstn_plus.
Qed.

(** [Math.ceil(total / pageSize)] is the least number of pages of size
    [pageSize] that hold [total] entries. *)
Lemma ceil_div_bounds (total pageSize : Z) :
  (0 <= total)%Z -> (1 <= pageSize)%Z ->
  (0 <= ceil_div total pageSize)%Z
  /\ (total <= ceil_div total pageSize * pageSize)%Z
  /\ (ceil_div total pageSize * pageSize < total + pageSize)%Z.
Proof.
  intros Ht Hs. unfold ceil_div.
  pose proof (Z.div_mod (- total) pageSize ltac:(lia)) as Hd.
  pose proof (Z.mod_pos_bound (- total) pageSize ltac:(lia)) as Hb.
  nia.
Qed.

Lemma query_page (self : LocalStorageAdapter.t) (storage : LocalStorage.t)
  (events : list AuditEvent.t)
  (filter : option AuditFilter.t) (sort : option SortOptions.t)
  (page pageSize : Z) :
  LocalStorageAdapter.getAllEvents self storage = LocalStorage.Array events ->
  (1 <= page)%Z -> (1 <= pageSize)%Z ->
  let set := sorted (filtered events filter) sort in
  LocalStorageAdapter.query self storage
    (page_options filter sort page pageSize)
  = Ok {| PaginatedResult.data := nth_page set page pageSize;
          PaginatedResult.total := Z.of_nat (List.length set);
          PaginatedResult.page := page;
          PaginatedResult.pageSize := pageSize;
          PaginatedResult.totalPages :=
            ceil_div (Z.of_nat (List.length set)) pageSize |}.
Proof.
  intros Harray Hp Hs set. rewrite (query_unfold _ _ _ _ Harray).
  cbn [page_options QueryOptions.filter_of QueryOptions.sort_of
       QueryOptions.filter QueryOptions.sort].
  fold set.
  assert (Hpage : page_of (page_options filter sort page pageSize) = page).
  { unfold page_of. simpl. destruct (Z.eqb_spec page 0); [lia | easy]. }
  assert (Hsize : pageSize_of (page_options filter sort page pageSize)
                  = pageSize).
  { unfold pageSize_of. simpl.
    destruct (Z.eqb_spec pageSize 0); [lia | easy]. }
  rewrite Hpage, Hsize. f_equal. f_equal.
  rewrite <- (page_window_nth_page set page pageSize Hp Hs).
  unfold page_window. f_equal. ring.
Qed.

(** X1.  Pages 1 to [totalPages] of a listing of the local adapter, one
    after the other, are the whole filtered and sorted sequence of the
    events it reads: no event is left out, none comes twice, and the
    order is kept. *)
Theorem local_pages_make_the_listing
  (self : LocalStorageAdapter.t) (storage : LocalStorage.t)
  (events : list AuditEvent.t)
  (filter : option AuditFilter.t) (sort : option SortOptions.t)
  (pageSize : Z) (first : PaginatedResult.t) :
  LocalStorageAdapter.getAllEvents self storage = LocalStorage.Array events ->
  (1 <= pageSize)%Z ->
  LocalStorageAdapter.query self storage (page_options filter sort 1 pageSize)
  = Ok first ->
  pages_upto self storage filter sort pageSize
    (Z.to_nat (PaginatedResult.totalPages first))
  = sorted (filtered events filter) sort.
Proof.
  intros Harray Hs Hfirst.
  set (set := sorted (filtered events filter) sort).
  rewrite (query_page _ _ _ _ _ _ _ Harray) in Hfirst by lia.
  injection Hfirst as <-.
  cbn [PaginatedResult.totalPages]. fold set.
  unfold pages_upto.
  rewrite flat_map_concat_map.
  rewrite (map_ext_in _ (fun p => nth_page set (Z.of_nat p) pageSize)).
  - rewrite <- flat_map_concat_map, nth_pages_firstn by exact Hs.
    apply firstn_all2.
    destruct (ceil_div_bounds (Z.of_nat (List.length set)) pageSize
                ltac:(lia) Hs) as (H0 & H1 & _).
    nia.
  - intros p Hp. apply in_seq in Hp.
    rewrite (query_page _ _ _ _ _ _ _ Harray) by lia. reflexivity.
Qed.

(** On the sample store, pages 1 and 2 of size 1 make the two events. *)
Lemma local_pages_make_the_listing_witness :
  pages_upto default_adapter (holding two_events) None None 1 2 = two_events.
Proof.
  exact (local_pages_make_the_listing default_adapter (holding two_events)
           two_events None None 1
           {| PaginatedResult.data := [stored "2-b" "E2" None 2];
              PaginatedResult.total := 2;
              PaginatedResult.page := 1;
              PaginatedResult.pageSize := 1;
              PaginatedResult.totalPages := 2 |}
           eq_refl ltac:(lia) eq_refl).
Defined.

(** X2.  For a page and a page size of at least 1, the local adapter
    reports as [totalPages] the least number of pages that hold [total]
    entries; the page holds [pageSize] events, or what is left of the
    listing after the earlier pages, and it holds at least one event
    exactly when it is not beyond [totalPages]. *)
Theorem local_page_sizes
  (self : LocalStorageAdapter.t) (storage : LocalStorage.t)
  (filter : option AuditFilter.t) (sort : option SortOptions.t)
  (page pageSize : Z) (r : PaginatedResult.t) :
  (1 <= page)%Z -> (1 <= pageSize)%Z ->
  LocalStorageAdapter.query self storage
    (page_options filter sort page pageSize) = Ok r ->
  (0 <= PaginatedResult.totalPages r)%Z
  /\ (PaginatedResult.total r
      <= PaginatedResult.totalPages r * pageSize)%Z
  /\ (PaginatedResult.totalPages r * pageSize
      < PaginatedResult.total r + pageSize)%Z
  /\ Z.of_nat (List.length (PaginatedResult.data r))
     = Z.max 0 (Z.min pageSize
                  (PaginatedResult.total r - (page - 1) * pageSize))
  /\ (PaginatedResult.data r <> [] <-> (page <= PaginatedResult.totalPages r)%Z).
Proof.
  intros Hp Hs Hr.
  destruct (LocalStorageAdapter.getAllEvents self storage)
    as [events | v] eqn:Hread;
    [| rewrite (query_not_array _ _ _ _ Hread) in Hr; discriminate].
  rewrite (query_page _ _ _ _ _ _ _ Hread) in Hr by assumption.
  injection Hr as <-.
  cbn [PaginatedResult.totalPages PaginatedResult.total PaginatedResult.data].
  set (set := sorted _ sort).
  destruct (ceil_div_bounds (Z.of_nat (List.length set)) pageSize
              ltac:(lia) Hs) as (H0 & H1 & H2).
  assert (Hlen : Z.of_nat (List.length (nth_page set page pageSize))
                 = Z.max 0 (Z.min pageSize
                              (Z.of_nat (List.length set)
                               - (page - 1) * pageSize))).
  { unfold nth_page. rewrite length_firstn, length_skipn. nia. }
  repeat split; try assumption.
  - intros Hne.
    assert (0 < Z.of_nat (List.length (nth_page set page pageSize)))%Z.
    { destruct (nth_page set page pageSize); [congruence | simpl; lia]. }
    nia.
  - intros Hle Hnil. rewrite Hnil in Hlen. simpl in Hlen. nia.
Qed.

(** Page 2 of size 1 of the sample store: one event of two, on two
    pages. *)
Lemma local_page_sizes_witness :
  Z.of_nat (List.length [stored "1-a" "E1" None 1])
  = Z.max 0 (Z.min 1 (2 - (2 - 1) * 1)).
Proof.
  exact (proj1 (proj2 (proj2 (proj2
           (local_page_sizes default_adapter (holding two_events) None None
              2 1
              {| PaginatedResult.data := [stored "1-a" "E1" None 1];
                 PaginatedResult.total := 2;
                 PaginatedResult.page := 2;
                 PaginatedResult.pageSize := 1;
                 PaginatedResult.totalPages := 2 |}
              ltac:(lia) ltac:(lia) eq_refl))))).
Defined.

(** ** Saving and reading back *)

(** X3.  After a save that [localStorage] takes, on an adapter that
    reads an array of events and retains at least one event, [query()]
    lists the new event first, followed by the events that were there, as
    far as the limit of the adapter and the first page go. *)
Theorem local_save_then_query
  (self : LocalStorageAdapter.t) (env : LocalStorageAdapter.Env)
  (storage : LocalStorage.t) (before : list AuditEvent.t)
  (event : AuditEvent.t) :
  LocalStorageAdapter.getAllEvents self storage = LocalStorage.Array before ->
  (1 <= LocalStorageAdapter.maxEvents self)%Z ->
  LocalStorageAdapter.write_accepted env = true ->
  let after :=
    firstn (Z.to_nat (LocalStorageAdapter.maxEvents self))
      (LocalStorageAdapter.newEvent env event :: before) in
  exists storage' r,
    LocalStorageAdapter.save self env storage event = (Ok tt, storage')
    /\ LocalStorageAdapter.query self storage' None = Ok r
    /\ PaginatedResult.data r = firstn 10 after
    /\ hd_error (PaginatedResult.data r)
       = Some (LocalStorageAdapter.newEvent env event)
    /\ PaginatedResult.total r = Z.of_nat (List.length after).
Proof.
  intros Harray Hm Hw after.
  destruct (save_accepted self env storage before event Harray Hw)
    as (st & Hs & Hev).
  rewrite retained_firstn in Hev by lia. fold after in Hev.
  exists st. eexists. split; [exact Hs |].
  split; [apply (query_unfold _ _ _ _ Hev) |].
  cbn [PaginatedResult.data PaginatedResult.total QueryOptions.filter_of
       QueryOptions.sort_of filtered sorted].
  assert (Hslice : slice after
                     ((page_of None - 1) * pageSize_of None)
                     ((page_of None - 1) * pageSize_of None + pageSize_of None)
                   = firstn 10 after).
  { change (page_of None) with 1%Z. change (pageSize_of None) with 10%Z.
    change ((1 - 1) * 10)%Z with 0%Z.
    now rewrite (slice_window after 0 10) by lia. }
  rewrite Hslice. repeat split.
  unfold after.
  destruct (Z.to_nat (LocalStorageAdapter.maxEvents self)) as [| m] eqn:Em;
    [lia | reflexivity].
Qed.

(** Saving the draft with its own id on the sample store: it comes
    first. *)
Lemma local_save_then_query_witness :
  exists storage' r,
    LocalStorageAdapter.save default_adapter (at_time 100)
      (holding two_events) own_draft = (Ok tt, storage')
    /\ LocalStorageAdapter.query default_adapter storage' None = Ok r
    /\ hd_error (PaginatedResult.data r)
       = Some (LocalStorageAdapter.newEvent (at_time 100) own_draft).
Proof.
  destruct (local_save_then_query default_adapter (at_time 100)
              (holding two_events) two_events own_draft
              eq_refl ltac:(simpl; lia) eq_refl)
    as (st & r & Hs & Hq & _ & Hhd & _).
  exists st, r. repeat split; assumption.
Defined.

(** X4.  A save that [localStorage] takes, on an adapter that reads an
    array of events, never leaves more than [maxEvents] events, however
    many were stored before; and while there is room, it loses nothing:
    the store is the new event followed by all the events that were
    there. *)
Theorem local_save_capacity
  (self : LocalStorageAdapter.t) (env : LocalStorageAdapter.Env)
  (storage : LocalStorage.t) (before : list AuditEvent.t)
  (event : AuditEvent.t) :
  LocalStorageAdapter.getAllEvents self storage = LocalStorage.Array before ->
  (0 <= LocalStorageAdapter.maxEvents self)%Z ->
  LocalStorageAdapter.write_accepted env = true ->
  exists storage' after,
    LocalStorageAdapter.save self env storage event = (Ok tt, storage')
    /\ LocalStorageAdapter.getAllEvents self storage'
       = LocalStorage.Array after
    /\ (Z.of_nat (List.length after) <= LocalStorageAdapter.maxEvents self)%Z
    /\ ((Z.of_nat (List.length before) < LocalStorageAdapter.maxEvents self)%Z
        -> after = LocalStorageAdapter.newEvent env event :: before).
Proof.
  intros Harray Hm Hw.
  destruct (save_accepted self env storage before event Harray Hw)
    as (st & Hs & Hev).
  rewrite retained_firstn in Hev by lia.
  exists st. eexists. split; [exact Hs |]. split; [exact Hev |]. split.
  - rewrite length_firstn. lia.
  - intros Hroom. apply firstn_all2. simpl. lia.
Qed.

(** With room for three, a save on a store of two keeps all three. *)
Lemma local_save_capacity_witness :
  exists storage',
    LocalStorageAdapter.save adapter_of_three (at_time 100)
      (holding two_events) own_draft = (Ok tt, storage')
    /\ LocalStorageAdapter.getAllEvents adapter_of_three storage'
       = LocalStorage.Array
           (LocalStorageAdapter.newEvent (at_time 100) own_draft
              :: two_events).
Proof.
  destruct (local_save_capacity adapter_of_three (at_time 100)
              (holding two_events) two_events own_draft
              eq_refl ltac:(simpl; lia) eq_refl)
    as (st & after & Hs & Hev & _ & Hall).
  exists st. split; [exact Hs |]. rewrite Hev. f_equal.
  apply Hall. simpl. lia.
Defined.

(** X5.  On an adapter built with [maxEvents = 0] that reads an array of
    events, a save that [localStorage] takes resolves and stores the
    empty array: the event is lost without an error, and a [query] after
    it finds nothing. *)
Theorem local_save_keeps_nothing_at_zero
  (self : LocalStorageAdapter.t) (env : LocalStorageAdapter.Env)
  (storage : LocalStorage.t) (before : list AuditEvent.t)
  (event : AuditEvent.t) (options : option QueryOptions.t) :
  LocalStorageAdapter.getAllEvents self storage = LocalStorage.Array before ->
  LocalStorageAdapter.maxEvents self = 0%Z ->
  LocalStorageAdapter.write_accepted env = true ->
  exists storage' r,
    LocalStorageAdapter.save self env storage event = (Ok tt, storage')
    /\ LocalStorageAdapter.getAllEvents self storage' = LocalStorage.Array []
    /\ LocalStorageAdapter.query self storage' options = Ok r
    /\ PaginatedResult.data r = []
    /\ PaginatedResult.total r = 0%Z.
Proof.
  intros Harray Hm Hw.
  destruct (save_accepted self env storage before event Harray Hw)
    as (st & Hs & Hev).
  rewrite retained_firstn, Hm in Hev by lia. simpl in Hev.
  exists st. eexists. split; [exact Hs |]. split; [exact Hev |].
  split; [apply (query_empty_array _ _ _ Hev) |].
  split; reflexivity.
Qed.

(** On the sample store, an adapter that retains nothing empties it. *)
Lemma local_save_keeps_nothing_at_zero_witness :
  exists storage',
    LocalStorageAdapter.save adapter_of_none (at_time 100)
      (holding two_events) own_draft = (Ok tt, storage')
    /\ LocalStorageAdapter.getAllEvents adapter_of_none storage'
       = LocalStorage.Array [].
Proof.
  destruct (local_save_keeps_nothing_at_zero adapter_of_none (at_time 100)
              (holding two_events) two_events own_draft None
              eq_refl eq_refl eq_refl)
    as (st & r & Hs & Hev & _).
  exists st. split; assumption.
Defined.

(** ** Clearing, and keys *)

Lemma getAllEvents_other_key (self : LocalStorageAdapter.t)
  (storage storage' : LocalStorage.t) :
  storage' (LocalStorageAdapter.storageKey self)
  = storage (LocalStorageAdapter.storageKey self) ->
  LocalStorageAdapter.getAllEvents self storage'
  = LocalStorageAdapter.getAllEvents self storage.
Proof.
  intros H. unfold LocalStorageAdapter.getAllEvents, LocalStorage.getItem.
  now rewrite H.
Qed.

Lemma query_same_events (self : LocalStorageAdapter.t)
  (storage storage' : LocalStorage.t) (options : option QueryOptions.t) :
  LocalStorageAdapter.getAllEvents self storage'
  = LocalStorageAdapter.getAllEvents self storage ->
  LocalStorageAdapter.query self storage' options
  = LocalStorageAdapter.query self storage options.
Proof. intros H. unfold LocalStorageAdapter.query. now rewrite H. Qed.

(** X6.  [clear] resolves and leaves the adapter with no events: any
    [query] after it resolves with no data, a total of 0 and 0 pages;
    [clear] on a cleared store changes nothing; and what is stored under
    any other key is as it was. *)
Theorem local_clear_empties
  (self : LocalStorageAdapter.t) (storage : LocalStorage.t)
  (options : option QueryOptions.t) :
  let storage' := snd (LocalStorageAdapter.clear self storage) in
  fst (LocalStorageAdapter.clear self storage) = Ok tt
  /\ LocalStorageAdapter.getAllEvents self storage' = LocalStorage.Array []
  /\ LocalStorageAdapter.query self storage' options
     = Ok {| PaginatedResult.data := [];
             PaginatedResult.total := 0;
             PaginatedResult.page := page_of options;
             PaginatedResult.pageSize := pageSize_of options;
             PaginatedResult.totalPages := 0 |}
  /\ (forall key,
         snd (LocalStorageAdapter.clear self storage') key = storage' key)
  /\ (forall key,
         key <> LocalStorageAdapter.storageKey self ->
         storage' key = storage key).
Proof.
  intros storage'.
  assert (Hall : LocalStorageAdapter.getAllEvents self storage'
                 = LocalStorage.Array []).
  { unfold storage', LocalStorageAdapter.clear,
      LocalStorageAdapter.getAllEvents, LocalStorage.getItem,
      LocalStorage.removeItem.
    cbn [snd]. now rewrite String.eqb_refl. }
  split; [reflexivity |]. split; [exact Hall |].
  split; [now apply query_empty_array |]. split.
  - intros key. unfold storage', LocalStorageAdapter.clear,
      LocalStorage.removeItem. cbn [snd].
    now destruct (key =? LocalStorageAdapter.storageKey self)%string.
  - intros key Hkey. unfold storage', LocalStorageAdapter.clear,
      LocalStorage.removeItem. cbn [snd].
    destruct (String.eqb_spec key (LocalStorageAdapter.storageKey self));
      [contradiction | reflexivity].
Qed.

(** X7.  Two adapters on different keys do not see each other: whether a
    save of the one resolves or throws, the other reads the events it
    read before, and answers every [query] as before. *)
Theorem local_save_other_key
  (self other : LocalStorageAdapter.t) (env : LocalStorageAdapter.Env)
  (storage : LocalStorage.t) (event : AuditEvent.t)
  (options : option QueryOptions.t) :
  LocalStorageAdapter.storageKey other <> LocalStorageAdapter.storageKey self ->
  let storage' := snd (LocalStorageAdapter.save self env storage event) in
  LocalStorageAdapter.getAllEvents other storage'
  = LocalStorageAdapter.getAllEvents other storage
  /\ LocalStorageAdapter.query other storage' options
     = LocalStorageAdapter.query other storage options.
Proof.
  intros Hkey storage'.
  assert (H : LocalStorageAdapter.getAllEvents other storage'
              = LocalStorageAdapter.getAllEvents other storage).
  { apply getAllEvents_other_key.
    unfold storage', LocalStorageAdapter.save, LocalStorage.setItem.
    destruct (LocalStorageAdapter.getAllEvents self storage);
      cbn [LocalStorage.array_receiver bind snd]; [| reflexivity].
    destruct (LocalStorageAdapter.write_accepted env); cbn [snd];
      [| reflexivity].
    destruct (String.eqb_spec (LocalStorageAdapter.storageKey other)
                (LocalStorageAdapter.storageKey self));
      [contradiction | reflexivity]. }
  split; [exact H | now apply query_same_events].
Qed.

(** A save under the default key leaves the adapter on "other_events"
    with nothing to read. *)
Lemma local_save_other_key_witness :
  LocalStorageAdapter.getAllEvents other_adapter
    (snd (LocalStorageAdapter.save default_adapter (at_time 100)
            (holding two_events) own_draft))
  = LocalStorage.Array [].
Proof.
  exact (proj1 (local_save_other_key default_adapter other_adapter
                  (at_time 100) (holding two_events) own_draft None
                  ltac:(discriminate))).
Defined.

(** ** Sorting and filtering *)


Lemma truthy_string_false (s : option string) :
  truthy_string s = false <-> (forall a, s = Some a -> a = ""%string).
Proof.
  destruct s as [s |]; simpl.
  - destruct (String.eqb_spec s ""); simpl.
    + split; [intros _ a [= <-]; assumption | reflexivity].
    + split; [discriminate | intros H; now elim n; apply H].
  - split; [intros _ a; discriminate | reflexivity].
Qed.

Lemma truthy_number_false (x : option Z) :
  truthy_number x = false <-> (forall a, x = Some a -> a = 0%Z).
Proof.
  destruct x as [x |]; simpl.
  - destruct (Z.eqb_spec x 0); simpl.
    + split; [intros _ a [= <-]; assumption | reflexivity].
    + split; [discriminate | intros H; now elim n; apply H].
  - split; [intros _ a; discriminate | reflexivity].
Qed.

(** X9.  A filter whose members are all missing, empty or zero filters
    nothing: [applyFilters] returns the events as they are, and [query]
    answers as it answers without a filter. *)
Theorem local_blank_filter_keeps_all
  (self : LocalStorageAdapter.t) (storage : LocalStorage.t)
  (filter : AuditFilter.t) (pagination : option PaginationOptions.t)
  (sort : option SortOptions.t) (events : list AuditEvent.t) :
  blank_filter filter ->
  LocalStorageAdapter.applyFilters events filter = events
  /\ LocalStorageAdapter.query self storage
       (Some {| QueryOptions.filter := Some filter;
                QueryOptions.pagination := pagination;
                QueryOptions.sort := sort |})
     = LocalStorageAdapter.query self storage
         (Some {| QueryOptions.filter := None;
                  QueryOptions.pagination := pagination;
                  QueryOptions.sort := sort |}).
Proof.
  intros (Ha & He & Hi & Hu & Hs & Hn & Hq).
  assert (Hk : forall e, LocalStorageAdapter.keeps filter e = true).
  { intros e. apply keeps_iff. unfold Matches.
    rewrite truthy_string_false in Ha, He, Hi, Hu, Hq.
    rewrite truthy_number_false in Hs, Hn.
    repeat split.
    - intros a E Hne. elim Hne. now apply Ha.
    - intros a E Hne. elim Hne. now apply He.
    - intros a E Hne. elim Hne. now apply Hi.
    - intros a E Hne. elim Hne. now apply Hu.
    - intros d ts E Hne. elim Hne. now apply Hs.
    - intros d ts E Hne. elim Hne. now apply Hn.
    - intros s E Hne. elim Hne. now apply Hq. }
  assert (Hf : forall l, LocalStorageAdapter.applyFilters l filter = l).
  { intros l. unfold LocalStorageAdapter.applyFilters.
    induction l as [| e l IH]; [reflexivity |].
    cbn [List.filter]. now rewrite Hk, IH. }
  split; [apply Hf |].
  destruct (LocalStorageAdapter.getAllEvents self storage)
    as [held | v] eqn:Hread.
  - rewrite !(query_unfold _ _ _ _ Hread).
    cbn [QueryOptions.filter_of QueryOptions.filter filtered].
    now rewrite Hf.
  - now rewrite !(query_not_array _ _ _ _ Hread).
Qed.

(** The filter [{ action: '', startDate: 0 }] keeps the sample events. *)
Lemma local_blank_filter_keeps_all_witness :
  LocalStorageAdapter.applyFilters two_events
    (AuditFilter.mk (Some ""%string) None None None (Some 0%Z) None None)
  = two_events.
Proof.
  exact (proj1 (local_blank_filter_keeps_all default_adapter
                  LocalStorage.empty
                  (AuditFilter.mk (Some ""%string) None None None (Some 0%Z)
                     None None)
                  None None two_events
                  ltac:(repeat split))).
Defined.

Lemma toLowerCase_empty (s : string) :
  toLowerCase s = ""%string <-> s = ""%string.
Proof. destruct s; simpl; split; congruence. Qed.

(** X10.  [search] looks at the letters of the term, not at their case:
    two terms with the same lower-case form select the same events,
    whatever the rest of the filter. *)
Theorem local_search_ignores_case
  (filter : AuditFilter.t) (term term' : string)
  (events : list AuditEvent.t) :
  toLowerCase term = toLowerCase term' ->
  LocalStorageAdapter.applyFilters events (searching filter term)
  = LocalStorageAdapter.applyFilters events (searching filter term').
Proof.
  intros Hl. unfold LocalStorageAdapter.applyFilters.
  apply filter_ext. intros e. rewrite !keeps_unfold.
  cbn [searching AuditFilter.action AuditFilter.entity AuditFilter.entityId
       AuditFilter.userId AuditFilter.startDate AuditFilter.endDate].
  f_equal. unfold search_ok. cbn [searching AuditFilter.search].
  rewrite Hl. f_equal.
  destruct (String.eqb_spec term "") as [E | N],
    (String.eqb_spec term' "") as [E' | N']; try reflexivity.
  - elim N'. apply toLowerCase_empty. rewrite <- Hl.
    now apply toLowerCase_empty.
  - elim N. apply toLowerCase_empty. rewrite Hl.
    now apply toLowerCase_empty.
Qed.

(** "DOC" and "doc" find the same event of the search scenario. *)
Lemma local_search_ignores_case_witness :
  LocalStorageAdapter.applyFilters [login_event; created_event]
    (searching AuditFilter.empty "DOC")
  = [created_event].
Proof.
  rewrite (local_search_ignores_case AuditFilter.empty "DOC" "doc"
             [login_event; created_event] eq_refl).
  reflexivity.
Defined.

(** ** Runs of saves *)

Lemma save_all_app (self : LocalStorageAdapter.t)
  (calls calls' : list (LocalStorageAdapter.Env * AuditEvent.t))
  (storage : LocalStorage.t) :
  LocalStorageAdapter.save_all self storage (calls ++ calls')
  = match LocalStorageAdapter.save_all self storage calls with
    | (Ok _, storage') => LocalStorageAdapter.save_all self storage' calls'
    | (Throw e, storage') => (Throw e, storage')
    end.
Proof.
  revert storage. induction calls as [| [env event] rest IH]; intros storage.
  - reflexivity.
  - cbn [app LocalStorageAdapter.save_all].
    destruct (LocalStorageAdapter.save self env storage event) as [[u | e] st];
      [apply IH | reflexivity].
Qed.

(** X11.  A save that [localStorage] refuses throws the adapter's error
    and stores nothing, and it ends a run of awaited saves on an adapter
    that read an array of events at the start: what the earlier saves of
    the run stored stays, the later saves are not made. *)
Theorem local_refused_save_ends_run
  (self : LocalStorageAdapter.t) (storage : LocalStorage.t)
  (before : list AuditEvent.t)
  (earlier later : list (LocalStorageAdapter.Env * AuditEvent.t))
  (env : LocalStorageAdapter.Env) (event : AuditEvent.t) :
  LocalStorageAdapter.getAllEvents self storage = LocalStorage.Array before ->
  all_accepted earlier ->
  LocalStorageAdapter.write_accepted env = false ->
  let reached := snd (LocalStorageAdapter.save_all self storage earlier) in
  fst (LocalStorageAdapter.save_all self storage earlier) = Ok tt
  /\ LocalStorageAdapter.save self env reached event
     = (Throw (mkError "Failed to save audit event to localStorage"), reached)
  /\ LocalStorageAdapter.save_all self storage
       (earlier ++ (env, event) :: later)
     = (Throw (mkError "Failed to save audit event to localStorage"), reached).
Proof.
  intros Harray Hacc Hw reached.
  assert (Hok : fst (LocalStorageAdapter.save_all self storage earlier)
                = Ok tt).
  { clear reached. revert storage before Harray.
    induction earlier as [| [env0 event0] rest IH];
      intros storage before Harray; [reflexivity |].
    inversion Hacc as [| ? ? Hw0 Hrest]; subst. cbn [fst] in Hw0.
    destruct (save_accepted self env0 storage before event0 Harray Hw0)
      as (st & Hs & Hev).
    cbn [LocalStorageAdapter.save_all]. rewrite Hs.
    now apply IH with (before := retained self
                         (LocalStorageAdapter.newEvent env0 event0
                            :: before)). }
  split; [exact Hok |].
  split; [now apply save_refused |].
  rewrite save_all_app.
  destruct (LocalStorageAdapter.save_all self storage earlier)
    as [[u | e] st] eqn:Hrun; cbn [fst snd] in *; [| discriminate].
  subst reached. cbn [LocalStorageAdapter.save_all snd].
  now rewrite (save_refused self env st event Hw).
Qed.

(** Of E1, E2 saved and a third save refused, E2 and E1 are stored. *)
Lemma local_refused_save_ends_run_witness :
  LocalStorageAdapter.getAllEvents default_adapter
    (snd (LocalStorageAdapter.save_all default_adapter LocalStorage.empty
            ([(at_time 1, sample "E1" None None);
              (at_time 2, sample "E2" None None)]
             ++ (refused_at 3, sample "E3" None None)
                  :: [(at_time 4, sample "E4" None None)])))
  = LocalStorage.Array
      [stored "2-4fzyo82mv" "E2" None 2; stored "1-4fzyo82mv" "E1" None 1].
Proof.
  rewrite (proj2 (proj2
             (local_refused_save_ends_run default_adapter LocalStorage.empty
                []
                [(at_time 1, sample "E1" None None);
                 (at_time 2, sample "E2" None None)]
                [(at_time 4, sample "E4" None None)]
                (refused_at 3) (sample "E3" None None)
                eq_refl ltac:(repeat constructor) eq_refl))).
  reflexivity.
Defined.

(** ** Filtering and sorting, in either order *)

Section SortFilter.

Context {A : Type}.
Variable compareFn : A -> A -> Z.
Variable keep : A -> bool.

Abbreviation below' := (below compareFn).

Hypothesis below_irrefl : forall a, below' a a = false.
Hypothesis below_trans :
  forall a b c, below' a b = true -> below' b c = true -> below' a c = true.
Hypothesis below_cotrans :
  forall a b c, below' a c = true -> below' a b = true \/ below' b c = true.

Lemma insert_dropped (x : A) (l : list A) :
  keep x = false ->
  List.filter keep (insert compareFn x l) = List.filter keep l.
Proof.
  intros Hx. induction l as [| y l IH]; cbn [insert List.filter].
  - now rewrite Hx.
  - destruct (compareFn x y <? 0)%Z; cbn [List.filter].
    + now rewrite Hx.
    + now rewrite IH.
Qed.

Lemma insert_kept (x : A) (l : list A) :
  ordered compareFn l -> keep x = true ->
  List.filter keep (insert compareFn x l)
  = insert compareFn x (List.filter keep l).
Proof.
  unfold ordered. intros Hl Hx.
  induction l as [| y l IH]; cbn [insert List.filter].
  - now rewrite Hx.
  - inversion Hl as [| ? ? Hl' Hy]; subst.
    fold (below' x y). destruct (below' x y) eqn:Hxy.
    + cbn [List.filter]. rewrite Hx.
      assert (Hall : forall z, In z (y :: l) -> below' x z = true).
      { intros z [<- | Hz]; [exact Hxy |].
        rewrite Forall_forall in Hy.
        destruct (below_cotrans x z y Hxy) as [H | H]; [exact H |].
        rewrite (Hy z Hz) in H. discriminate. }
      destruct (List.filter keep (y :: l)) as [| z t] eqn:Hf;
        [cbn [List.filter] in Hf; rewrite Hf; reflexivity |].
      assert (Hz : In z (y :: l)).
      { assert (In z (List.filter keep (y :: l)))
          by (rewrite Hf; now left).
        apply filter_In in H. tauto. }
      cbn [List.filter] in Hf. rewrite Hf. cbn [insert].
      fold (below' x z). now rewrite (Hall z Hz).
    + cbn [List.filter]. destruct (keep y); cbn [insert].
      * fold (below' x y). rewrite Hxy. f_equal. now apply IH.
      * now apply IH.
Qed.

Lemma fold_insert_filter (l acc : list A) :
  ordered compareFn acc ->
  List.filter keep
    (fold_left (fun sorted pivot => insert compareFn pivot sorted) l acc)
  = fold_left (fun sorted pivot => insert compareFn pivot sorted)
      (List.filter keep l) (List.filter keep acc).
Proof.
  revert acc. induction l as [| x l IH]; intros acc Hacc; [reflexivity |].
  cbn [fold_left List.filter].
  rewrite IH by (apply insert_ordered; assumption).
  destruct (keep x) eqn:Hx; cbn [fold_left].
  - now rewrite insert_kept.
  - now rewrite insert_dropped.
Qed.

Lemma sort_filter (l : list A) :
  List.filter keep (JS.sort compareFn l)
  = JS.sort compareFn (List.filter keep l).
Proof. apply (fold_insert_filter l []). constructor. Qed.

End SortFilter.


(** ** Generated ids *)

Lemma string_of_uint_dashless (u : Decimal.uint) :
  dashless (NilEmpty.string_of_uint u) = true.
Proof. induction u; simpl; auto. Qed.

Lemma number_to_string_dashless (n : Z) :
  (0 <= n)%Z -> dashless (number_to_string n) = true.
Proof.
  intros Hn. unfold number_to_string.
  destruct n as [| p | p]; [reflexivity | | lia].
  simpl. unfold NilZero.string_of_uint.
  destruct (Pos.to_uint p); try apply string_of_uint_dashless. reflexivity.
Qed.

Lemma number_to_string_inj (n m : Z) :
  number_to_string n = number_to_string m -> n = m.
Proof.
  unfold number_to_string. intros H.
  assert (Hnil : forall z, Z.to_int z <> Decimal.Pos Decimal.Nil
                           /\ Z.to_int z <> Decimal.Neg Decimal.Nil).
  { intros [| p | p]; simpl; split; try discriminate;
      intros [= E]; now apply (DecimalPos.Unsigned.to_uint_nonnil p). }
  apply DecimalZ.to_int_inj.
  assert (E : Some (Z.to_int n) = Some (Z.to_int m)).
  { rewrite <- (NilZero.isi (Z.to_int n)), <- (NilZero.isi (Z.to_int m));
      try apply Hnil.
    now rewrite H. }
  now injection E.
Qed.

(** Two strings without a dash, each followed by a dash and a rest: if
    the wholes are equal, so are the parts. *)
Lemma dash_split (a b x y : string) :
  dashless a = true -> dashless b = true ->
  (a ++ "-" ++ x)%string = (b ++ "-" ++ y)%string ->
  a = b /\ x = y.
Proof.
  revert b. induction a as [| c a IH]; intros [| d b]; simpl.
  - intros _ _ [= E]. now split.
  - intros _ Hb [= E _]. subst d. discriminate.
  - intros Ha _ [= E _]. subst c. discriminate.
  - intros Ha Hb [= <- E].
    apply andb_true_iff in Ha, Hb.
    destruct (IH b (proj2 Ha) (proj2 Hb) E) as [-> ->]. now split.
Qed.

Lemma substring_length_le (n m : nat) (s : string) :
  (String.length (String.substring n m s) <= m)%nat.
Proof.
  revert n m. induction s as [| c s IH]; intros [| n] [| m]; simpl;
    try lia.
  - specialize (IH 0%nat m). lia.
  - apply (IH n 0%nat).
  - apply (IH n (S m)).
Qed.

(** X13.  Two ids that [generateId] makes at clock readings that are not
    negative are equal only when the clock readings are equal and the
    random suffixes are equal; the suffix has at most nine characters. *)
Theorem generateId_injective (env env' : LocalStorageAdapter.Env) :
  (0 <= LocalStorageAdapter.id_now env)%Z ->
  (0 <= LocalStorageAdapter.id_now env')%Z ->
  (LocalStorageAdapter.generateId env = LocalStorageAdapter.generateId env'
   <-> LocalStorageAdapter.id_now env = LocalStorageAdapter.id_now env'
       /\ substr (LocalStorageAdapter.random36 env) 2 9
          = substr (LocalStorageAdapter.random36 env') 2 9)
  /\ (String.length (substr (LocalStorageAdapter.random36 env) 2 9) <= 9)%nat.
Proof.
  intros Hn Hm. split; [| apply substring_length_le].
  unfold LocalStorageAdapter.generateId. split.
  - intros H. apply dash_split in H;
      try now apply number_to_string_dashless.
    destruct H as [Hd Hs]. split; [now apply number_to_string_inj | exact Hs].
  - intros [-> ->]. reflexivity.
Qed.

(** Ids made at the milliseconds 100 and 101 differ. *)
Lemma generateId_injective_witness :
  LocalStorageAdapter.generateId (at_time 100)
  <> LocalStorageAdapter.generateId (at_time 101).
Proof.
  intros H.
  apply (proj1 (generateId_injective (at_time 100) (at_time 101)
                  ltac:(simpl; lia) ltac:(simpl; lia))) in H.
  destruct H as [H _]. discriminate H.
Defined.

(** ** The remote adapter *)

(** X14.  [ApiAdapter.save] resolves exactly when [fetch] resolves with a
    status from 200 to 299; a rejected [fetch] and any other status both
    come out as the one error of the adapter.  The body it posts is the
    draft with a timestamp, the draft's own unless that is missing or 0;
    the id is the draft's, and none is made up when it is missing. *)
Theorem api_save_resolves_iff
  (self : ApiAdapter.t) (now : Z) (fetch : ApiAdapter.Fetch)
  (event : AuditEvent.t) :
  let request := ApiAdapter.create_request self now event in
  (ApiAdapter.save self now fetch event = Ok tt
   <-> exists response,
         fetch request = Ok response /\ ApiAdapter.ok response = true)
  /\ (ApiAdapter.save self now fetch event <> Ok tt ->
      ApiAdapter.save self now fetch event = Throw api_save_error)
  /\ (exists sent,
         ApiAdapter.body request = Some sent
         /\ AuditEvent.id sent = AuditEvent.id event
         /\ AuditEvent.timestamp sent
            = Some (or_number (AuditEvent.timestamp event) now)
         /\ AuditEvent.with_timestamp sent
              (or_number (AuditEvent.timestamp event) now)
            = AuditEvent.with_timestamp event
                (or_number (AuditEvent.timestamp event) now)).
Proof.
  intros request. split; [| split].
  - unfold ApiAdapter.save, try_catch, bind. fold request.
    destruct (fetch request) as [response | e].
    + destruct (ApiAdapter.ok response) eqn:Hok; simpl.
      * split; [intros _; now exists response | reflexivity].
      * split; [discriminate |].
        intros (r & [= <-] & H). congruence.
    + split; [discriminate | intros (r & H & _); discriminate].
  - intros H. destruct (api_save_outcomes self now fetch event); tauto.
  - eexists. split; [reflexivity |]. repeat split.
Qed.


Lemma in_filter_params (filter : AuditFilter.t) (k v : string) :
  In (k, v) (ApiAdapter.filter_params filter)
  <-> (k = "action"%string /\ AuditFilter.action filter = Some v)
      \/ (k = "entity"%string /\ AuditFilter.entity filter = Some v)
      \/ (k = "entityId"%string /\ AuditFilter.entityId filter = Some v)
      \/ (k = "userId"%string /\ AuditFilter.userId filter = Some v)
      \/ (k = "startDate"%string
          /\ exists n, AuditFilter.startDate filter = Some n
                       /\ v = number_to_string n)
      \/ (k = "endDate"%string
          /\ exists n, AuditFilter.endDate filter = Some n
                       /\ v = number_to_string n)
      \/ (k = "search"%string /\ AuditFilter.search filter = Some v).
Proof.
  unfold ApiAdapter.filter_params. rewrite !in_app_iff.
  assert (Ht : forall key (o : option string),
             In (k, v) (match o with Some s => [(key, s)] | None => [] end)
             <-> k = key /\ o = Some v).
  { intros key [s |]; simpl.
    - split; [intros [[= <- <-] | []]; now split
             | intros [-> [= ->]]; now left].
    - split; [intros [] | intros [_ H]; discriminate]. }
  assert (Hn : forall key (o : option Z),
             In (k, v) (match o with
                        | Some n => [(key, number_to_string n)]
                        | None => []
                        end)
             <-> k = key /\ exists n, o = Some n /\ v = number_to_string n).
  { intros key [n |]; simpl.
    - split.
      + intros [[= <- <-] | []]. split; [reflexivity | now exists n].
      + intros [-> (m & [= <-] & ->)]. now left.
    - split; [intros [] | intros [_ (m & H & _)]; discriminate]. }
  rewrite !Ht, !Hn. tauto.
Qed.

(** X16.  The list request carries one parameter for every member of the
    filter that is given, an empty string and a zero included, and for no
    other member; [page] and [pageSize] only when a pagination is given,
    [sortField] and [sortDirection] only when a sort is given: no default
    is sent in their place. *)
Theorem api_query_params_sent
  (options : option QueryOptions.t) (k v : string) :
  In (k, v) (ApiAdapter.query_params options)
  <-> (exists filter,
          QueryOptions.filter_of options = Some filter
          /\ In (k, v) (ApiAdapter.filter_params filter))
      \/ (exists p,
             QueryOptions.pagination_of options = Some p
             /\ ((k = "page"%string
                  /\ v = number_to_string (PaginationOptions.page p))
                 \/ (k = "pageSize"%string
                     /\ v = number_to_string (PaginationOptions.pageSize p))))
      \/ (exists s,
             QueryOptions.sort_of options = Some s
             /\ ((k = "sortField"%string
                  /\ v = ApiAdapter.key_name (SortOptions.field s))
                 \/ (k = "sortDirection"%string
                     /\ v = ApiAdapter.direction_name
                              (SortOptions.direction s)))).
Proof.
  unfold ApiAdapter.query_params. rewrite !in_app_iff.
  destruct (QueryOptions.filter_of options) as [f |],
    (QueryOptions.pagination_of options) as [p |],
    (QueryOptions.sort_of options) as [s |]; simpl; split;
    intros H;
    repeat match goal with
      | H : _ \/ _ |- _ => destruct H as [H | H]
      | H : exists _, _ |- _ => destruct H as (? & H)
      | H : _ /\ _ |- _ => destruct H
      | H : Some _ = Some _ |- _ => injection H as H; subst
      | H : (_, _) = (_, _) |- _ => injection H as H; subst
      | H : None = Some _ |- _ => discriminate H
      | H : False |- _ => destruct H
      end; subst; eauto 10.
Qed.

(** ** The Firestore adapter *)

(** X17.  The search term never reaches Firestore: whatever term is put
    into a filter, [FirebaseAdapter.query] sends the query it sends for
    the filter as it was, and gets the same answer. *)
Theorem firebase_query_ignores_search
  (env : FirebaseAdapter.Env) (filter : AuditFilter.t) (term : string)
  (pagination : option PaginationOptions.t) (sort : option SortOptions.t) :
  FirebaseAdapter.constraints
    (filter_options (searching filter term) pagination sort)
  = FirebaseAdapter.constraints (filter_options filter pagination sort)
  /\ FirebaseAdapter.query env
       (filter_options (searching filter term) pagination sort)
     = FirebaseAdapter.query env (filter_options filter pagination sort).
Proof. split; reflexivity. Qed.

Lemma firebase_query_shape
  (env : FirebaseAdapter.Env) (options : option QueryOptions.t)
  (r : PaginatedResult.t) :
  FirebaseAdapter.query env options = Ok r
   <-> exists u docs,
         FirebaseAdapter.initialize env = Ok u
         /\ FirebaseAdapter.getDocs env (FirebaseAdapter.constraints options)
            = Ok docs
         /\ r = {| PaginatedResult.data := map FirebaseAdapter.event_of docs;
                   PaginatedResult.total := Z.of_nat (List.length docs);
                   PaginatedResult.page := page_of options;
                   PaginatedResult.pageSize := pageSize_of options;
                   PaginatedResult.totalPages :=
                     ceil_div (Z.of_nat (List.length docs))
                       (pageSize_of options) |}.
Proof.
  unfold FirebaseAdapter.query, try_catch, bind.
    destruct (FirebaseAdapter.initialize env) as [u | e0].
    - destruct (FirebaseAdapter.getDocs env _) as [docs | e1] eqn:Hg.
      + rewrite length_map. split.
        * intros [= <-]. now exists u, docs.
        * intros (u' & docs' & _ & [= <-] & ->). reflexivity.
      + split; [discriminate |].
        intros (u' & docs' & _ & H & _). discriminate.
    - split; [discriminate |].
      intros (u' & docs' & H & _). discriminate.
Qed.

(** X18.  [FirebaseAdapter.query] resolves exactly when the lazy
    initialisation and [getDocs] both succeed, and throws its one error
    otherwise.  What it resolves with has one event for each document of
    the snapshot, in that order, each under the id of its document; its
    [total] is the number of these events, not of the matching
    documents. *)
Theorem firebase_query_resolves_iff
  (env : FirebaseAdapter.Env) (options : option QueryOptions.t)
  (r : PaginatedResult.t) :
  (FirebaseAdapter.query env options = Ok r
   <-> exists u docs,
         FirebaseAdapter.initialize env = Ok u
         /\ FirebaseAdapter.getDocs env (FirebaseAdapter.constraints options)
            = Ok docs
         /\ r = {| PaginatedResult.data := map FirebaseAdapter.event_of docs;
                   PaginatedResult.total := Z.of_nat (List.length docs);
                   PaginatedResult.page := page_of options;
                   PaginatedResult.pageSize := pageSize_of options;
                   PaginatedResult.totalPages :=
                     ceil_div (Z.of_nat (List.length docs))
                       (pageSize_of options) |})
  /\ (forall e, FirebaseAdapter.query env options = Throw e ->
                e = firebase_query_error)
  /\ (FirebaseAdapter.query env options = Ok r ->
      PaginatedResult.total r
      = Z.of_nat (List.length (PaginatedResult.data r))
      /\ Forall (fun ev => AuditEvent.id ev <> None) (PaginatedResult.data r)).
Proof.
  assert (Hiff := firebase_query_shape env options r).
  split; [exact Hiff |]. split.
  - unfold FirebaseAdapter.query, try_catch, bind.
    destruct (FirebaseAdapter.initialize env) as [u | e0];
      [destruct (FirebaseAdapter.getDocs env _) as [docs | e1] |];
      intros e He; try discriminate; now injection He as <-.
  - intros Hr. apply Hiff in Hr. destruct Hr as (u & docs & _ & _ & ->).
    cbn [PaginatedResult.total PaginatedResult.data].
    split; [now rewrite length_map |].
    apply Forall_forall. intros ev Hev. apply in_map_iff in Hev.
    destruct Hev as (d & <- & _). discriminate.
Qed.

Lemma firestore_getDocs_snoc (collection : list Firestore.document)
  (q : list Firestore.constraint) (c : Firestore.constraint) :
  Firestore.getDocs collection (q ++ [c])
  = bind (Firestore.getDocs collection q)
      (fun docs => Firestore.apply docs c).
Proof. unfold Firestore.getDocs. now rewrite fold_left_app. Qed.

Lemma firestore_limit_bound (collection : list Firestore.document)
  (q : list Firestore.constraint) (n : Z) (docs : list Firestore.document) :
  Firestore.getDocs collection (q ++ [Firestore.limit n]) = Ok docs ->
  (1 <= n)%Z /\ (Z.of_nat (List.length docs) <= n)%Z.
Proof.
  rewrite firestore_getDocs_snoc. unfold bind.
  destruct (Firestore.getDocs collection q) as [found |]; [| discriminate].
  cbn [Firestore.apply]. destruct (Z.leb_spec n 0); [discriminate |].
  intros [= <-]. rewrite length_firstn. lia.
Qed.

Lemma firebase_constraints_end (options : option QueryOptions.t) :
  exists q,
    FirebaseAdapter.constraints options
    = q ++ [Firestore.limit (pageSize_of options)].
Proof.
  unfold FirebaseAdapter.constraints. eexists.
  rewrite app_assoc. reflexivity.
Qed.

Lemma firebase_query_bounds
  (collection : list Firestore.document) (options : option QueryOptions.t)
  (r : PaginatedResult.t) :
  FirebaseAdapter.query (firestore_of collection) options = Ok r ->
  (1 <= PaginatedResult.pageSize r)%Z
  /\ (Z.of_nat (List.length (PaginatedResult.data r))
      <= PaginatedResult.pageSize r)%Z
  /\ (PaginatedResult.data r = [] -> PaginatedResult.totalPages r = 0%Z)
  /\ (PaginatedResult.data r <> [] -> PaginatedResult.totalPages r = 1%Z).
Proof.
  intros Hr.
  assert (Hshape : exists docs,
             Firestore.getDocs collection (FirebaseAdapter.constraints options)
             = Ok docs
             /\ r = {| PaginatedResult.data :=
                         map FirebaseAdapter.event_of docs;
                       PaginatedResult.total := Z.of_nat (List.length docs);
                       PaginatedResult.page := page_of options;
                       PaginatedResult.pageSize := pageSize_of options;
                       PaginatedResult.totalPages :=
                         ceil_div (Z.of_nat (List.length docs))
                           (pageSize_of options) |}).
  { unfold FirebaseAdapter.query, try_catch, bind in Hr.
    cbn [firestore_of FirebaseAdapter.initialize FirebaseAdapter.getDocs]
      in Hr.
    destruct (Firestore.getDocs collection _) as [docs |] eqn:Hg;
      [| discriminate].
    injection Hr as <-. exists docs. split; [reflexivity |].
    now rewrite length_map. }
  destruct Hshape as (docs & Hg & ->).
  destruct (firebase_constraints_end options) as (q & Hq).
  rewrite Hq in Hg. apply firestore_limit_bound in Hg.
  destruct Hg as [Hs Hl].
  cbn [PaginatedResult.pageSize PaginatedResult.data
       PaginatedResult.totalPages].
  rewrite length_map.
  destruct (ceil_div_bounds (Z.of_nat (List.length docs))
              (pageSize_of options) ltac:(lia) Hs) as (H0 & H1 & H2).
  repeat split; try assumption.
  - intros Hnil. destruct docs; [| discriminate]. reflexivity.
  - intros Hne. destruct docs as [| d docs]; [now elim Hne |].
    simpl List.length in *. nia.
Qed.

(** X19.  Against a Firestore collection, what [FirebaseAdapter.query]
    resolves with holds at most [pageSize] events, and since its [total]
    is their number, its [totalPages] is 1 when there is an event and 0
    when there is none: it never reports a second page, however many
    documents match. *)
Theorem firebase_reports_one_page
  (collection : list Firestore.document) (options : option QueryOptions.t)
  (r : PaginatedResult.t) :
  FirebaseAdapter.query (firestore_of collection) options = Ok r ->
  (1 <= PaginatedResult.pageSize r)%Z
  /\ (Z.of_nat (List.length (PaginatedResult.data r))
      <= PaginatedResult.pageSize r)%Z
  /\ (PaginatedResult.data r = [] -> PaginatedResult.totalPages r = 0%Z)
  /\ (PaginatedResult.data r <> [] -> PaginatedResult.totalPages r = 1%Z).
Proof. apply firebase_query_bounds. Qed.

(** A collection of two documents, asked for pages of one: one page. *)
Lemma firebase_reports_one_page_witness :
  exists r,
    FirebaseAdapter.query (firestore_of [doc_created; doc_login])
      (only_page 1 1) = Ok r
    /\ PaginatedResult.totalPages r = 1%Z.
Proof.
  eexists. split; [reflexivity |].
  apply (firebase_reports_one_page [doc_created; doc_login] (only_page 1 1)
           _ eq_refl).
  discriminate.
Defined.

Lemma firestore_orderBy_keeps (collection : list Firestore.document)
  (field : AuditEvent.key) (dir : Direction) (d : Firestore.document) :
  In d collection -> Firestore.has_field field d = true ->
  In d (JS.sort (Firestore.order field dir)
          (List.filter (Firestore.has_field field) collection)).
Proof.
  intros Hin Hf. apply sort_In. apply filter_In. now split.
Qed.

(** X20.  A save on a Firestore collection that takes the write adds one
    document holding the event, with the id and the timestamp of the
    draft or generated ones.  A listing that is large enough then returns
    the event with all its attributes but under the id of the document:
    the id that was saved is returned by no query. *)
Theorem firebase_save_then_query
  (collection : list Firestore.document) (w : FirebaseAdapter.WriteEnv)
  (event : AuditEvent.t) (doc : string) (pageSize : Z) :
  FirebaseAdapter.added w = Ok doc ->
  (Z.of_nat (List.length collection) < pageSize)%Z ->
  let written := FirebaseAdapter.eventData w event in
  let collection' := (collection ++ [Firestore.mkDocument doc written])%list in
  FirebaseAdapter.save (firestore_of collection) w collection event
  = (Ok tt, collection')
  /\ exists r returned,
      FirebaseAdapter.query (firestore_of collection') (only_page 1 pageSize)
      = Ok r
      /\ In returned (PaginatedResult.data r)
      /\ AuditEvent.id returned = Some doc
      /\ AuditEvent.timestamp returned = AuditEvent.timestamp written
      /\ AuditEvent.with_id_timestamp returned
           (or_string (AuditEvent.id event) (FirebaseAdapter.generateId w))
           (or_number (AuditEvent.timestamp event)
              (FirebaseAdapter.timestamp_now w))
         = written.
Proof.
  intros Hadd Hsize written collection'. split.
  - unfold FirebaseAdapter.save, try_catch, bind. cbn [firestore_of
      FirebaseAdapter.initialize]. now rewrite Hadd.
  - set (d := Firestore.mkDocument doc written).
    assert (Hps : pageSize_of (only_page 1 pageSize) = pageSize).
    { unfold pageSize_of. simpl.
      destruct (Z.eqb_spec pageSize 0); [lia | reflexivity]. }
    assert (Hq : FirebaseAdapter.constraints (only_page 1 pageSize)
                 = [Firestore.orderBy AuditEvent.k_timestamp desc;
                    Firestore.limit pageSize]).
    { unfold FirebaseAdapter.constraints. fold (pageSize_of (only_page 1 pageSize)).
      now rewrite Hps. }
    set (found := JS.sort (Firestore.order AuditEvent.k_timestamp desc)
                    (List.filter (Firestore.has_field AuditEvent.k_timestamp)
                       collection')).
    assert (Hg : Firestore.getDocs collection'
                   (FirebaseAdapter.constraints (only_page 1 pageSize))
                 = Ok found).
    { rewrite Hq. unfold Firestore.getDocs. cbn [fold_left bind Firestore.apply].
      fold found. destruct (Z.leb_spec pageSize 0); [lia |].
      f_equal. apply firstn_all2. unfold found.
      rewrite sort_length.
      pose proof (filter_length_le
                    (Firestore.has_field AuditEvent.k_timestamp) collection').
      unfold collection' in *. rewrite length_app in *. simpl in *. lia. }
    eexists. exists (FirebaseAdapter.event_of d).
    split.
    + apply (proj2 (firebase_query_shape _ _ _)).
      exists tt, found. repeat split. exact Hg.
    + cbn [PaginatedResult.data]. split; [| repeat split].
      apply in_map. unfold found. apply firestore_orderBy_keeps.
      * unfold collection'. apply in_or_app. right. now left.
      * reflexivity.
Qed.

(** Saving the draft with its own id on a collection of two: the event
    comes back under the id "c3" of its document. *)
Lemma firebase_save_then_query_witness :
  exists r returned,
    FirebaseAdapter.query
      (firestore_of
         ([doc_created; doc_login]
          ++ [Firestore.mkDocument "c3"
                (FirebaseAdapter.eventData (writing_at 100 "c3") own_draft)]))
      (only_page 1 10) = Ok r
    /\ In returned (PaginatedResult.data r)
    /\ AuditEvent.id returned = Some "c3"%string.
Proof.
  destruct (firebase_save_then_query [doc_created; doc_login]
              (writing_at 100 "c3") own_draft "c3" 10 eq_refl
              ltac:(simpl; lia))
    as (_ & r & returned & Hq & Hin & Hid & _).
  exists r, returned. repeat split; assumption.
Defined.

(** X21.  [FirebaseAdapter.save] resolves exactly when the initialisation
    and [addDoc] both succeed.  When one of them fails, the collection is
    as it was and the error thrown carries the message of the failure
    after "Failed to save audit event to Firebase: ". *)
Theorem firebase_save_resolves_iff
  (env : FirebaseAdapter.Env) (w : FirebaseAdapter.WriteEnv)
  (collection : list Firestore.document) (event : AuditEvent.t) :
  (fst (FirebaseAdapter.save env w collection event) = Ok tt
   <-> exists u doc,
         FirebaseAdapter.initialize env = Ok u
         /\ FirebaseAdapter.added w = Ok doc)
  /\ (forall e,
         fst (FirebaseAdapter.save env w collection event) = Throw e ->
         snd (FirebaseAdapter.save env w collection event) = collection
         /\ exists cause,
             (FirebaseAdapter.initialize env = Throw cause
              \/ (FirebaseAdapter.initialize env <> Throw cause
                  /\ FirebaseAdapter.added w = Throw cause))
             /\ message e
                = ("Failed to save audit event to Firebase: "
                   ++ message cause)%string).
Proof.
  unfold FirebaseAdapter.save, try_catch, bind, Firestore.addDoc.
  destruct (FirebaseAdapter.initialize env) as [u | e0].
  - destruct (FirebaseAdapter.added w) as [doc | e1]; cbn [fst snd].
    + split; [| discriminate].
      split; [intros _; now exists u, doc | reflexivity].
    + split.
      * split; [discriminate | intros (u' & doc & _ & H); discriminate].
      * intros e [= <-]. split; [reflexivity |].
        exists e1. split; [right; split; [discriminate | reflexivity] |].
        reflexivity.
  - cbn [fst snd]. split.
    + split; [discriminate | intros (u' & doc & H & _); discriminate].
    + intros e [= <-]. split; [reflexivity |].
      exists e0. split; [now left | reflexivity].
Qed.

Lemma firestore_delete_fold (refused : string -> bool) (ids : list string)
  (collection : list Firestore.document) :
  fold_left
    (fun c id => if refused id then c else Firestore.deleteDoc id c)
    ids collection
  = List.filter
      (fun d =>
         refused (Firestore.doc_id d)
         || negb (existsb (String.eqb (Firestore.doc_id d)) ids))
      collection.
Proof.
  revert collection. induction ids as [| id ids IH]; intros collection.
  - cbn [fold_left existsb negb]. symmetry.
    rewrite <- (filter_ext (fun _ => true)).
    + induction collection as [| d l IHl]; [reflexivity |].
      cbn [List.filter]. now rewrite IHl.
    + intros d. now rewrite orb_true_r.
  - cbn [fold_left existsb]. rewrite IH.
    destruct (refused id) eqn:Hid.
    + apply filter_ext_in. intros d _.
      destruct (String.eqb_spec (Firestore.doc_id d) id) as [-> | Hne];
        [now rewrite Hid | reflexivity].
    + unfold Firestore.deleteDoc.
      induction collection as [| d l IHl]; [reflexivity |].
      cbn [List.filter].
      destruct (String.eqb_spec (Firestore.doc_id d) id) as [E | Hne];
        cbn [negb orb].
      * rewrite E, Hid. cbn [orb negb]. exact IHl.
      * cbn [List.filter]. rewrite IHl. reflexivity.
Qed.

Lemma filter_none {A} (p : A -> bool) (l : list A) :
  (forall x, In x l -> p x = false) -> List.filter p l = [].
Proof.
  induction l as [| x l IH]; intros H; [reflexivity |].
  cbn [List.filter]. rewrite (H x (or_introl eq_refl)).
  apply IH. intros y Hy. apply H. now right.
Qed.

(** X22.  [FirebaseAdapter.clear], on a snapshot that is the collection,
    starts one [deleteDoc] for every document: afterwards the collection
    holds exactly the documents whose delete was rejected.  It resolves
    exactly when none was rejected, and then the collection is empty;
    when one was, it throws its one error, and the other documents are
    gone all the same. *)
Theorem firebase_clear_deletes
  (env : FirebaseAdapter.Env) (refused : string -> bool)
  (collection : list Firestore.document) :
  (exists u, FirebaseAdapter.initialize env = Ok u) ->
  FirebaseAdapter.getDocs env [] = Ok collection ->
  let outcome := FirebaseAdapter.clear env refused collection in
  snd outcome
  = List.filter (fun d => refused (Firestore.doc_id d)) collection
  /\ (fst outcome = Ok tt
      <-> forall d, In d collection -> refused (Firestore.doc_id d) = false)
  /\ (fst outcome = Ok tt -> snd outcome = [])
  /\ (fst outcome <> Ok tt -> fst outcome = Throw firebase_clear_error).
Proof.
  intros (u & Hi) Hg outcome.
  assert (Hsnd : snd outcome
                 = List.filter (fun d => refused (Firestore.doc_id d))
                     collection).
  { unfold outcome, FirebaseAdapter.clear, bind. rewrite Hi, Hg.
    destruct (existsb refused (map Firestore.doc_id collection)); cbn [snd];
      rewrite firestore_delete_fold; apply filter_ext_in; intros d Hd;
      assert (Hex : existsb (String.eqb (Firestore.doc_id d))
                      (map Firestore.doc_id collection) = true)
        by (apply existsb_exists; exists (Firestore.doc_id d);
            split; [now apply in_map | apply String.eqb_refl]);
      rewrite Hex; apply orb_false_r. }
  assert (Hfst : fst outcome = Ok tt
                 <-> forall d, In d collection ->
                               refused (Firestore.doc_id d) = false).
  { unfold outcome, FirebaseAdapter.clear, bind. rewrite Hi, Hg.
    destruct (existsb refused (map Firestore.doc_id collection)) eqn:Hex;
      cbn [fst].
    - split; [discriminate |]. intros Hall.
      apply existsb_exists in Hex. destruct Hex as (id & Hin & Hr).
      apply in_map_iff in Hin. destruct Hin as (d & <- & Hd).
      rewrite (Hall d Hd) in Hr. discriminate.
    - split; [| reflexivity]. intros _ d Hd.
      destruct (refused (Firestore.doc_id d)) eqn:Hr; [| reflexivity].
      rewrite <- Hex. symmetry. apply existsb_exists.
      exists (Firestore.doc_id d). split; [now apply in_map | exact Hr]. }
  split; [exact Hsnd |]. split; [exact Hfst |]. split.
  - intros Hok. rewrite Hsnd. rewrite Hfst in Hok.
    now apply filter_none.
  - unfold outcome, FirebaseAdapter.clear, bind. rewrite Hi, Hg.
    destruct (existsb refused (map Firestore.doc_id collection)); cbn [fst];
      [reflexivity | intros H; now elim H].
Qed.

(** With no delete rejected, a collection of two is emptied. *)
Lemma firebase_clear_deletes_witness :
  fst (FirebaseAdapter.clear (firestore_of [doc_created; doc_login])
         (fun _ => false) [doc_created; doc_login]) = Ok tt
  /\ snd (FirebaseAdapter.clear (firestore_of [doc_created; doc_login])
            (fun _ => false) [doc_created; doc_login]) = [].
Proof.
  destruct (firebase_clear_deletes
              (firestore_of [doc_created; doc_login]) (fun _ => false)
              [doc_created; doc_login]
              (ex_intro _ tt eq_refl) eq_refl) as (_ & Hfst & Hempty & _).
  assert (Hok : fst (FirebaseAdapter.clear
                       (firestore_of [doc_created; doc_login])
                       (fun _ => false) [doc_created; doc_login]) = Ok tt)
    by (apply Hfst; reflexivity).
  split; [exact Hok | exact (Hempty Hok)].
Defined.

(** ** The coordinator over several calls *)

(** X23.  After any sequence of awaited [track] and [query] calls the
    coordinator is not loading and its error is the failure of the last
    call, or none when the last call succeeded: a success wipes an
    earlier failure, and no earlier outcome is remembered.  A call hands
    on what the adapter resolved with, or the error it threw, as it
    is. *)
Theorem provider_state_is_last_call
  (calls : list provider_call) (last : provider_call)
  (st : AuditProvider.State) :
  after_calls (calls ++ [last]) st
  = {| AuditProvider.loading := false;
       AuditProvider.error := failure_of last |}
  /\ (forall outcome, fst (AuditProvider.track outcome st) = outcome)
  /\ (forall outcome, fst (AuditProvider.query outcome st) = outcome)
  /\ AuditProvider.clearError (after_calls (calls ++ [last]) st)
     = {| AuditProvider.loading := false; AuditProvider.error := None |}.
Proof.
  assert (H : after_calls (calls ++ [last]) st
              = {| AuditProvider.loading := false;
                   AuditProvider.error := failure_of last |}).
  { unfold after_calls. rewrite fold_left_app. cbn [fold_left].
    destruct last as [[u | e] | [r | e]]; reflexivity. }
  split; [exact H |]. split; [| split].
  - intros [[] | e]; reflexivity.
  - intros [r | e]; reflexivity.
  - now rewrite H.
Qed.

(** ** The table *)

Lemma key_name_inj (a b : AuditEvent.key) :
  ApiAdapter.key_name a = ApiAdapter.key_name b -> a = b.
Proof. destruct a, b; simpl; intros H; try reflexivity; discriminate. Qed.

Lemma same_field_iff (a b : AuditEvent.key) :
  AuditTable.same_field a b = true <-> a = b.
Proof.
  unfold AuditTable.same_field. rewrite String.eqb_eq. split.
  - apply key_name_inj.
  - now intros ->.
Qed.

Lemma table_step_page (st : AuditTable.State) (e : table_event) :
  (1 <= AuditTable.currentPage st)%Z ->
  (1 <= AuditTable.currentPage (table_step st e))%Z.
Proof.
  intros H. destruct e as [[r | err] | b | f | v | c |]; simpl;
    try lia; try exact H.
  destruct b; simpl; unfold AuditTable.handlePageChange;
    match goal with
    | |- context [((?p >=? 1)%Z && _)%bool] =>
        destruct (Z.geb_spec p 1); simpl; [| exact H]
    end;
    match goal with
    | |- context [(?p <=? ?t)%Z] => destruct (p <=? t)%Z
    end; simpl; lia.
Qed.

(** X24.  Whatever happens to the table, in whatever order, and whatever
    the fetches come back with, its current page is at least 1, so the
    options it hands to [query] never carry a page of 0 or less. *)
Theorem table_page_at_least_one
  (events : list table_event) (pageSize : Z) :
  (1 <= AuditTable.currentPage (table_run events))%Z
  /\ (forall p,
         QueryOptions.pagination
           (AuditTable.options pageSize (table_run events)) = Some p ->
         (1 <= PaginationOptions.page p)%Z).
Proof.
  assert (H : (1 <= AuditTable.currentPage (table_run events))%Z).
  { unfold table_run.
    assert (G : forall st, (1 <= AuditTable.currentPage st)%Z ->
                           (1 <= AuditTable.currentPage
                                   (fold_left table_step events st))%Z).
    { induction events as [| e l IH]; intros st Hst; [exact Hst |].
      cbn [fold_left]. now apply IH, table_step_page. }
    apply G. simpl. lia. }
  split; [exact H |]. intros p [= <-]. exact H.
Qed.

(** X25.  A click on a column head sorts by that column and returns to
    page 1.  On a column other than the one sorted by, the direction is
    ascending; on the column sorted by, it is the other direction than
    before, so that two clicks in a row on one column give the two
    directions. *)
Theorem table_sort_toggles
  (field : AuditEvent.key) (st : AuditTable.State) :
  let st1 := AuditTable.handleSort field st in
  let st2 := AuditTable.handleSort field st1 in
  SortOptions.field (AuditTable.sort st1) = field
  /\ AuditTable.currentPage st1 = 1%Z
  /\ (SortOptions.field (AuditTable.sort st) <> field ->
      SortOptions.direction (AuditTable.sort st1) = asc)
  /\ (SortOptions.field (AuditTable.sort st) = field ->
      SortOptions.direction (AuditTable.sort st1)
      = opposite (SortOptions.direction (AuditTable.sort st)))
  /\ SortOptions.direction (AuditTable.sort st2)
     = opposite (SortOptions.direction (AuditTable.sort st1))
  /\ AuditTable.filter st1 = AuditTable.filter st
  /\ AuditTable.searchTerm st1 = AuditTable.searchTerm st.
Proof.
  intros st1 st2.
  assert (Hrefl : AuditTable.same_field field field = true)
    by now apply same_field_iff.
  unfold st2, st1, AuditTable.handleSort. simpl.
  rewrite Hrefl. cbn [andb].
  set (prev := SortOptions.field (AuditTable.sort st)).
  repeat split.
  - intros Hne.
    destruct (AuditTable.same_field prev field) eqn:E; [| reflexivity].
    apply same_field_iff in E. contradiction.
  - intros He. rewrite He, Hrefl.
    now destruct (SortOptions.direction (AuditTable.sort st)).
  - destruct (AuditTable.same_field prev field);
      now destruct (SortOptions.direction (AuditTable.sort st)).
Qed.

(** X26.  On the local adapter reading an array of events, for a page
    size and a current page of at least 1, the line "Showing ... to ... of ... entries" agrees with the
    rows once the fetch is back: when there are rows, they are as many as
    the line says, the first number is the place of the first row in the
    listing and the second does not pass the total; when there are none,
    the first number is 0. *)
Theorem table_showing_matches_rows
  (self : LocalStorageAdapter.t) (storage : LocalStorage.t)
  (held : list AuditEvent.t)
  (pageSize : Z) (st : AuditTable.State) :
  LocalStorageAdapter.getAllEvents self storage = LocalStorage.Array held ->
  (1 <= pageSize)%Z -> (1 <= AuditTable.currentPage st)%Z ->
  let st' :=
    AuditTable.fetchEvents
      (LocalStorageAdapter.query self storage
         (Some (AuditTable.options pageSize st))) st in
  (AuditTable.events st' <> [] ->
   AuditTable.showing_from pageSize st'
   = ((AuditTable.currentPage st - 1) * pageSize + 1)%Z
   /\ (AuditTable.showing_to pageSize st'
       - AuditTable.showing_from pageSize st' + 1)%Z
      = Z.of_nat (List.length (AuditTable.events st'))
   /\ (AuditTable.showing_to pageSize st' <= AuditTable.total st')%Z)
  /\ (AuditTable.events st' = [] ->
      AuditTable.showing_from pageSize st' = 0%Z).
Proof.
  intros Harray Hs Hp st'.
  assert (Hq : LocalStorageAdapter.query self storage
                 (Some (AuditTable.options pageSize st))
               = LocalStorageAdapter.query self storage
                   (page_options
                      (QueryOptions.filter (AuditTable.options pageSize st))
                      (Some (AuditTable.sort st))
                      (AuditTable.currentPage st) pageSize))
    by reflexivity.
  unfold st'. rewrite Hq, (query_page _ _ _ _ _ _ _ Harray) by assumption.
  cbn [AuditTable.fetchEvents AuditTable.events AuditTable.total
       AuditTable.currentPage PaginatedResult.data PaginatedResult.total].
  set (set := sorted _ (Some (AuditTable.sort st))).
  unfold AuditTable.showing_from, AuditTable.showing_to.
  cbn [AuditTable.events AuditTable.total AuditTable.currentPage].
  assert (Hlen : Z.of_nat (List.length
                             (nth_page set (AuditTable.currentPage st)
                                pageSize))
                 = Z.max 0 (Z.min pageSize
                              (Z.of_nat (List.length set)
                               - (AuditTable.currentPage st - 1) * pageSize))).
  { unfold nth_page. rewrite length_firstn, length_skipn. nia. }
  split.
  - intros Hne.
    assert (Hpos : (0 < Z.of_nat
                          (List.length
                             (nth_page set (AuditTable.currentPage st)
                                pageSize)))%Z).
    { destruct (nth_page set (AuditTable.currentPage st) pageSize);
        [congruence | simpl; lia]. }
    destruct (Z.gtb_spec
                (Z.of_nat (List.length
                             (nth_page set (AuditTable.currentPage st)
                                pageSize))) 0); [| lia].
    repeat split; nia.
  - intros ->. reflexivity.
Qed.

(** The first fetch of a table of page size 1 on the sample store: one
    row, "Showing 1 to 1 of 2". *)
Lemma table_showing_matches_rows_witness :
  let st' :=
    AuditTable.fetchEvents
      (LocalStorageAdapter.query default_adapter (holding two_events)
         (Some (AuditTable.options 1 AuditTable.initial)))
      AuditTable.initial in
  AuditTable.showing_from 1 st' = 1%Z
  /\ AuditTable.showing_to 1 st' = 1%Z
  /\ AuditTable.total st' = 2%Z.
Proof.
  intros st'.
  destruct (table_showing_matches_rows default_adapter (holding two_events)
              two_events 1 AuditTable.initial
              eq_refl ltac:(lia) ltac:(simpl; lia))
    as (Hrows & _).
  destruct (Hrows ltac:(discriminate)) as (Hfrom & _ & _).
  split; [exact Hfrom | split; reflexivity].
Defined.

Lemma table_step_firestore (st : AuditTable.State) (e : table_event) :
  from_firestore e ->
  AuditTable.currentPage st = 1%Z ->
  (AuditTable.totalPages st <= 1)%Z ->
  AuditTable.currentPage (table_step st e) = 1%Z
  /\ (AuditTable.totalPages (table_step st e) <= 1)%Z.
Proof.
  intros Hf Hp Ht.
  destruct e as [[r | err] | b | f | v | c |]; simpl;
    try (split; [reflexivity || exact Hp | exact Ht]).
  - split; [exact Hp |].
    destruct Hf as (collection & options & Hr). symmetry in Hr.
    apply firebase_query_bounds in Hr.
    destruct Hr as (_ & _ & Hnil & Hne).
    destruct (PaginatedResult.data r) as [| x l].
    + rewrite Hnil by reflexivity. lia.
    + rewrite Hne by discriminate. lia.
  - assert (G : forall page,
               AuditTable.currentPage (AuditTable.handlePageChange page st)
               = 1%Z
               /\ (AuditTable.totalPages
                     (AuditTable.handlePageChange page st) <= 1)%Z).
    { intros page. unfold AuditTable.handlePageChange.
      destruct (Z.geb_spec page 1); destruct (Z.leb_spec page
                                                (AuditTable.totalPages st));
        cbn [andb AuditTable.setCurrentPage AuditTable.currentPage
             AuditTable.totalPages];
        split; solve [assumption | lia]. }
    destruct b; apply G.
Qed.

(** X27.  A table whose fetches all come back from the Firestore adapter
    never leaves page 1: the adapter never reports more than one page, so
    "Next" and "Last" are disabled after every event, and a click on
    them changes nothing. *)
Theorem table_on_firestore_stays_on_page_one (events : list table_event) :
  Forall from_firestore events ->
  AuditTable.currentPage (table_run events) = 1%Z
  /\ (AuditTable.totalPages (table_run events) <= 1)%Z
  /\ AuditTable.disabled AuditTable.Next (table_run events) = true
  /\ AuditTable.disabled AuditTable.Last (table_run events) = true
  /\ AuditTable.onClick AuditTable.Next (table_run events)
     = table_run events
  /\ AuditTable.onClick AuditTable.Last (table_run events)
     = table_run events.
Proof.
  intros Hall.
  assert (G : forall st,
             AuditTable.currentPage st = 1%Z ->
             (AuditTable.totalPages st <= 1)%Z ->
             AuditTable.currentPage (fold_left table_step events st) = 1%Z
             /\ (AuditTable.totalPages (fold_left table_step events st)
                 <= 1)%Z).
  { induction Hall as [| e l He Hl IH]; intros st Hp Ht; [now split |].
    cbn [fold_left].
    destruct (table_step_firestore st e He Hp Ht) as [Hp' Ht'].
    now apply IH. }
  destruct (G AuditTable.initial eq_refl ltac:(simpl; lia)) as [Hp Ht].
  fold (table_run events) in Hp, Ht.
  split; [exact Hp |]. split; [exact Ht |].
  unfold AuditTable.disabled, AuditTable.onClick, AuditTable.handlePageChange.
  rewrite Hp.
  assert (Hge : (1 >=? AuditTable.totalPages (table_run events))%Z = true).
  { destruct (Z.geb_spec 1 (AuditTable.totalPages (table_run events)));
      [reflexivity | lia]. }
  split; [exact Hge |]. split; [exact Hge |].
  split.
  - destruct (Z.leb_spec (1 + 1) (AuditTable.totalPages (table_run events)));
      [lia |].
    cbn [andb]. now rewrite andb_false_r.
  - destruct (table_run events) as [evs cur pages tot f s q].
    cbn [AuditTable.currentPage AuditTable.totalPages] in *.
    destruct (Z.geb_spec pages 1); destruct (Z.leb_spec pages pages);
      cbn [andb]; try reflexivity.
    unfold AuditTable.setCurrentPage.
    cbn [AuditTable.events AuditTable.totalPages AuditTable.total
         AuditTable.filter AuditTable.sort AuditTable.searchTerm].
    f_equal. lia.
Qed.

(** A table on a Firestore collection of two documents and pages of
    one: after the first fetch and a click on "Next" it is on page 1. *)
Lemma table_on_firestore_stays_on_page_one_witness :
  AuditTable.currentPage
    (table_run
       [fetched (FirebaseAdapter.query
                   (firestore_of [doc_created; doc_login])
                   (Some (AuditTable.options 1 AuditTable.initial)));
        clicked AuditTable.Next])
  = 1%Z.
Proof.
  apply (table_on_firestore_stays_on_page_one
           [fetched (FirebaseAdapter.query
                       (firestore_of [doc_created; doc_login])
                       (Some (AuditTable.options 1 AuditTable.initial)));
            clicked AuditTable.Next]).
  repeat constructor.
  exists [doc_created; doc_login],
    (Some (AuditTable.options 1 AuditTable.initial)).
  reflexivity.
Defined.

Lemma or_undefined_string_truthy (value : string) :
  missing_or_truthy_string (AuditTable.or_undefined_string value).
Proof.
  unfold missing_or_truthy_string, AuditTable.or_undefined_string.
  destruct (value =? "")%string eqn:E; [now left | right].
  simpl. now rewrite E.
Qed.

Lemma or_undefined_number_truthy (value : Z) :
  missing_or_truthy_number (AuditTable.or_undefined_number value).
Proof.
  unfold missing_or_truthy_number, AuditTable.or_undefined_number.
  destruct (value =? 0)%Z eqn:E; [now left | right].
  simpl. now rewrite E.
Qed.

Lemma table_step_filter (st : AuditTable.State) (e : table_event) :
  no_falsy_member (AuditTable.filter st) ->
  no_falsy_member (AuditTable.filter (table_step st e)).
Proof.
  intros H. destruct e as [[r | err] | b | f | v | c |]; simpl;
    try exact H.
  - destruct b; simpl; unfold AuditTable.handlePageChange;
      match goal with
      | |- context [if ?c then _ else _] => destruct c
      end; exact H.
  - destruct H as (H1 & H2 & H3 & H4 & H5 & H6 & H7).
    destruct c; simpl; repeat split;
      solve [assumption
            | apply or_undefined_string_truthy
            | apply or_undefined_number_truthy].
  - repeat split; now left.
Qed.

(** X28.  Whatever happens to the table, the filter it hands to [query]
    holds no empty string and no zero: a member set to an empty value is
    taken out of the filter, and an empty search box sends no [search].
    After "clear filters" the filter has no member at all and the page
    is 1. *)
Theorem table_filter_never_falsy
  (events : list table_event) (pageSize : Z) :
  (forall f,
      QueryOptions.filter (AuditTable.options pageSize (table_run events))
      = Some f ->
      no_falsy_member f)
  /\ QueryOptions.filter
       (AuditTable.options pageSize
          (table_run (events ++ [filters_cleared])))
     = Some AuditFilter.empty
  /\ AuditTable.currentPage (table_run (events ++ [filters_cleared])) = 1%Z.
Proof.
  assert (G : forall st,
             no_falsy_member (AuditTable.filter st) ->
             no_falsy_member
               (AuditTable.filter (fold_left table_step events st))).
  { induction events as [| e l IH]; intros st H; [exact H |].
    cbn [fold_left]. apply IH. now apply table_step_filter. }
  split; [| split].
  - intros f [= <-].
    destruct (G AuditTable.initial ltac:(repeat split; now left))
      as (H1 & H2 & H3 & H4 & H5 & H6 & _).
    fold (table_run events) in *.
    repeat split; try assumption.
    cbn [AuditFilter.search].
    apply (or_undefined_string_truthy
             (AuditTable.searchTerm (table_run events))).
  - unfold table_run. rewrite fold_left_app. reflexivity.
  - unfold table_run. rewrite fold_left_app. reflexivity.
Qed.
